(** * BitMEX gateway (vnpy/gateway/bitmex/bitmex_gateway.py)

    A shallow embedding of the REST and websocket halves of the gateway:
    the rate governor, order submission, the history pager, the signer,
    and the stream handlers for executions, orders and error notices.

    Conventions of the embedding:
    - Python integers are [Z]; prices and quantities, which the handlers
      only copy, are carried as [Z] too.
    - A JSON record pushed by the venue is a [gmap string value]; [d["k"]]
      raises [KeyError] when the key is missing.
    - A method of a class is a computation in the monad [M S], where [S] is
      the state of the instance together with the trace of what the method
      did to its collaborators (log lines, queued requests, host callbacks).
      A raised exception keeps the state as mutated up to the raise. *)

From Stdlib Require Import ZArith String List.
From stdpp Require Import base numbers option list gmap sets strings pretty.

Local Open Scope string_scope.
Local Open Scope list_scope.
Local Open Scope Z_scope.

(** ** Python values, truthiness and exceptions *)

Module Py.

Inductive value :=
| VNone
| VInt (n : Z)
| VStr (s : string).

#[global] Instance value_eq_dec : EqDecision value.
Proof. solve_decision. Defined.

#[global] Instance value_countable : Countable value.
Proof.
  refine (inj_countable'
    (λ v, match v with
          | VNone => inl ()
          | VInt n => inr (inl n)
          | VStr s => inr (inr s)
          end)
    (λ x, match x with
          | inl _ => VNone
          | inr (inl n) => VInt n
          | inr (inr s) => VStr s
          end) _).
  by intros [].
Defined.

(** [bool(v)]: [None], [0] and the empty string are false. *)
Definition truthy (v : value) : bool :=
  match v with
  | VNone => false
  | VInt n => negb (Z.eqb n 0)
  | VStr s => negb (String.eqb s "")
  end.

Inductive exn :=
| KeyError
| TypeError
| AttributeError.

Inductive outcome (A : Type) :=
| Return (a : A)
| Raise (e : exn).
Arguments Return {A} a.
Arguments Raise {A} e.

Definition M (S A : Type) : Type := S → outcome A * S.

Definition ret {S A} (a : A) : M S A := λ st, (Return a, st).

Definition raise {S A} (e : exn) : M S A := λ st, (Raise e, st).

Definition bind {S A B} (c : M S A) (k : A → M S B) : M S B :=
  λ st, match c st with
        | (Return a, st') => k a st'
        | (Raise e, st') => (Raise e, st')
        end.

Definition gets {S A} (f : S → A) : M S A := λ st, (Return (f st), st).

Definition modify {S} (f : S → S) : M S unit := λ st, (Return tt, f st).

(** [for x in xs: body(x)] *)
Fixpoint for_each {S A} (body : A → M S unit) (xs : list A) : M S unit :=
  match xs with
  | [] => ret tt
  | x :: xs' => bind (body x) (λ _, for_each body xs')
  end.

(** [d[k]] on a JSON record. *)
Definition getitem {S} (d : gmap string value) (k : string) : M S value :=
  match d !! k with
  | Some v => ret v
  | None => raise KeyError
  end.

(** [d.get(k, default)] *)
Definition get_default (d : gmap string value) (k : string) (dflt : value)
  : value :=
  default dflt (d !! k).

(** [T[k]] on one of the module's translation tables. *)
Definition table_getitem {S K A} (T : K → option A) (k : K) : M S A :=
  match T k with
  | Some a => ret a
  | None => raise KeyError
  end.

(** [v[lo:hi]] on a string; slicing anything else is a [TypeError]. *)
Definition slice {S} (lo hi : nat) (v : value) : M S string :=
  match v with
  | VStr s => ret (substring lo (hi - lo) s)
  | _ => raise TypeError
  end.

(** [needle in hay] on strings. *)
Fixpoint contains (needle hay : string) : bool :=
  String.prefix needle hay ||
  match hay with
  | EmptyString => false
  | String _ hay' => contains needle hay'
  end.

End Py.
Import Py.

Notation "x <~ c1 ;; c2" := (bind c1 (λ x, c2))
  (at level 100, c1 at next level, right associativity).
Notation "c1 ;;; c2" := (bind c1 (λ _, c2))
  (at level 100, right associativity).

Abbreviation dict := (gmap string value).

(** ** Trading objects and constants

    The host platform's enums and records (vnpy.trader.constant and
    vnpy.trader.object) are imported by the gateway, not defined in it. *)

(** Modelled from the spec: the enum declarations are missing from the
    source; the members are those the gateway's tables name, with the
    further members of the host's enums that the tables leave unmapped. *)
Inductive Direction := LONG | SHORT | NET.
Inductive OrderType := LIMIT | MARKET | STOP | FAK | FOK.
Inductive Status :=
  SUBMITTING | NOTTRADED | PARTTRADED | ALLTRADED | CANCELLED | REJECTED.
Inductive Offset := OFFSET_NONE | OPEN | CLOSE | CLOSETODAY | CLOSEYESTERDAY.
Inductive Interval := MINUTE | HOUR | DAILY | WEEKLY.
Inductive Exchange := BITMEX | OTHER_EXCHANGE (name : string).

#[global] Instance Direction_eq_dec : EqDecision Direction.
Proof. solve_decision. Defined.
#[global] Instance OrderType_eq_dec : EqDecision OrderType.
Proof. solve_decision. Defined.
#[global] Instance Status_eq_dec : EqDecision Status.
Proof. solve_decision. Defined.
#[global] Instance Offset_eq_dec : EqDecision Offset.
Proof. solve_decision. Defined.
#[global] Instance Interval_eq_dec : EqDecision Interval.
Proof. solve_decision. Defined.
#[global] Instance Exchange_eq_dec : EqDecision Exchange.
Proof. solve_decision. Defined.

(** Modelled from the spec: the record declarations are missing from the
    source. OrderRecord: {clientId, symbol, direction, type, price,
    quantity, cumulativeFilled, status}; the fields below are the keyword
    arguments the gateway passes, plus [traded] and [status]. *)
Record OrderData := {
  o_symbol : value;
  o_exchange : Exchange;
  o_orderid : value;
  o_type : OrderType;
  o_direction : Direction;
  o_offset : Offset;
  o_price : value;
  o_volume : value;
  o_traded : value;
  o_status : Status;
  o_time : string;
  o_gateway_name : string
}.

Definition set_o_traded (v : value) (o : OrderData) : OrderData :=
  {| o_symbol := o_symbol o; o_exchange := o_exchange o;
     o_orderid := o_orderid o; o_type := o_type o;
     o_direction := o_direction o; o_offset := o_offset o;
     o_price := o_price o; o_volume := o_volume o;
     o_traded := v; o_status := o_status o;
     o_time := o_time o; o_gateway_name := o_gateway_name o |}.

Definition set_o_status (s : Status) (o : OrderData) : OrderData :=
  {| o_symbol := o_symbol o; o_exchange := o_exchange o;
     o_orderid := o_orderid o; o_type := o_type o;
     o_direction := o_direction o; o_offset := o_offset o;
     o_price := o_price o; o_volume := o_volume o;
     o_traded := o_traded o; o_status := s;
     o_time := o_time o; o_gateway_name := o_gateway_name o |}.

Record TradeData := {
  t_symbol : value;
  t_exchange : Exchange;
  t_orderid : value;
  t_tradeid : value;
  t_direction : Direction;
  t_price : value;
  t_volume : value;
  t_time : string;
  t_gateway_name : string
}.

(** A [datetime] is a point in time in whole seconds; a [timedelta] is a
    number of seconds. *)
Record BarData := {
  b_symbol : string;
  b_exchange : Exchange;
  b_datetime : Z;
  b_interval : Interval;
  b_volume : Z;
  b_open_price : Z;
  b_high_price : Z;
  b_low_price : Z;
  b_close_price : Z;
  b_gateway_name : string
}.

Record OrderRequest := {
  or_symbol : string;
  or_exchange : Exchange;
  or_direction : Direction;
  or_type : OrderType;
  or_volume : Z;
  or_price : Z;
  or_offset : Offset
}.

Record HistoryRequest := {
  hr_symbol : string;
  hr_exchange : Exchange;
  hr_start : Z;
  hr_end : option Z;
  hr_interval : Interval
}.

(** Modelled from the spec: [OrderRequest.create_order_data] is missing
    from the source. A REST submission creates the OrderRecord with status
    pending and nothing filled. *)
Definition create_order_data (req : OrderRequest) (orderid gateway_name : string)
  : OrderData :=
  {| o_symbol := VStr (or_symbol req); o_exchange := or_exchange req;
     o_orderid := VStr orderid; o_type := or_type req;
     o_direction := or_direction req; o_offset := or_offset req;
     o_price := VInt (or_price req); o_volume := VInt (or_volume req);
     o_traded := VInt 0; o_status := SUBMITTING;
     o_time := ""; o_gateway_name := gateway_name |}.

(** Modelled from the spec: the constructor defaults of [OrderData] are
    missing from the source; a record created from a stream sighting starts
    as the REST one does, pending and nothing filled, with no offset. *)
Definition OrderData_new (symbol : value) (type : OrderType) (orderid : value)
    (direction : Direction) (price volume : value) (time gateway_name : string)
  : OrderData :=
  {| o_symbol := symbol; o_exchange := BITMEX; o_orderid := orderid;
     o_type := type; o_direction := direction; o_offset := OFFSET_NONE;
     o_price := price; o_volume := volume;
     o_traded := VInt 0; o_status := SUBMITTING;
     o_time := time; o_gateway_name := gateway_name |}.

Definition vt_orderid (o : OrderData) : string :=
  match o_orderid o with
  | VStr id => o_gateway_name o +:+ "." +:+ id
  | VInt n => o_gateway_name o +:+ "." +:+ pretty n
  | VNone => o_gateway_name o +:+ ".None"
  end.

(** ** Module-level tables *)

Definition STATUS_BITMEX2VT (v : value) : option Status :=
  match v with
  | VStr "New" => Some NOTTRADED
  | VStr "Partially filled" => Some PARTTRADED
  | VStr "Filled" => Some ALLTRADED
  | VStr "Canceled" => Some CANCELLED
  | VStr "Rejected" => Some REJECTED
  | _ => None
  end.

Definition DIRECTION_VT2BITMEX (d : Direction) : option string :=
  match d with
  | LONG => Some "Buy"
  | SHORT => Some "Sell"
  | NET => None
  end.

Definition DIRECTION_BITMEX2VT (v : value) : option Direction :=
  match v with
  | VStr "Buy" => Some LONG
  | VStr "Sell" => Some SHORT
  | _ => None
  end.

Definition ORDERTYPE_VT2BITMEX (t : OrderType) : option string :=
  match t with
  | LIMIT => Some "Limit"
  | MARKET => Some "Market"
  | STOP => Some "Stop"
  | _ => None
  end.

Definition ORDERTYPE_BITMEX2VT (v : value) : option OrderType :=
  match v with
  | VStr "Limit" => Some LIMIT
  | VStr "Market" => Some MARKET
  | VStr "Stop" => Some STOP
  | _ => None
  end.

Definition INTERVAL_VT2BITMEX (i : Interval) : option string :=
  match i with
  | MINUTE => Some "1m"
  | HOUR => Some "1h"
  | DAILY => Some "1d"
  | WEEKLY => None
  end.

Definition TIMEDELTA_MAP (i : Interval) : option Z :=
  match i with
  | MINUTE => Some 60
  | HOUR => Some 3600
  | DAILY => Some 86400
  | WEEKLY => None
  end.

(** ** HTTP requests and responses (vnpy.api.rest) *)

(** [request.data] is a dict (or nothing) when queued and the urlencoded
    string once signed. *)
Inductive req_data :=
| DataNone
| DataDict (kv : list (string * value))
| DataStr (s : string).

(** A bucketed-trade row of a history page, its timestamp parsed. *)
Record Row := {
  r_timestamp : Z;
  r_volume : Z;
  r_open : Z;
  r_high : Z;
  r_low : Z;
  r_close : Z
}.

(** Response headers hold the integers that [int(...)] reads from them. *)
Record Response := {
  status_code : Z;
  text : string;
  resp_headers : gmap string Z;
  json : list Row
}.

(** [extra] is a reference to the order object the request is about. *)
Record Request := {
  method : string;
  path : string;
  params : list (string * value);
  data : req_data;
  headers : list (string * string);
  extra : option nat;
  response : option Response
}.

(** An exception class: its name and the names of its base classes. *)
Record exc_type := {
  exc_name : string;
  exc_bases : list string
}.

Definition issubclass (t cls : exc_type) : bool :=
  bool_decide (exc_name cls ∈ exc_name t :: exc_bases t).

(** [requests.ConnectionError], the class the gateway imports. *)
Definition ConnectionError : exc_type :=
  {| exc_name := "requests.ConnectionError";
     exc_bases := ["requests.RequestException"; "OSError"; "Exception"] |}.

(** ** BitmexRestApi *)

Module BitmexRestApi.

Inductive log_msg :=
| LogTooFrequent (sleep : Z)
| LogFlowControl
| LogHistoryFailed (code : Z) (body : string)
| LogHistoryOk (symbol : string) (interval : Interval) (begin end_ : Z)
| LogException (t : exc_type) (v : string).

(** What a method did to its collaborators, oldest first. *)
Inductive event :=
| WriteLog (m : log_msg)              (* gateway.write_log *)
| AddRequest (r : Request)            (* add_request: queued for the pool *)
| HttpRequest (r : Request)           (* request: sent synchronously *)
| GatewayOnOrder (ref : nat)          (* gateway.on_order(order) *)
| StderrWrite (t : exc_type) (v : string).

(** [self.secret]: [__init__] leaves the empty text there and [connect]
    stores [secret.encode()], bytes. [hmac.new] takes a key of bytes and
    raises [TypeError] when given a text. *)
Inductive secret_value :=
| SecretStr (s : string)
| SecretBytes (b : string).

(** [objects] is the heap of order objects created by [send_order]; a
    reference is an index into it. The host and the queued request hold
    the same reference. *)
Record RestApi := {
  gateway_name : string;
  key : string;
  secret : secret_value;
  order_count : Z;
  connect_time : Z;
  rate_limit_limit : Z;
  rate_limit_remaining : Z;
  rate_limit_sleep : Z;
  objects : list OrderData;
  trace : list event
}.

Definition set_order_count (v : Z) (st : RestApi) : RestApi :=
  {| gateway_name := gateway_name st; key := key st; secret := secret st;
     order_count := v; connect_time := connect_time st;
     rate_limit_limit := rate_limit_limit st;
     rate_limit_remaining := rate_limit_remaining st;
     rate_limit_sleep := rate_limit_sleep st;
     objects := objects st; trace := trace st |}.

Definition set_rate_limit_remaining (v : Z) (st : RestApi) : RestApi :=
  {| gateway_name := gateway_name st; key := key st; secret := secret st;
     order_count := order_count st; connect_time := connect_time st;
     rate_limit_limit := rate_limit_limit st;
     rate_limit_remaining := v;
     rate_limit_sleep := rate_limit_sleep st;
     objects := objects st; trace := trace st |}.

Definition set_rate_limit_sleep (v : Z) (st : RestApi) : RestApi :=
  {| gateway_name := gateway_name st; key := key st; secret := secret st;
     order_count := order_count st; connect_time := connect_time st;
     rate_limit_limit := rate_limit_limit st;
     rate_limit_remaining := rate_limit_remaining st;
     rate_limit_sleep := v;
     objects := objects st; trace := trace st |}.

Definition set_objects (v : list OrderData) (st : RestApi) : RestApi :=
  {| gateway_name := gateway_name st; key := key st; secret := secret st;
     order_count := order_count st; connect_time := connect_time st;
     rate_limit_limit := rate_limit_limit st;
     rate_limit_remaining := rate_limit_remaining st;
     rate_limit_sleep := rate_limit_sleep st;
     objects := v; trace := trace st |}.

Definition emit (e : event) : M RestApi unit :=
  modify (λ st,
    {| gateway_name := gateway_name st; key := key st; secret := secret st;
       order_count := order_count st; connect_time := connect_time st;
       rate_limit_limit := rate_limit_limit st;
       rate_limit_remaining := rate_limit_remaining st;
       rate_limit_sleep := rate_limit_sleep st;
       objects := objects st; trace := trace st ++ [e] |}).

(** [__init__] *)
Definition init (name : string) : RestApi :=
  {| gateway_name := name; key := ""; secret := SecretStr "";
     order_count := 1000000; connect_time := 0;
     rate_limit_limit := 60; rate_limit_remaining := 60;
     rate_limit_sleep := 0;
     objects := []; trace := [] |}.

(** The assignments [connect] makes before it starts the client: the key,
    the secret as bytes, and the epoch, [stamp] being the clock read as
    yymmddHHMMSS. *)
Definition connect_fields (key' secret' : string) (stamp : Z) (st : RestApi)
  : RestApi :=
  {| gateway_name := gateway_name st; key := key';
     secret := SecretBytes secret';
     order_count := order_count st;
     connect_time := stamp * order_count st;
     rate_limit_limit := rate_limit_limit st;
     rate_limit_remaining := rate_limit_remaining st;
     rate_limit_sleep := rate_limit_sleep st;
     objects := objects st; trace := trace st |}.

Definition write_log (m : log_msg) : M RestApi unit := emit (WriteLog m).

(** *** Rate governor *)

Definition check_rate_limit : M RestApi bool :=
  sleep <~ gets rate_limit_sleep ;;
  if negb (Z.eqb sleep 0) then
    write_log (LogTooFrequent sleep) ;;;
    ret false
  else
    remaining <~ gets rate_limit_remaining ;;
    if Z.eqb remaining 0 then
      write_log LogFlowControl ;;;
      ret false
    else
      modify (set_rate_limit_remaining (remaining - 1)) ;;;
      ret true.

Definition update_rate_limit (request : Request) : M RestApi unit :=
  match response request with
  | None => ret tt
  | Some resp =>
      let headers := resp_headers resp in
      remaining <~ table_getitem (λ k, headers !! k) "x-ratelimit-remaining" ;;
      modify (set_rate_limit_remaining remaining) ;;;
      modify (set_rate_limit_sleep (default 0 (headers !! "Retry-After"))) ;;;
      sleep <~ gets rate_limit_sleep ;;
      if negb (Z.eqb sleep 0) then
        modify (set_rate_limit_sleep (sleep + 1))
      else ret tt
  end.

Definition reset_rate_limit : M RestApi unit :=
  remaining <~ gets rate_limit_remaining ;;
  modify (set_rate_limit_remaining (remaining + 1)) ;;;
  remaining <~ gets rate_limit_remaining ;;
  limit <~ gets rate_limit_limit ;;
  modify (set_rate_limit_remaining (Z.min remaining limit)) ;;;
  sleep <~ gets rate_limit_sleep ;;
  if negb (Z.eqb sleep 0) then
    modify (set_rate_limit_sleep (sleep - 1))
  else ret tt.

(** *** Order submission *)

Definition _new_order_id : M RestApi Z :=
  n <~ gets order_count ;;
  modify (set_order_count (n + 1)) ;;;
  gets order_count.

(** [OrderData(...)]: a fresh object on the heap. *)
Definition new_object (o : OrderData) : M RestApi nat :=
  ref <~ gets (λ st, length (objects st)) ;;
  modify (λ st, set_objects (objects st ++ [o]) st) ;;;
  ret ref.

Definition join (sep : string) (l : list string) : string :=
  match l with
  | [] => ""
  | x :: l' => fold_left (λ acc y, acc +:+ sep +:+ y) l' x
  end.

Definition send_order (req : OrderRequest) : M RestApi string :=
  ok <~ check_rate_limit ;;
  if negb ok then ret ""
  else
    ct <~ gets connect_time ;;
    n <~ _new_order_id ;;
    let orderid := pretty (ct + n) in
    side <~ table_getitem DIRECTION_VT2BITMEX (or_direction req) ;;
    ordType <~ table_getitem ORDERTYPE_VT2BITMEX (or_type req) ;;
    let data0 :=
      [("symbol", VStr (or_symbol req)); ("side", VStr side);
       ("ordType", VStr ordType); ("orderQty", VInt (or_volume req));
       ("clOrdID", VStr orderid)] in
    let '(data1, inst1) :=
      if decide (or_type req = LIMIT) then
        (data0 ++ [("price", VInt (or_price req))], [])
      else if decide (or_type req = STOP) then
        (data0 ++ [("stopPx", VInt (or_price req))], ["LastPrice"])
      else (data0, []) in
    let inst :=
      if decide (or_offset req = CLOSE) then inst1 ++ ["ReduceOnly"]
      else inst1 in
    let data2 :=
      match inst with
      | [] => data1
      | _ => data1 ++ [("execInst", VStr (join "," inst))]
      end in
    name <~ gets gateway_name ;;
    let order := create_order_data req orderid name in
    ref <~ new_object order ;;
    emit (AddRequest
      {| method := "POST"; path := "/order"; params := [];
         data := DataDict data2; headers := []; extra := Some ref;
         response := None |}) ;;;
    emit (GatewayOnOrder ref) ;;;
    ret (vt_orderid order).

Definition on_error (exception_type : exc_type) (exception_value : string)
  : M RestApi unit :=
  write_log (LogException exception_type exception_value) ;;;
  emit (StderrWrite exception_type exception_value).

(** [order = request.extra; order.status = Status.REJECTED]: the object
    behind the reference is updated in place, so the host, which was handed
    the same reference by [send_order], sees the new status. A request
    queued without [extra] carries [None], which has no [status]. *)
Definition on_send_order_error (exception_type : exc_type)
    (exception_value : string) (request : Request) : M RestApi unit :=
  match extra request with
  | None => raise AttributeError
  | Some ref =>
      modify (λ st,
        set_objects (alter (set_o_status REJECTED) ref (objects st)) st) ;;;
      emit (GatewayOnOrder ref) ;;;
      if negb (issubclass exception_type ConnectionError) then
        on_error exception_type exception_value
      else ret tt
  end.

Definition on_cancel_order_error (exception_type : exc_type)
    (exception_value : string) (request : Request) : M RestApi unit :=
  if negb (issubclass exception_type ConnectionError) then
    on_error exception_type exception_value
  else ret tt.

Definition on_send_order (request : Request) : M RestApi unit :=
  update_rate_limit request.

(** *** History pager *)

Definition bar_of (req : HistoryRequest) (name : string) (d : Row) : BarData :=
  {| b_symbol := hr_symbol req; b_exchange := hr_exchange req;
     b_datetime := r_timestamp d; b_interval := hr_interval req;
     b_volume := r_volume d; b_open_price := r_open d;
     b_high_price := r_high d; b_low_price := r_low d;
     b_close_price := r_close d; b_gateway_name := name |}.

Section History.

(** The venue as this query sees it: its answer to the [page]-th request
    the query sends (counted from 0). *)
Variable server : nat → Request → Response.

(** [self.request("GET", path, params=params)]: sent at once, the caller
    waits for the response. *)
Definition request (page : nat) (path : string) (params : list (string * value))
  : M RestApi Response :=
  let r := {| method := "GET"; path := path; params := params;
              data := DataNone; headers := []; extra := None;
              response := None |} in
  emit (HttpRequest r) ;;;
  ret (server page r).

(** The [while True] loop; [start_time] is the cursor. The result is [None]
    when [fuel] pages were not enough to leave the loop. *)
Fixpoint query_history_loop (fuel page : nat) (req : HistoryRequest)
    (history : list BarData) (start_time : Z)
  : M RestApi (option (list BarData)) :=
  match fuel with
  | O => ret None
  | S fuel' =>
      binSize <~ table_getitem INTERVAL_VT2BITMEX (hr_interval req) ;;
      let params0 :=
        [("binSize", VStr binSize); ("symbol", VStr (hr_symbol req));
         ("count", VInt 750); ("startTime", VInt start_time)] in
      let params :=
        match hr_end req with
        | Some e => params0 ++ [("endTime", VInt e)]
        | None => params0
        end in
      resp <~ request page "/trade/bucketed" params ;;
      if negb (Z.eqb (status_code resp / 100) 2) then
        write_log (LogHistoryFailed (status_code resp) (text resp)) ;;;
        ret (Some history)
      else
        let data := json resp in
        match data with
        | [] => ret (Some history)
        | d0 :: _ =>
            name <~ gets gateway_name ;;
            let bars := map (bar_of req name) data in
            let history' := history ++ bars in
            let bar := List.last bars (bar_of req name d0) in
            write_log (LogHistoryOk (hr_symbol req) (hr_interval req)
                         (r_timestamp d0)
                         (r_timestamp (List.last data d0))) ;;;
            if (length data <? 750)%nat then ret (Some history')
            else
              delta <~ table_getitem TIMEDELTA_MAP (hr_interval req) ;;
              query_history_loop fuel' (S page) req history'
                (b_datetime bar + delta)
        end
  end.

(** The inner [None] is Python's bare [return]; the outer one is fuel. *)
Definition query_history (fuel : nat) (req : HistoryRequest)
  : M RestApi (option (option (list BarData))) :=
  ok <~ check_rate_limit ;;
  if negb ok then ret (Some None)
  else
    r <~ query_history_loop fuel 0 req [] (hr_start req) ;;
    ret (option_map Some r).

End History.

(** *** Signer *)

Section Signer.

(** [hmac.new(secret, msg, sha256).hexdigest()] and
    [urllib.parse.urlencode], both library code. *)
Variable hmac_sha256_hexdigest : string → string → string.
Variable urlencode : list (string * value) → string.

Definition set_data (v : req_data) (r : Request) : Request :=
  {| method := method r; path := path r; params := params r; data := v;
     headers := headers r; extra := extra r; response := response r |}.

Definition set_headers (v : list (string * string)) (r : Request) : Request :=
  {| method := method r; path := path r; params := params r; data := data r;
     headers := v; extra := extra r; response := response r |}.

(** [sign] assigns to the request it is given and to nothing else: the
    request is the state here, [self] is only read, and the value returned
    is the request as it then is. [now] is [time.time()] in whole seconds:
    [int(t + 30)] is the whole part of [t] plus 30. *)
Definition sign (now : Z) (self : RestApi) : M Request Request :=
  let expires := now + 30 in
  params <~ gets params ;;
  path <~ gets path ;;
  let path' :=
    match params with
    | [] => path
    | ps => path +:+ "?" +:+ urlencode ps
    end in
  data <~ gets data ;;
  data' <~ match data with
           | DataNone | DataDict [] => ret ""
           | DataDict kv => ret (urlencode kv)
           | DataStr s => if decide (s = "") then ret "" else raise TypeError
           end ;;
  modify (set_data (DataStr data')) ;;;
  method <~ gets method ;;
  let msg := method +:+ "/api/v1" +:+ path' +:+ pretty expires +:+ data' in
  signature <~ match secret self with
               | SecretBytes k => ret (hmac_sha256_hexdigest k msg)
               | SecretStr _ => raise TypeError
               end ;;
  modify (set_headers
    [("Content-Type", "application/x-www-form-urlencoded");
     ("Accept", "application/json");
     ("api-key", key self);
     ("api-expires", pretty expires);
     ("api-signature", signature)]) ;;;
  gets id.

End Signer.

End BitmexRestApi.

(** ** BitmexWebsocketApi *)

Module BitmexWebsocketApi.

(** An inbound message: the keys [on_packet] looks at. [data] is one record
    or a list of records. *)
Record Packet := {
  pk_error : option string;
  pk_request : option dict;
  pk_success : option value;
  pk_table : option string;
  pk_data : option (list dict + dict)
}.

Inductive log_msg :=
| LogConnected
| LogDisconnected
| LogApiError (e : string)
| LogAuthorized.

Inductive out_packet :=
| AuthKey (key : string) (expires : Z) (signature : string)
| Subscribe (topics : list string).

(** What a handler did to its collaborators, oldest first. The host is
    handed [copy(order)], a snapshot, hence a value and not a reference. *)
Inductive event :=
| WriteLog (m : log_msg)
| SendPacket (p : out_packet)
| GatewayOnTrade (t : TradeData)
| GatewayOnOrder (o : OrderData).

Record WsApi := {
  gateway_name : string;
  key : string;
  secret : string;
  active : bool;
  orders : gmap value OrderData;
  trades : gset value;
  trace : list event
}.

Definition set_active (v : bool) (st : WsApi) : WsApi :=
  {| gateway_name := gateway_name st; key := key st; secret := secret st;
     active := v; orders := orders st; trades := trades st;
     trace := trace st |}.

Definition set_orders (v : gmap value OrderData) (st : WsApi) : WsApi :=
  {| gateway_name := gateway_name st; key := key st; secret := secret st;
     active := active st; orders := v; trades := trades st;
     trace := trace st |}.

Definition set_trades (v : gset value) (st : WsApi) : WsApi :=
  {| gateway_name := gateway_name st; key := key st; secret := secret st;
     active := active st; orders := orders st; trades := v;
     trace := trace st |}.

Definition emit (e : event) : M WsApi unit :=
  modify (λ st,
    {| gateway_name := gateway_name st; key := key st; secret := secret st;
       active := active st; orders := orders st; trades := trades st;
       trace := trace st ++ [e] |}).

(** [__init__] followed by [connect] and the transport's [start]. *)
Definition init (name key secret : string) : WsApi :=
  {| gateway_name := name; key := key; secret := secret;
     active := true; orders := ∅; trades := ∅; trace := [] |}.

Definition write_log (m : log_msg) : M WsApi unit := emit (WriteLog m).

Definition send_packet (p : out_packet) : M WsApi unit := emit (SendPacket p).

(** *** Execution and order handlers *)

Definition on_trade (d : dict) : M WsApi unit :=
  lastQty <~ getitem d "lastQty" ;;
  skip <~ (if negb (truthy lastQty) then ret true
           else side <~ getitem d "side" ;; ret (negb (truthy side))) ;;
  if skip : bool then ret tt
  else
    tradeid <~ getitem d "execID" ;;
    seen <~ gets (λ st, bool_decide (tradeid ∈ trades st)) ;;
    if seen : bool then ret tt
    else
      modify (λ st, set_trades ({[tradeid]} ∪ trades st) st) ;;;
      clOrdID <~ getitem d "clOrdID" ;;
      orderid <~ (if truthy clOrdID then getitem d "clOrdID"
                  else getitem d "orderID") ;;
      symbol <~ getitem d "symbol" ;;
      side <~ getitem d "side" ;;
      direction <~ table_getitem DIRECTION_BITMEX2VT side ;;
      price <~ getitem d "lastPx" ;;
      volume <~ getitem d "lastQty" ;;
      timestamp <~ getitem d "timestamp" ;;
      time <~ slice 11 19 timestamp ;;
      name <~ gets gateway_name ;;
      emit (GatewayOnTrade
        {| t_symbol := symbol; t_exchange := BITMEX; t_orderid := orderid;
           t_tradeid := tradeid; t_direction := direction;
           t_price := price; t_volume := volume; t_time := time;
           t_gateway_name := name |}).

Definition on_order (d : dict) : M WsApi unit :=
  match d !! "ordStatus" with
  | None => ret tt
  | Some ordStatus =>
      sysid <~ getitem d "orderID" ;;
      cached <~ gets (λ st, orders st !! sysid) ;;
      order <~ match cached with
               | Some order => ret order
               | None =>
                   clOrdID <~ getitem d "clOrdID" ;;
                   orderid <~ (if truthy clOrdID then getitem d "clOrdID"
                               else ret sysid) ;;
                   symbol <~ getitem d "symbol" ;;
                   ordType <~ getitem d "ordType" ;;
                   type <~ table_getitem ORDERTYPE_BITMEX2VT ordType ;;
                   side <~ getitem d "side" ;;
                   direction <~ table_getitem DIRECTION_BITMEX2VT side ;;
                   price <~ getitem d "price" ;;
                   volume <~ getitem d "orderQty" ;;
                   timestamp <~ getitem d "timestamp" ;;
                   time <~ slice 11 19 timestamp ;;
                   name <~ gets gateway_name ;;
                   let order := OrderData_new symbol type orderid direction
                                  price volume time name in
                   modify (λ st, set_orders (<[sysid := order]> (orders st)) st) ;;;
                   ret order
               end ;;
      (* the cached object itself is updated: write the new fields back *)
      let order1 := set_o_traded (get_default d "cumQty" (o_traded order)) order in
      let order2 :=
        set_o_status (default (o_status order1) (STATUS_BITMEX2VT ordStatus))
          order1 in
      modify (λ st, set_orders (<[sysid := order2]> (orders st)) st) ;;;
      emit (GatewayOnOrder order2)
  end.

(** *** Session *)

Section Session.

Variable hmac_sha256_hexdigest : string → string → string.

(** The handlers of the public-trade, depth, position, margin and
    instrument topics; the properties below do not depend on them. *)
Variables on_tick on_depth on_position on_account on_contract
  : dict → M WsApi unit.

Definition callbacks (name : string) : option (dict → M WsApi unit) :=
  if decide (name = "trade") then Some on_tick
  else if decide (name = "orderBook10") then Some on_depth
  else if decide (name = "execution") then Some on_trade
  else if decide (name = "order") then Some on_order
  else if decide (name = "position") then Some on_position
  else if decide (name = "margin") then Some on_account
  else if decide (name = "instrument") then Some on_contract
  else None.

(** [now] is [time.time()] in whole seconds. *)
Definition authenticate (now : Z) : M WsApi unit :=
  let expires := now in
  let method := "GET" in
  let path := "/realtime" in
  let msg := method +:+ path +:+ pretty expires in
  secret <~ gets secret ;;
  let signature := hmac_sha256_hexdigest secret msg in
  key <~ gets key ;;
  send_packet (AuthKey key expires signature).

Definition subscribe_topic : M WsApi unit :=
  send_packet (Subscribe
    ["instrument"; "trade"; "orderBook10"; "execution"; "order";
     "position"; "margin"]).

Definition on_connected (now : Z) : M WsApi unit :=
  write_log LogConnected ;;;
  authenticate now.

Definition on_disconnected : M WsApi unit :=
  write_log LogDisconnected.

Definition on_packet (packet : Packet) : M WsApi unit :=
  match pk_error packet with
  | Some err =>
      write_log (LogApiError err) ;;;
      if contains "not valid" err then modify (set_active false)
      else ret tt
  | None =>
      match pk_request packet with
      | Some req =>
          success <~ table_getitem pk_success packet ;;
          if truthy success then
            op <~ getitem req "op" ;;
            if decide (op = VStr "authKey") then
              write_log LogAuthorized ;;;
              subscribe_topic
            else ret tt
          else ret tt
      | None =>
          match pk_table packet with
          | Some name =>
              callback <~ table_getitem callbacks name ;;
              data <~ table_getitem pk_data packet ;;
              match data with
              | inl ds => for_each callback ds
              | inr d => callback d
              end
          | None => ret tt
          end
      end
  end.

(** Modelled from the spec: the transport that owns the connection and
    its reconnect loop (vnpy.api.websocket) is missing from the source.
    On disconnect the whole state machine restarts from Disconnected, with
    authentication redone on connect, unless the session has reached the
    terminal Error state, where it must stop retrying automatically. The
    terminal state is the cleared [active] flag. *)
Definition transport_disconnect (now : Z) : M WsApi unit :=
  on_disconnected ;;;
  running <~ gets active ;;
  if running : bool then on_connected now else ret tt.

End Session.

End BitmexWebsocketApi.

(** ** Observations used by the statements *)

Module Rest := BitmexRestApi.
Module Ws := BitmexWebsocketApi.

(** The three operations of the rate governor, as the gateway calls them:
    [check_rate_limit] before a request, [update_rate_limit] on a response,
    [reset_rate_limit] on the timer. *)
Inductive rate_call :=
| TryAcquire
| Observe (request : Request)
| Tick.

Definition rate_step (st : Rest.RestApi) (c : rate_call) : Rest.RestApi :=
  match c with
  | TryAcquire => snd (Rest.check_rate_limit st)
  | Observe request => snd (Rest.update_rate_limit request st)
  | Tick => snd (Rest.reset_rate_limit st)
  end.

Definition rate_run (calls : list rate_call) (st : Rest.RestApi)
  : Rest.RestApi :=
  fold_left rate_step calls st.

Definition nonneg_headers (c : rate_call) : Prop :=
  match c with
  | Observe request =>
      match response request with
      | Some resp => ∀ (k : string) (v : Z), resp_headers resp !! k = Some v → 0 ≤ v
      | None => True
      end
  | _ => True
  end.

(** The quota a response reports does not exceed [limit]. *)
Definition within_limit (limit : Z) (c : rate_call) : Prop :=
  match c with
  | Observe request =>
      match response request with
      | Some resp =>
          ∀ v : Z, resp_headers resp !! "x-ratelimit-remaining" = Some v →
                   v ≤ limit
      | None => True
      end
  | _ => True
  end.

Definition rate_lower_inv (st : Rest.RestApi) : Prop :=
  0 ≤ Rest.rate_limit_remaining st ∧ 0 ≤ Rest.rate_limit_sleep st.

Definition rate_inv (st : Rest.RestApi) : Prop :=
  0 ≤ Rest.rate_limit_remaining st ≤ Rest.rate_limit_limit st ∧
  0 ≤ Rest.rate_limit_sleep st.

(** A response whose only content is its rate-limit headers. *)
Definition observed (remaining : Z) (retry_after : option Z) : Request :=
  {| method := "POST"; path := "/order"; params := []; data := DataNone;
     headers := []; extra := None;
     response := Some
       {| status_code := 200; text := "";
          resp_headers :=
            match retry_after with
            | Some s => {[ "x-ratelimit-remaining" := remaining;
                           "Retry-After" := s ]}
            | None => {[ "x-ratelimit-remaining" := remaining ]}
            end;
          json := [] |} |}.

(** The requests sent synchronously and the requests queued, oldest first. *)
Definition http_requests (st : Rest.RestApi) : list Request :=
  omap (λ e, match e with Rest.HttpRequest r => Some r | _ => None end)
       (Rest.trace st).

Definition queued_requests (st : Rest.RestApi) : list Request :=
  omap (λ e, match e with Rest.AddRequest r => Some r | _ => None end)
       (Rest.trace st).

Definition host_orders (st : Rest.RestApi) : list nat :=
  omap (λ e, match e with Rest.GatewayOnOrder r => Some r | _ => None end)
       (Rest.trace st).

Definition logged (st : Rest.RestApi) : list Rest.log_msg :=
  omap (λ e, match e with Rest.WriteLog m => Some m | _ => None end)
       (Rest.trace st).

Definition sample_order : OrderRequest :=
  {| or_symbol := "XBTUSD"; or_exchange := BITMEX; or_direction := LONG;
     or_type := LIMIT; or_volume := 10; or_price := 9000;
     or_offset := OFFSET_NONE |}.

(** The request [send_order] queued for [sample_order] on a fresh
    instance: it carries reference 0. *)
Definition sample_sent : Rest.RestApi :=
  snd (Rest.send_order sample_order (Rest.init "BITMEX")).

Definition sample_request : Request :=
  default (observed 0 None) (head (queued_requests sample_sent)).

Definition status_of (st : Rest.RestApi) (ref : nat) : option Status :=
  o_status <$> Rest.objects st !! ref.

(** A mock venue: 750 one-minute rows, then 10 more, then an empty body. *)
Definition mock_rows (t0 : Z) (n : nat) : list Row :=
  map (λ i : nat,
         {| r_timestamp := t0 + 60 * Z.of_nat i; r_volume := 1; r_open := 100;
            r_high := 101; r_low := 99; r_close := 100 |})
      (seq 0 n).

Definition ok_page (rows : list Row) : Response :=
  {| status_code := 200; text := ""; resp_headers := ∅; json := rows |}.

Definition mock_server (page : nat) (r : Request) : Response :=
  match page with
  | 0%nat => ok_page (mock_rows 0 750)
  | 1%nat => ok_page (mock_rows 45000 10)
  | _ => ok_page []
  end.

Definition mock_history : HistoryRequest :=
  {| hr_symbol := "XBTUSD"; hr_exchange := BITMEX; hr_start := 0;
     hr_end := None; hr_interval := MINUTE |}.

(** Quota units taken between two states. *)
Definition acquired (st st' : Rest.RestApi) : Z :=
  Rest.rate_limit_remaining st - Rest.rate_limit_remaining st'.

Definition new_http_requests (st st' : Rest.RestApi) : list Request :=
  drop (length (http_requests st)) (http_requests st').

(** The governor's three fields are the same in both states. *)
Definition same_rate (st st' : Rest.RestApi) : Prop :=
  Rest.rate_limit_remaining st' = Rest.rate_limit_remaining st ∧
  Rest.rate_limit_sleep st' = Rest.rate_limit_sleep st ∧
  Rest.rate_limit_limit st' = Rest.rate_limit_limit st.

(** The request the pager sends for the cursor [start_time]. *)
Definition page_request (req : HistoryRequest) (binSize : string)
    (start_time : Z) : Request :=
  {| method := "GET"; path := "/trade/bucketed";
     params :=
       [("binSize", VStr binSize); ("symbol", VStr (hr_symbol req));
        ("count", VInt 750); ("startTime", VInt start_time)] ++
       match hr_end req with
       | Some e => [("endTime", VInt e)]
       | None => []
       end;
     data := DataNone; headers := []; extra := None; response := None |}.

(** The expiry in the last packet sent, when that is an authentication
    request. *)
Definition sent_expiry (st : Ws.WsApi) : option Z :=
  match last (Ws.trace st) with
  | Some (Ws.SendPacket (Ws.AuthKey _ expires _)) => Some expires
  | _ => None
  end.

(** A record that passes the filter: it has a fill quantity and a side,
    and neither is zero, empty or null. *)
Definition is_fill (d : dict) : bool :=
  match d !! "lastQty", d !! "side" with
  | Some q, Some s => truthy q && truthy s
  | _, _ => false
  end.

Definition emitted_trades (st : Ws.WsApi) : list TradeData :=
  omap (λ e, match e with Ws.GatewayOnTrade t => Some t | _ => None end)
       (Ws.trace st).

Definition emitted_orders (st : Ws.WsApi) : list OrderData :=
  omap (λ e, match e with Ws.GatewayOnOrder o => Some o | _ => None end)
       (Ws.trace st).

(** [tr] is the trade that record [d] describes. *)
Definition trade_from (d : dict) (name : string) (tr : TradeData) : Prop :=
  d !! "execID" = Some (t_tradeid tr) ∧
  d !! "symbol" = Some (t_symbol tr) ∧
  d !! "lastPx" = Some (t_price tr) ∧
  d !! "lastQty" = Some (t_volume tr) ∧
  (∃ side, d !! "side" = Some side ∧
           DIRECTION_BITMEX2VT side = Some (t_direction tr)) ∧
  (∃ c, d !! "clOrdID" = Some c ∧
        if truthy c then t_orderid tr = c
        else d !! "orderID" = Some (t_orderid tr)) ∧
  (∃ ts, d !! "timestamp" = Some (VStr ts) ∧ t_time tr = substring 11 8 ts) ∧
  t_exchange tr = BITMEX ∧
  t_gateway_name tr = name.

(** Every trade handed to the host has its id in the dedup set. *)
Definition ids_recorded (st : Ws.WsApi) : Prop :=
  ∀ tr, tr ∈ emitted_trades st → t_tradeid tr ∈ Ws.trades st.

Definition with_id (t : value) (l : list TradeData) : list TradeData :=
  filter (λ tr, t_tradeid tr = t) l.

(** Execution records handed to [on_trade] one call after the other, as
    the stream delivers them over its messages. A call that raises leaves
    the state as it left it, and the next record is handled all the
    same. *)
Definition deliver (ds : list dict) (st : Ws.WsApi) : Ws.WsApi :=
  fold_left (λ st d, snd (Ws.on_trade d st)) ds st.

Definition execution (execID : string) (lastQty : Z) (side : string)
    (lastPx : Z) : dict :=
  list_to_map
    [("execID", VStr execID); ("orderID", VStr "venue-7");
     ("clOrdID", VStr "201104093000000001"); ("symbol", VStr "XBTUSD");
     ("side", VStr side); ("lastQty", VInt lastQty); ("lastPx", VInt lastPx);
     ("timestamp", VStr "2020-11-04T09:30:15.123Z")].

(** The two assignments at the end of [on_order]. *)
Definition updated (d : dict) (ordStatus : value) (o : OrderData) : OrderData :=
  set_o_status (default (o_status o) (STATUS_BITMEX2VT ordStatus))
    (set_o_traded (get_default d "cumQty" (o_traded o)) o).

(** Two orders that differ in [traded] and [status] at most. *)
Definition same_order_terms (o o' : OrderData) : Prop :=
  o_symbol o' = o_symbol o ∧
  o_exchange o' = o_exchange o ∧
  o_type o' = o_type o ∧
  o_orderid o' = o_orderid o ∧
  o_direction o' = o_direction o ∧
  o_offset o' = o_offset o ∧
  o_price o' = o_price o ∧
  o_volume o' = o_volume o ∧
  o_time o' = o_time o ∧
  o_gateway_name o' = o_gateway_name o.

Definition order_record (ordStatus : option string) (cumQty : option Z) : dict :=
  list_to_map
    ([("orderID", VStr "venue-7"); ("clOrdID", VStr "201104093000000001");
      ("symbol", VStr "XBTUSD"); ("ordType", VStr "Limit");
      ("side", VStr "Buy"); ("price", VInt 9000); ("orderQty", VInt 10);
      ("timestamp", VStr "2020-11-04T09:30:15.123Z")] ++
     match ordStatus with Some s => [("ordStatus", VStr s)] | None => [] end ++
     match cumQty with Some q => [("cumQty", VInt q)] | None => [] end).

(** The session after the first sighting of order venue-7, status New. *)
Definition sample_ws : Ws.WsApi :=
  snd (Ws.on_order (order_record (Some "New") None)
         (Ws.init "BITMEX" "key" "secret")).

Definition sample_cached : OrderData :=
  set_o_status NOTTRADED
    (OrderData_new (VStr "XBTUSD") LIMIT (VStr "201104093000000001") LONG
       (VInt 9000) (VInt 10) "09:30:15" "BITMEX").

Definition sent_packets (st : Ws.WsApi) : list Ws.out_packet :=
  omap (λ e, match e with Ws.SendPacket p => Some p | _ => None end)
       (Ws.trace st).


Definition ignore_record : dict → M Ws.WsApi unit := λ _, ret tt.

(** [stable R c]: running [c] moves the state along [R] only. For a
    preorder [R] this is closed under [bind], so a frame property of a
    method follows from the frame properties of its primitives. *)
Definition stable {S A} (R : relation S) (c : M S A) : Prop :=
  ∀ st, R st (snd (c st)).

(** ** Further observations and embedded code *)

(** [n] calls of [check_rate_limit] in a row; the result is the number of
    calls that were granted. *)
Fixpoint try_acquire_n (n : nat) : M Rest.RestApi nat :=
  match n with
  | O => ret O
  | S n' =>
      ok <~ Rest.check_rate_limit ;;
      k <~ try_acquire_n n' ;;
      ret (if ok : bool then S k else k)
  end.

(** The order objects created so far, by display id. *)
Definition order_ids (st : Rest.RestApi) : list value :=
  o_orderid <$> Rest.objects st.

(** Connection epoch kept, counter not lowered, display ids kept. *)
Definition ids_kept (st st' : Rest.RestApi) : Prop :=
  Rest.connect_time st' = Rest.connect_time st ∧
  Rest.order_count st ≤ Rest.order_count st' ∧
  order_ids st' = order_ids st.

(** Every display id is the epoch plus a counter value already used, each
    value once. *)
Definition ids_issued (st : Rest.RestApi) : Prop :=
  ∃ ks : list Z,
    order_ids st = (λ k, VStr (pretty (Rest.connect_time st + k))) <$> ks ∧
    NoDup ks ∧
    Forall (λ k, k ≤ Rest.order_count st) ks.

(** The form body of a queued request, as a list of fields. *)
Definition body_fields (r : Request) : list (string * value) :=
  match data r with
  | DataDict kv => kv
  | _ => []
  end.

(** A request the tables can translate. *)
Definition translatable (req : OrderRequest) : Prop :=
  or_direction req ≠ NET ∧ or_type req ≠ FAK ∧ or_type req ≠ FOK.

(** Modelled from the spec: the declaration of [CancelRequest] is missing
    from the source; [cancelOrder] is given the id of the order. *)
Record CancelRequest := {
  cr_orderid : string;
  cr_symbol : string;
  cr_exchange : Exchange
}.

(** The decimal digits of ASCII. *)
Definition is_digit_char (c : Ascii.ascii) : bool :=
  (48 <=? Ascii.nat_of_ascii c)%nat && (Ascii.nat_of_ascii c <=? 57)%nat.

Fixpoint all_digits (s : string) : bool :=
  match s with
  | EmptyString => true
  | String c s' => is_digit_char c && all_digits s'
  end.

(** [str.isascii()]: every character is below 128. A text is held as its
    UTF-8 bytes, and a character outside ASCII is a run of bytes from 128
    up. *)
Fixpoint isascii (s : string) : bool :=
  match s with
  | EmptyString => true
  | String c s' => (Ascii.nat_of_ascii c <? 128)%nat && isascii s'
  end.

Section Cancel.

(** [str.isdigit()] on a text with a character outside ASCII: whether all
    its characters are digits of some script is read off the Unicode
    tables of the interpreter, library data. *)
Variable isdigit_unicode : string → bool.

(** [str.isdigit()]: at least one character, all of them digits. The only
    digits ASCII has are the ten decimal ones; for any other text the
    tables decide. *)
Definition isdigit (s : string) : bool :=
  if isascii s then negb (String.eqb s "") && all_digits s
  else isdigit_unicode s.

(** [BitmexRestApi.cancel_order] *)
Definition cancel_order (req : CancelRequest) : M Rest.RestApi unit :=
  ok <~ Rest.check_rate_limit ;;
  if negb ok then ret tt
  else
    let orderid := cr_orderid req in
    let params :=
      if isdigit orderid then [("clOrdID", VStr orderid)]
      else [("orderID", VStr orderid)] in
    Rest.emit (Rest.AddRequest
      {| method := "DELETE"; path := "/order"; params := params;
         data := DataNone; headers := []; extra := None;
         response := None |}).

(** [BitmexRestApi.on_cancel_order] *)
Definition on_cancel_order (request : Request) : M Rest.RestApi unit :=
  Rest.update_rate_limit request.

(** [BitmexGateway.process_timer_event] *)
Definition process_timer_event : M Rest.RestApi unit := Rest.reset_rate_limit.

(** [body[k]] on the form body of a request, [None] when the key is not
    there. *)
Fixpoint assoc (k : string) (l : list (string * value)) : option value :=
  match l with
  | [] => None
  | (k', v) :: l' => if String.eqb k k' then Some v else assoc k l'
  end.

Definition body_get (k : string) (r : Request) : option value :=
  assoc k (body_fields r).

(** The calls the host and the request pool make on the REST half, in any
    order: submit, cancel, the timer, and the callbacks of a queued
    request. *)
Inductive rest_call :=
| CallSendOrder (req : OrderRequest)
| CallCancelOrder (req : CancelRequest)
| CallTimer
| CallOnSendOrder (request : Request)
| CallOnCancelOrder (request : Request)
| CallOnSendOrderError (t : exc_type) (v : string) (request : Request)
| CallOnCancelOrderError (t : exc_type) (v : string) (request : Request).

Definition rest_step (st : Rest.RestApi) (c : rest_call) : Rest.RestApi :=
  match c with
  | CallSendOrder req => snd (Rest.send_order req st)
  | CallCancelOrder req => snd (cancel_order req st)
  | CallTimer => snd (process_timer_event st)
  | CallOnSendOrder request => snd (Rest.on_send_order request st)
  | CallOnCancelOrder request => snd (on_cancel_order request st)
  | CallOnSendOrderError t v request =>
      snd (Rest.on_send_order_error t v request st)
  | CallOnCancelOrderError t v request =>
      snd (Rest.on_cancel_order_error t v request st)
  end.

Definition rest_run (calls : list rest_call) (st : Rest.RestApi)
  : Rest.RestApi :=
  fold_left rest_step calls st.

End Cancel.

(** What ends the pager on a response, and the rows it still takes from
    it: a failed request and an empty body give none, a page of fewer than
    750 rows gives its rows; a full page does not end it. *)
Definition closing (resp : Response) : option (list Row) :=
  if negb (status_code resp / 100 =? 2) then Some []
  else
    match json resp with
    | [] => Some []
    | rows => if (length rows <? 750)%nat then Some rows else None
    end.

(** The start cursors of a query: the requested start, then, after each
    full page, the time of its last row plus one interval. *)
Fixpoint cursors (start delta : Z) (pages : list (list Row)) : list Z :=
  start ::
  match pages with
  | [] => []
  | p :: ps =>
      cursors (default start ((λ d, r_timestamp d + delta) <$> last p))
        delta ps
  end.

(** ** REST failure callbacks

    The two callbacks for a response with a failure status write log lines
    of their own; the state carries them beside the REST state. *)

Module RestCallbacks.

Inductive failure_log :=
| LogOrderFailed (status_code : Z) (error : option (string * string))
| LogRequestFailed (status_code : Z) (name message : string).

Record State := {
  api : Rest.RestApi;
  failure_logs : list failure_log
}.

(** A method of the REST half, run on its part of the state. *)
Definition lift {A} (c : M Rest.RestApi A) : M State A :=
  λ s, let '(out, api') := c (api s) in
       (out, {| api := api'; failure_logs := failure_logs s |}).

Definition write_failure (m : failure_log) : M State unit :=
  modify (λ s, {| api := api s; failure_logs := failure_logs s ++ [m] |}).

Definition pure {S A} (o : outcome A) : M S A := λ st, (o, st).

Section Callbacks.

(** [response.json()] followed by [data["error"]], [error["name"]] and
    [error["message"]], library code on the response text: the name and
    the message, or the exception raised on the way. *)
Variable json_error : string → outcome (string * string).

Definition on_send_order_failed (status_code : Z) (request : Request)
  : M State unit :=
  lift (Rest.update_rate_limit request) ;;;
  match extra request with
  | None => raise AttributeError
  | Some ref =>
      lift (modify (λ st,
        Rest.set_objects
          (alter (set_o_status REJECTED) ref (Rest.objects st)) st)) ;;;
      lift (Rest.emit (Rest.GatewayOnOrder ref)) ;;;
      match response request with
      | None => raise AttributeError
      | Some resp =>
          if negb (String.eqb (text resp) "") then
            err <~ pure (json_error (text resp)) ;;
            write_failure (LogOrderFailed status_code (Some err))
          else write_failure (LogOrderFailed status_code None)
      end
  end.

Definition on_failed (status_code : Z) (request : Request) : M State unit :=
  lift (Rest.update_rate_limit request) ;;;
  match response request with
  | None => raise AttributeError
  | Some resp =>
      err <~ pure (json_error (text resp)) ;;
      write_failure (LogRequestFailed status_code (fst err) (snd err))
  end.

End Callbacks.

End RestCallbacks.

Module Cb := RestCallbacks.

(** A failed POST /order for the order object with reference 0. *)
Definition failed_order_request (hdrs : gmap string Z) (body : string)
  : Request :=
  {| method := "POST"; path := "/order"; params := []; data := DataNone;
     headers := []; extra := Some 0%nat;
     response := Some {| status_code := 400; text := body;
                         resp_headers := hdrs; json := [] |} |}.

(** Records delivered to their handlers one at a time, each in a message
    of its own: an execution record or an order record. A record whose
    handler raises leaves the state as the handler left it, and the next
    record is handled all the same. *)
Definition record_step (st : Ws.WsApi) (rec : dict + dict) : Ws.WsApi :=
  match rec with
  | inl d => snd (Ws.on_trade d st)
  | inr d => snd (Ws.on_order d st)
  end.

Definition record_run (recs : list (dict + dict)) (st : Ws.WsApi) : Ws.WsApi :=
  fold_left record_step recs st.

(** The part of the session the execution handler leaves alone, and the
    part the order handler leaves alone. *)
Definition orders_kept (st st' : Ws.WsApi) : Prop :=
  Ws.orders st' = Ws.orders st ∧
  emitted_orders st' = emitted_orders st ∧
  Ws.active st' = Ws.active st ∧
  sent_packets st' = sent_packets st.

Definition trades_kept (st st' : Ws.WsApi) : Prop :=
  Ws.trades st' = Ws.trades st ∧
  emitted_trades st' = emitted_trades st ∧
  Ws.active st' = Ws.active st ∧
  sent_packets st' = sent_packets st.

(** An acknowledgement of a request, as the venue sends it. *)
Definition request_ack (op : string) (success : value) : Ws.Packet :=
  {| Ws.pk_error := None;
     Ws.pk_request := Some {[ "op" := VStr op ]};
     Ws.pk_success := Some success;
     Ws.pk_table := None; Ws.pk_data := None |}.

Definition table_packet (name : string) (records : list dict) : Ws.Packet :=
  {| Ws.pk_error := None; Ws.pk_request := None; Ws.pk_success := None;
     Ws.pk_table := Some name; Ws.pk_data := Some (inl records) |}.

Definition all_topics : list string :=
  ["instrument"; "trade"; "orderBook10"; "execution"; "order"; "position";
   "margin"].

(** An execution record without the [clOrdID] key. *)
Definition execution_no_client_id (execID : string) (lastPx : Z) : dict :=
  delete "clOrdID" (execution execID 5 "Buy" lastPx).

(** The dedup set covers the emitted trades, whose ids are distinct. *)
Definition trade_ids_ok (st : Ws.WsApi) : Prop :=
  ids_recorded st ∧ NoDup (t_tradeid <$> emitted_trades st).

(** [o] carries what order record [d] says about an order first seen
    under venue id [sysid]: everything but the fill and the status. *)
Definition order_from (d : dict) (sysid : value) (name : string)
    (o : OrderData) : Prop :=
  d !! "symbol" = Some (o_symbol o) ∧
  d !! "price" = Some (o_price o) ∧
  d !! "orderQty" = Some (o_volume o) ∧
  (∃ c, d !! "clOrdID" = Some c ∧
        o_orderid o = if truthy c then c else sysid) ∧
  (∃ t, d !! "ordType" = Some t ∧
        ORDERTYPE_BITMEX2VT t = Some (o_type o)) ∧
  (∃ side, d !! "side" = Some side ∧
           DIRECTION_BITMEX2VT side = Some (o_direction o)) ∧
  (∃ ts, d !! "timestamp" = Some (VStr ts) ∧ o_time o = substring 11 8 ts) ∧
  o_exchange o = BITMEX ∧
  o_offset o = OFFSET_NONE ∧
  o_gateway_name o = name.

(** ** Stream caches: ticks, depth, positions, accounts, contracts

    The handlers of the five other topics touch neither the order cache
    nor the dedup set; their state is the tick cache and the account
    cache, carried here on their own. *)

Module StreamCaches.

(** Modelled from the spec: the declarations of the host's records are
    missing from the source. TickSnapshot: per-symbol last-trade price and
    time plus 5 bid and 5 ask (price, size) levels; level [n] of a side is
    the attribute numbered [n + 1]. AccountRecord: {accountId, balance,
    available, frozen}. A new record has zero in every number. *)
Record SubscribeRequest := {
  sr_symbol : string;
  sr_exchange : Exchange
}.

Record TickData := {
  tk_symbol : value;
  tk_exchange : Exchange;
  tk_name : value;
  tk_datetime : Z;
  tk_last_price : value;
  tk_bid_price : list value;
  tk_bid_volume : list value;
  tk_ask_price : list value;
  tk_ask_volume : list value;
  tk_gateway_name : string
}.

Record PositionData := {
  p_symbol : value;
  p_exchange : Exchange;
  p_direction : Direction;
  p_volume : value;
  p_gateway_name : string
}.

Record AccountData := {
  a_accountid : string;
  a_balance : value;
  a_frozen : value;
  a_available : value;
  a_gateway_name : string
}.

Inductive Product := FUTURES | OTHER_PRODUCT (name : string).

Record ContractData := {
  c_symbol : value;
  c_exchange : Exchange;
  c_name : value;
  c_product : Product;
  c_pricetick : value;
  c_size : value;
  c_stop_supported : bool;
  c_net_position : bool;
  c_history_data : bool;
  c_gateway_name : string
}.

Definition TickData_new (symbol : string) (exchange : Exchange) (now : Z)
    (name : string) : TickData :=
  {| tk_symbol := VStr symbol; tk_exchange := exchange;
     tk_name := VStr symbol; tk_datetime := now; tk_last_price := VInt 0;
     tk_bid_price := replicate 5 (VInt 0);
     tk_bid_volume := replicate 5 (VInt 0);
     tk_ask_price := replicate 5 (VInt 0);
     tk_ask_volume := replicate 5 (VInt 0);
     tk_gateway_name := name |}.

Definition AccountData_new (accountid name : string) : AccountData :=
  {| a_accountid := accountid; a_balance := VInt 0; a_frozen := VInt 0;
     a_available := VInt 0; a_gateway_name := name |}.

Definition set_last_price (v : value) (t : TickData) : TickData :=
  {| tk_symbol := tk_symbol t; tk_exchange := tk_exchange t;
     tk_name := tk_name t; tk_datetime := tk_datetime t;
     tk_last_price := v;
     tk_bid_price := tk_bid_price t; tk_bid_volume := tk_bid_volume t;
     tk_ask_price := tk_ask_price t; tk_ask_volume := tk_ask_volume t;
     tk_gateway_name := tk_gateway_name t |}.

Definition set_datetime (v : Z) (t : TickData) : TickData :=
  {| tk_symbol := tk_symbol t; tk_exchange := tk_exchange t;
     tk_name := tk_name t; tk_datetime := v;
     tk_last_price := tk_last_price t;
     tk_bid_price := tk_bid_price t; tk_bid_volume := tk_bid_volume t;
     tk_ask_price := tk_ask_price t; tk_ask_volume := tk_ask_volume t;
     tk_gateway_name := tk_gateway_name t |}.

(** [setattr(tick, "bid_price_%s" % (n + 1), price)] and its volume. *)
Definition set_bid (n : nat) (price volume : value) (t : TickData) : TickData :=
  {| tk_symbol := tk_symbol t; tk_exchange := tk_exchange t;
     tk_name := tk_name t; tk_datetime := tk_datetime t;
     tk_last_price := tk_last_price t;
     tk_bid_price := <[n := price]> (tk_bid_price t);
     tk_bid_volume := <[n := volume]> (tk_bid_volume t);
     tk_ask_price := tk_ask_price t; tk_ask_volume := tk_ask_volume t;
     tk_gateway_name := tk_gateway_name t |}.

Definition set_ask (n : nat) (price volume : value) (t : TickData) : TickData :=
  {| tk_symbol := tk_symbol t; tk_exchange := tk_exchange t;
     tk_name := tk_name t; tk_datetime := tk_datetime t;
     tk_last_price := tk_last_price t;
     tk_bid_price := tk_bid_price t; tk_bid_volume := tk_bid_volume t;
     tk_ask_price := <[n := price]> (tk_ask_price t);
     tk_ask_volume := <[n := volume]> (tk_ask_volume t);
     tk_gateway_name := tk_gateway_name t |}.

(** [for n, buf in enumerate(levels): price, volume = buf; ...], counting
    from [n]. *)
Fixpoint set_levels (set : nat → value → value → TickData → TickData)
    (n : nat) (levels : list (value * value)) (t : TickData) : TickData :=
  match levels with
  | [] => t
  | (price, volume) :: levels' =>
      set_levels set (S n) levels' (set n price volume t)
  end.

Inductive event :=
| GatewayOnTick (t : TickData)
| GatewayOnPosition (p : PositionData)
| GatewayOnAccount (a : AccountData)
| GatewayOnContract (c : ContractData).

Record Caches := {
  gateway_name : string;
  ticks : gmap value TickData;
  accounts : gmap string AccountData;
  trace : list event
}.

Definition set_ticks (v : gmap value TickData) (st : Caches) : Caches :=
  {| gateway_name := gateway_name st; ticks := v; accounts := accounts st;
     trace := trace st |}.

Definition set_accounts (v : gmap string AccountData) (st : Caches) : Caches :=
  {| gateway_name := gateway_name st; ticks := ticks st; accounts := v;
     trace := trace st |}.

Definition emit (e : event) : M Caches unit :=
  modify (λ st,
    {| gateway_name := gateway_name st; ticks := ticks st;
       accounts := accounts st; trace := trace st ++ [e] |}).

Definition init (name : string) : Caches :=
  {| gateway_name := name; ticks := ∅; accounts := ∅; trace := [] |}.

Definition pure {S A} (o : outcome A) : M S A := λ st, (o, st).

(** [str(v)] *)
Definition py_str (v : value) : string :=
  match v with
  | VStr s => s
  | VInt n => pretty n
  | VNone => "None"
  end.

(** [a - b]: numbers only. *)
Definition py_sub (a b : value) : outcome value :=
  match a, b with
  | VInt x, VInt y => Return (VInt (x - y))
  | _, _ => Raise TypeError
  end.

(** A depth message: its scalar fields, and the two sides as lists of
    (price, size) pairs when the key is there. *)
Record DepthMsg := {
  dm_fields : dict;
  dm_bids : option (list (value * value));
  dm_asks : option (list (value * value))
}.

(** [now] is [datetime.now()]. *)
Definition subscribe (now : Z) (req : SubscribeRequest) : M Caches unit :=
  name <~ gets gateway_name ;;
  let tick := TickData_new (sr_symbol req) (sr_exchange req) now name in
  modify (λ st, set_ticks (<[VStr (sr_symbol req) := tick]> (ticks st)) st).

Section Handlers.

(** [datetime.strptime(v, "%Y-%m-%dT%H:%M:%S.%fZ")], library code: the
    time, or the exception raised. *)
Variable strptime : value → outcome Z.

Definition on_tick (d : dict) : M Caches unit :=
  symbol <~ getitem d "symbol" ;;
  cached <~ gets (λ st, ticks st !! symbol) ;;
  match cached with
  | None => ret tt
  | Some tick =>
      price <~ getitem d "price" ;;
      let tick1 := set_last_price price tick in
      modify (λ st, set_ticks (<[symbol := tick1]> (ticks st)) st) ;;;
      timestamp <~ getitem d "timestamp" ;;
      dt <~ pure (strptime timestamp) ;;
      let tick2 := set_datetime dt tick1 in
      modify (λ st, set_ticks (<[symbol := tick2]> (ticks st)) st) ;;;
      emit (GatewayOnTick tick2)
  end.

Definition on_depth (m : DepthMsg) : M Caches unit :=
  let d := dm_fields m in
  symbol <~ getitem d "symbol" ;;
  cached <~ gets (λ st, ticks st !! symbol) ;;
  match cached with
  | None => ret tt
  | Some tick =>
      bids <~ table_getitem dm_bids m ;;
      let tick1 := set_levels set_bid 0 (take 5 bids) tick in
      modify (λ st, set_ticks (<[symbol := tick1]> (ticks st)) st) ;;;
      asks <~ table_getitem dm_asks m ;;
      let tick2 := set_levels set_ask 0 (take 5 asks) tick1 in
      modify (λ st, set_ticks (<[symbol := tick2]> (ticks st)) st) ;;;
      timestamp <~ getitem d "timestamp" ;;
      dt <~ pure (strptime timestamp) ;;
      let tick3 := set_datetime dt tick2 in
      modify (λ st, set_ticks (<[symbol := tick3]> (ticks st)) st) ;;;
      emit (GatewayOnTick tick3)
  end.

End Handlers.

Definition on_position (d : dict) : M Caches unit :=
  symbol <~ getitem d "symbol" ;;
  name <~ gets gateway_name ;;
  emit (GatewayOnPosition
    {| p_symbol := symbol; p_exchange := BITMEX; p_direction := NET;
       p_volume := get_default d "currentQty" (VInt 0);
       p_gateway_name := name |}).

Definition on_account (d : dict) : M Caches unit :=
  account_v <~ getitem d "account" ;;
  let accountid := py_str account_v in
  cached <~ gets (λ st, accounts st !! accountid) ;;
  account <~ match cached with
             | Some account => ret account
             | None =>
                 name <~ gets gateway_name ;;
                 let account := AccountData_new accountid name in
                 modify (λ st,
                   set_accounts (<[accountid := account]> (accounts st)) st) ;;;
                 ret account
             end ;;
  let account1 :=
    {| a_accountid := a_accountid account;
       a_balance := get_default d "marginBalance" (a_balance account);
       a_frozen := a_frozen account;
       a_available := get_default d "availableMargin" (a_available account);
       a_gateway_name := a_gateway_name account |} in
  modify (λ st, set_accounts (<[accountid := account1]> (accounts st)) st) ;;;
  frozen <~ pure (py_sub (a_balance account1) (a_available account1)) ;;
  let account2 :=
    {| a_accountid := a_accountid account1;
       a_balance := a_balance account1;
       a_frozen := frozen;
       a_available := a_available account1;
       a_gateway_name := a_gateway_name account1 |} in
  modify (λ st, set_accounts (<[accountid := account2]> (accounts st)) st) ;;;
  emit (GatewayOnAccount account2).

Definition on_contract (d : dict) : M Caches unit :=
  match d !! "tickSize" with
  | None => ret tt
  | Some tickSize =>
      lotSize <~ getitem d "lotSize" ;;
      if negb (truthy lotSize) then ret tt
      else
        symbol <~ getitem d "symbol" ;;
        name <~ gets gateway_name ;;
        emit (GatewayOnContract
          {| c_symbol := symbol; c_exchange := BITMEX; c_name := symbol;
             c_product := FUTURES; c_pricetick := tickSize;
             c_size := lotSize; c_stop_supported := true;
             c_net_position := true; c_history_data := true;
             c_gateway_name := name |})
  end.

End StreamCaches.

Module Sc := StreamCaches.

Definition emitted_ticks (st : Sc.Caches) : list Sc.TickData :=
  omap (λ e, match e with Sc.GatewayOnTick t => Some t | _ => None end)
       (Sc.trace st).


(** The four level lists of a tick hold five entries each. *)
Definition five_levels (t : Sc.TickData) : Prop :=
  length (Sc.tk_bid_price t) = 5%nat ∧
  length (Sc.tk_bid_volume t) = 5%nat ∧
  length (Sc.tk_ask_price t) = 5%nat ∧
  length (Sc.tk_ask_volume t) = 5%nat.

(** An instrument record that describes a tradable contract. *)
Definition listed (d : dict) : bool :=
  match d !! "tickSize", d !! "lotSize", d !! "symbol" with
  | Some _, Some lot, Some _ => truthy lot
  | _, _, _ => false
  end.

Definition depth_msg (symbol : string) (bids asks : list (value * value))
  : Sc.DepthMsg :=
  {| Sc.dm_fields :=
       {[ "symbol" := VStr symbol;
          "timestamp" := VStr "2020-11-04T09:30:15.123Z" ]};
     Sc.dm_bids := Some bids; Sc.dm_asks := Some asks |}.

Definition level (price volume : Z) : value * value :=
  (VInt price, VInt volume).

(** A parser that reads every timestamp as second 0. *)
Definition strptime_zero : value → outcome Z :=
  λ v, match v with VStr _ => Return 0 | _ => Raise TypeError end.

Definition xbt_subscription : Sc.SubscribeRequest :=
  {| Sc.sr_symbol := "XBTUSD"; Sc.sr_exchange := BITMEX |}.

(** The caches after subscribing to XBTUSD at time 0. *)
Definition sample_caches : Sc.Caches :=
  snd (Sc.subscribe 0 xbt_subscription (Sc.init "BITMEX")).

Definition margin_record (account : Z) (balance available : option Z) : dict :=
  list_to_map
    ([("account", VInt account)] ++
     match balance with
     | Some b => [("marginBalance", VInt b)]
     | None => []
     end ++
     match available with
     | Some a => [("availableMargin", VInt a)]
     | None => []
     end).

(** * Properties *)

(** ** Rate governor *)

Lemma check_rate_limit_lower st :
  rate_lower_inv st → rate_lower_inv (snd (Rest.check_rate_limit st)).
Proof.
  unfold rate_lower_inv, Rest.check_rate_limit, bind, gets, modify, ret,
    Rest.write_log, Rest.emit.
  intros [Hr Hs]. simpl.
  destruct (Z.eqb_spec (Rest.rate_limit_sleep st) 0); simpl; [|lia].
  destruct (Z.eqb_spec (Rest.rate_limit_remaining st) 0); simpl; lia.
Qed.

Lemma reset_rate_limit_lower st :
  0 ≤ Rest.rate_limit_limit st →
  rate_lower_inv st → rate_lower_inv (snd (Rest.reset_rate_limit st)).
Proof.
  unfold rate_lower_inv, Rest.reset_rate_limit, bind, gets, modify, ret.
  intros Hl [Hr Hs]. simpl.
  destruct (Z.eqb_spec (Rest.rate_limit_sleep st) 0); simpl; lia.
Qed.

Lemma update_rate_limit_lower request st :
  nonneg_headers (Observe request) →
  rate_lower_inv st → rate_lower_inv (snd (Rest.update_rate_limit request st)).
Proof.
  unfold rate_lower_inv, Rest.update_rate_limit, nonneg_headers.
  intros Hh [Hr Hs]. destruct (response request) as [resp|]; [|done].
  unfold bind, table_getitem, gets, modify, ret, raise.
  destruct (resp_headers resp !! "x-ratelimit-remaining") as [rem|] eqn:Erem;
    simpl; [|done].
  assert (0 ≤ rem) by eauto.
  assert (0 ≤ default 0 (resp_headers resp !! "Retry-After")) as Hd.
  { destruct (resp_headers resp !! "Retry-After") eqn:E; simpl; [eauto|lia]. }
  destruct (Z.eqb_spec (default 0 (resp_headers resp !! "Retry-After")) 0);
    simpl; lia.
Qed.

Lemma rate_step_limit st c :
  Rest.rate_limit_limit (rate_step st c) = Rest.rate_limit_limit st.
Proof.
  destruct c as [|request|]; simpl.
  - unfold Rest.check_rate_limit, bind, gets, modify, ret, Rest.write_log,
      Rest.emit. simpl.
    destruct (Rest.rate_limit_sleep st =? 0); simpl; [|done].
    by destruct (Rest.rate_limit_remaining st =? 0).
  - unfold Rest.update_rate_limit, bind, table_getitem, gets, modify, ret,
      raise.
    destruct (response request) as [resp|]; [|done].
    destruct (resp_headers resp !! "x-ratelimit-remaining"); simpl; [|done].
    by destruct (default 0 (resp_headers resp !! "Retry-After") =? 0).
  - unfold Rest.reset_rate_limit, bind, gets, modify, ret. simpl.
    by destruct (Rest.rate_limit_sleep st =? 0).
Qed.

(** The part of the governor's invariant that holds whatever the venue
    reports: neither the quota nor the cooldown goes below zero. *)
Theorem rate_lower_bounds calls st :
  Forall nonneg_headers calls →
  0 ≤ Rest.rate_limit_limit st →
  rate_lower_inv st →
  rate_lower_inv (rate_run calls st).
Proof.
  intros Hc. revert st. induction Hc as [|c calls Hh _ IH]; intros st Hl Hi.
  - done.
  - simpl. apply IH.
    + by rewrite rate_step_limit.
    + destruct c; simpl.
      * by apply check_rate_limit_lower.
      * by apply update_rate_limit_lower.
      * by apply reset_rate_limit_lower.
Qed.

Lemma rate_step_upper st c :
  within_limit (Rest.rate_limit_limit st) c →
  Rest.rate_limit_remaining st ≤ Rest.rate_limit_limit st →
  Rest.rate_limit_remaining (rate_step st c) ≤ Rest.rate_limit_limit st.
Proof.
  intros Hw Hr. destruct c as [|request|]; simpl in *.
  - unfold Rest.check_rate_limit, bind, gets, modify, ret, Rest.write_log,
      Rest.emit. simpl.
    destruct (Rest.rate_limit_sleep st =? 0); simpl; [|done].
    destruct (Rest.rate_limit_remaining st =? 0); simpl; lia.
  - unfold Rest.update_rate_limit, bind, table_getitem, gets, modify, ret,
      raise.
    destruct (response request) as [resp|]; [|done].
    destruct (resp_headers resp !! "x-ratelimit-remaining") as [rem|];
      simpl; [|done].
    specialize (Hw rem eq_refl).
    by destruct (default 0 (resp_headers resp !! "Retry-After") =? 0).
  - unfold Rest.reset_rate_limit, bind, gets, modify, ret. simpl.
    destruct (Rest.rate_limit_sleep st =? 0); simpl; lia.
Qed.

(** The upper bound holds as long as the venue never reports more quota
    than the local limit. *)
Theorem rate_upper_bound calls st :
  Forall (within_limit (Rest.rate_limit_limit st)) calls →
  Rest.rate_limit_remaining st ≤ Rest.rate_limit_limit st →
  Rest.rate_limit_remaining (rate_run calls st) ≤ Rest.rate_limit_limit st.
Proof.
  intros Hc. remember (Rest.rate_limit_limit st) as limit eqn:Hl.
  revert st Hl. induction Hc as [|c calls Hw _ IH]; intros st Hl Hr.
  - done.
  - simpl. subst limit. apply IH.
    + by rewrite rate_step_limit.
    + by apply rate_step_upper.
Qed.

(** C1. The server-reported quota is stored as it comes while
    [rate_limit_limit] keeps its initial 60: one response that reports 100
    remaining requests leaves [remaining] above [limit]. *)
Theorem update_rate_limit_exceeds_limit :
  let calls := [TryAcquire; Observe (observed 100 None)] in
  let st := rate_run calls (Rest.init "BITMEX") in
  Forall nonneg_headers calls ∧
  Rest.rate_limit_remaining st = 100 ∧
  Rest.rate_limit_limit st = 60 ∧
  Rest.rate_limit_sleep st = 0 ∧
  ¬ rate_inv st.
Proof.
  split; [|vm_compute; repeat split; try done; intros [[_ H] _]; by apply H].
  repeat constructor; simpl.
  intros k v. rewrite lookup_singleton_Some. intros [_ <-]. lia.
Qed.

(** ** Order submission and its error callback *)

(** C2, as stated, fails: after a [ConnectionError] the order is rejected
    and handed to the host again, and nothing is logged. *)
Lemma connection_error_rejects_order :
  let st' := snd (Rest.on_send_order_error ConnectionError "refused"
                    sample_request sample_sent) in
  extra sample_request = Some 0%nat ∧
  status_of sample_sent 0 = Some SUBMITTING ∧
  ¬ (status_of st' 0 ≠ Some REJECTED) ∧
  host_orders st' = host_orders sample_sent ++ [0%nat] ∧
  logged st' = logged sample_sent.
Proof. vm_compute. repeat split; try done. Qed.

(** C2, amended. Every exception type rejects the order and forwards it to
    the host; what depends on the type is the log: the exception is written
    to the log and to stderr unless it is a [ConnectionError]. *)
Theorem on_send_order_error_rejects t v request ref o st :
  extra request = Some ref →
  Rest.objects st !! ref = Some o →
  ∃ st',
    Rest.on_send_order_error t v request st = (Return tt, st') ∧
    Rest.objects st' = <[ref := set_o_status REJECTED o]> (Rest.objects st) ∧
    status_of st' ref = Some REJECTED ∧
    Rest.trace st' =
      Rest.trace st ++ Rest.GatewayOnOrder ref ::
        (if issubclass t ConnectionError then []
         else [Rest.WriteLog (Rest.LogException t v); Rest.StderrWrite t v]).
Proof.
  intros He Ho. unfold Rest.on_send_order_error. rewrite He.
  assert (alter (set_o_status REJECTED) ref (Rest.objects st)
          = <[ref := set_o_status REJECTED o]> (Rest.objects st)) as Ha.
  { apply list_eq. intros i. destruct (decide (i = ref)) as [->|Hne].
    - rewrite list_lookup_alter_eq, Ho. simpl.
      rewrite list_lookup_insert_eq; [done|]. by eapply lookup_lt_Some.
    - rewrite list_lookup_alter_ne, list_lookup_insert_ne by done. done. }
  assert (status_of
            (Rest.set_objects
               (<[ref := set_o_status REJECTED o]> (Rest.objects st)) st) ref
          = Some REJECTED) as Hs.
  { unfold status_of. simpl.
    rewrite list_lookup_insert_eq; [done|]. by eapply lookup_lt_Some. }
  unfold bind, modify, Rest.emit, Rest.on_error, Rest.write_log, Rest.emit,
    bind, modify, ret. simpl. rewrite Ha.
  destruct (issubclass t ConnectionError); simpl; eexists; repeat split;
    simpl; try done.
  by rewrite <- !app_assoc.
Qed.

Lemma on_send_order_error_rejects_witness :
  ∃ st',
    Rest.on_send_order_error ConnectionError "refused" sample_request
      sample_sent = (Return tt, st') ∧
    status_of st' 0 = Some REJECTED.
Proof.
  destruct (on_send_order_error_rejects ConnectionError "refused"
              sample_request 0%nat
              (create_order_data sample_order "1000001" "BITMEX")
              sample_sent) as (st' & H1 & _ & H3 & _).
  - reflexivity.
  - reflexivity.
  - exists st'. split; [exact H1 | exact H3].
Defined.

(** C3. When the governor denies ([rate_limit_sleep] positive, or nothing
    remaining), [send_order] returns the empty string and does nothing but
    write the log line: no request is queued or sent, no order object is
    created, none changes, and the host is handed no order. *)
Theorem send_order_denied req st :
  0 < Rest.rate_limit_sleep st ∨ Rest.rate_limit_remaining st = 0 →
  ∃ st' m,
    Rest.send_order req st = (Return "", st') ∧
    Rest.trace st' = Rest.trace st ++ [Rest.WriteLog m] ∧
    queued_requests st' = queued_requests st ∧
    http_requests st' = http_requests st ∧
    host_orders st' = host_orders st ∧
    Rest.objects st' = Rest.objects st ∧
    Rest.order_count st' = Rest.order_count st ∧
    Rest.rate_limit_remaining st' = Rest.rate_limit_remaining st.
Proof.
  intros Hd.
  unfold Rest.send_order, Rest.check_rate_limit, bind, gets, ret, modify,
    Rest.write_log, Rest.emit, queued_requests, http_requests, host_orders.
  simpl.
  destruct (Z.eqb_spec (Rest.rate_limit_sleep st) 0) as [Hs|Hs]; simpl.
  - destruct Hd as [Hd|Hd]; [lia|]. rewrite Hd. simpl.
    eexists _, _. repeat split; simpl; try done;
      rewrite omap_app; simpl; by rewrite app_nil_r.
  - eexists _, _. repeat split; simpl; try done;
      rewrite omap_app; simpl; by rewrite app_nil_r.
Qed.

Lemma send_order_denied_witness :
  ∃ st' m,
    Rest.send_order sample_order
      (Rest.set_rate_limit_remaining 0 (Rest.init "BITMEX"))
      = (Return "", st') ∧
    Rest.trace st' = [Rest.WriteLog m] ∧
    Rest.objects st' = [].
Proof.
  destruct (send_order_denied sample_order
              (Rest.set_rate_limit_remaining 0 (Rest.init "BITMEX")))
    as (st' & m & H1 & H2 & _ & _ & _ & H6 & _).
  - right. reflexivity.
  - exists st', m. repeat split; [exact H1 | exact H2 | exact H6].
Defined.

(** ** History pager *)

Lemma http_requests_emit_http st r :
  http_requests (snd (Rest.emit (Rest.HttpRequest r) st))
  = http_requests st ++ [r].
Proof. unfold http_requests. simpl. by rewrite omap_app. Qed.

Lemma http_requests_write_log st m :
  http_requests (snd (Rest.write_log m st)) = http_requests st.
Proof. unfold http_requests. simpl. rewrite omap_app. simpl. by rewrite app_nil_r. Qed.

(** *** Frame reasoning for monadic code *)

Section Stable.
Context {S : Type} (R : relation S) `{!PreOrder R}.

Lemma stable_ret {A} (a : A) : stable R (ret a).
Proof. intros st. simpl. reflexivity. Qed.

Lemma stable_raise {A} e : stable R (raise e : M S A).
Proof. intros st. simpl. reflexivity. Qed.

Lemma stable_gets {A} (f : S → A) : stable R (gets f).
Proof. intros st. simpl. reflexivity. Qed.

Lemma stable_bind {A B} (c : M S A) (k : A → M S B) :
  stable R c → (∀ a, stable R (k a)) → stable R (bind c k).
Proof.
  intros Hc Hk st. unfold bind. specialize (Hc st).
  destruct (c st) as [[a|e] st1]; simpl in *.
  - etrans; [exact Hc|]. apply Hk.
  - exact Hc.
Qed.

Lemma stable_getitem d k : stable R (getitem d k : M S value).
Proof.
  unfold getitem. destruct (d !! k); [apply stable_ret | apply stable_raise].
Qed.

Lemma stable_table_getitem {K A} (T : K → option A) k :
  stable R (table_getitem T k : M S A).
Proof.
  unfold table_getitem. destruct (T k); [apply stable_ret | apply stable_raise].
Qed.

Lemma stable_modify (f : S → S) : (∀ st, R st (f st)) → stable R (modify f).
Proof. intros Hf st. simpl. apply Hf. Qed.

End Stable.

Ltac stable_step :=
  first
    [ apply stable_ret; apply _
    | apply stable_raise; apply _
    | apply stable_gets; apply _
    | apply stable_getitem; apply _
    | apply stable_table_getitem; apply _
    | apply stable_bind; [apply _ | | intros ?] ].

#[local] Instance same_rate_preorder : PreOrder same_rate.
Proof.
  split.
  - by intros st.
  - intros a b c (?&?&?) (?&?&?). unfold same_rate. repeat split; congruence.
Qed.

Lemma emit_same_rate e : stable same_rate (Rest.emit e).
Proof. by intros st. Qed.

(** The loop never touches the governor. *)
Lemma query_history_loop_rate server fuel :
  ∀ page req history start_time,
    stable same_rate
      (Rest.query_history_loop server fuel page req history start_time).
Proof.
  induction fuel as [|fuel IH]; intros page req history start_time; simpl.
  - stable_step.
  - stable_step; [stable_step|].
    stable_step.
    { unfold Rest.request. stable_step; [apply emit_same_rate | stable_step]. }
    destruct (negb _).
    { stable_step; [apply emit_same_rate | stable_step]. }
    destruct (json _) as [|d0 data]; [stable_step|].
    stable_step; [stable_step|].
    stable_step; [apply emit_same_rate|].
    destruct (_ <? _)%nat; [stable_step|].
    stable_step; [stable_step|]. apply IH.
Qed.

Lemma last_map_default {A B} (f : A → B) (l : list A) (d : A) :
  List.last (map f l) (f d) = f (List.last l d).
Proof.
  induction l as [|x l IH]; [done|].
  destruct l as [|y l]; [done|]. exact IH.
Qed.

Lemma last_default_Some {A} (l : list A) (d : A) :
  l ≠ [] → last l = Some (List.last l d).
Proof.
  induction l as [|x l IH]; [done|]. intros _.
  destruct l as [|y l]; [done|].
  change (last (x :: y :: l)) with (last (y :: l)).
  change (List.last (x :: y :: l) d) with (List.last (y :: l) d).
  by apply IH.
Qed.

(** One turn of the loop, in direct style. *)
Lemma query_history_loop_page server fuel page req history start_time st
    binSize :
  INTERVAL_VT2BITMEX (hr_interval req) = Some binSize →
  let r := page_request req binSize start_time in
  let resp := server page r in
  let st1 := snd (Rest.emit (Rest.HttpRequest r) st) in
  Rest.query_history_loop server (S fuel) page req history start_time st =
    if negb (status_code resp / 100 =? 2) then
      (Return (Some history),
       snd (Rest.write_log
              (Rest.LogHistoryFailed (status_code resp) (text resp)) st1))
    else
      match json resp with
      | [] => (Return (Some history), st1)
      | d0 :: _ =>
          let bars := map (Rest.bar_of req (Rest.gateway_name st)) (json resp) in
          let d_last := List.last (json resp) d0 in
          let st2 :=
            snd (Rest.write_log
                   (Rest.LogHistoryOk (hr_symbol req) (hr_interval req)
                      (r_timestamp d0) (r_timestamp d_last)) st1) in
          if (length (json resp) <? 750)%nat then
            (Return (Some (history ++ bars)), st2)
          else
            match TIMEDELTA_MAP (hr_interval req) with
            | Some delta =>
                Rest.query_history_loop server fuel (S page) req
                  (history ++ bars) (r_timestamp d_last + delta) st2
            | None => (Raise KeyError, st2)
            end
      end.
Proof.
  intros HI. cbn zeta.
  cbn [Rest.query_history_loop].
  unfold bind at 1. unfold table_getitem at 1. rewrite HI.
  unfold ret at 1. cbn beta iota.
  assert (page_request req binSize start_time =
          {| method := "GET"; path := "/trade/bucketed";
             params :=
               match hr_end req with
               | Some e =>
                   [("binSize", VStr binSize); ("symbol", VStr (hr_symbol req));
                    ("count", VInt 750); ("startTime", VInt start_time)]
                   ++ [("endTime", VInt e)]
               | None =>
                   [("binSize", VStr binSize); ("symbol", VStr (hr_symbol req));
                    ("count", VInt 750); ("startTime", VInt start_time)]
               end;
             data := DataNone; headers := []; extra := None;
             response := None |}) as Hreq.
  { unfold page_request. by destruct (hr_end req). }
  unfold Rest.request. rewrite <- Hreq.
  generalize (page_request req binSize start_time). intros r.
  unfold bind, Rest.emit, modify, ret. cbn beta iota.
  unfold snd at 1 2 3.
  generalize (server page r). intros resp.
  destruct (negb (status_code resp / 100 =? 2)); [done|].
  destruct (json resp) as [|d0 data]; [done|].
  unfold gets, Rest.write_log, Rest.emit, modify. cbn beta iota.
  cbn [Rest.gateway_name].
  rewrite last_map_default. cbn [b_datetime Rest.bar_of].
  destruct (length (d0 :: data) <? 750)%nat; [done|].
  unfold table_getitem, ret, raise.
  by destruct (TIMEDELTA_MAP (hr_interval req)).
Qed.

Lemma check_rate_limit_granted st :
  Rest.rate_limit_sleep st = 0 →
  Rest.rate_limit_remaining st ≠ 0 →
  Rest.check_rate_limit st =
    (Return true,
     Rest.set_rate_limit_remaining (Rest.rate_limit_remaining st - 1) st).
Proof.
  intros Hs Hr. unfold Rest.check_rate_limit, bind, gets, modify, ret.
  rewrite Hs. simpl.
  by destruct (Z.eqb_spec (Rest.rate_limit_remaining st) 0).
Qed.

Lemma check_rate_limit_denied st :
  Rest.rate_limit_sleep st ≠ 0 ∨ Rest.rate_limit_remaining st = 0 →
  ∃ m, Rest.check_rate_limit st = (Return false, snd (Rest.write_log m st)).
Proof.
  intros Hd. unfold Rest.check_rate_limit, bind, gets, modify, ret.
  destruct (Z.eqb_spec (Rest.rate_limit_sleep st) 0) as [Hs|Hs]; simpl.
  - destruct Hd as [Hd|Hd]; [done|].
    destruct (Z.eqb_spec (Rest.rate_limit_remaining st) 0); [|done].
    eexists. reflexivity.
  - eexists. reflexivity.
Qed.

(** C4, as stated, fails: with one unit of quota the mock query sends two
    page requests, the second one when nothing remains. *)
Lemma query_history_second_page_ungoverned :
  let st := Rest.set_rate_limit_remaining 1 (Rest.init "BITMEX") in
  let st' := snd (Rest.query_history mock_server 5 mock_history st) in
  length (new_http_requests st st') = 2%nat ∧
  acquired st st' = 1 ∧
  Rest.rate_limit_remaining st' = 0 ∧
  ¬ (Z.of_nat (length (new_http_requests st st')) ≤ acquired st st').
Proof. vm_compute. repeat split; try done. Qed.

(** C4, amended. The governor is consulted once per query, before the
    first page. Denied, the query returns nothing and sends nothing;
    granted, it takes one unit of quota, however many pages it requests. *)
Theorem query_history_acquires_once server fuel req st :
  let out := fst (Rest.query_history server fuel req st) in
  let st' := snd (Rest.query_history server fuel req st) in
  if (Rest.rate_limit_sleep st =? 0) && negb (Rest.rate_limit_remaining st =? 0)
  then acquired st st' = 1
  else out = Return (Some None) ∧
       http_requests st' = http_requests st ∧
       acquired st st' = 0.
Proof.
  cbn zeta. unfold Rest.query_history, acquired.
  destruct (Z.eqb_spec (Rest.rate_limit_sleep st) 0) as [Hs|Hs]; simpl.
  - destruct (Z.eqb_spec (Rest.rate_limit_remaining st) 0) as [Hr|Hr]; simpl.
    + destruct (check_rate_limit_denied st) as [m Hm]; [by right|].
      unfold bind. rewrite Hm. simpl. unfold http_requests. simpl.
      rewrite omap_app. simpl. rewrite app_nil_r. repeat split; lia.
    + unfold bind at 1. rewrite check_rate_limit_granted by done. simpl.
      set (st1 := Rest.set_rate_limit_remaining _ st).
      assert (stable same_rate
                (r <~ Rest.query_history_loop server fuel 0 req []
                        (hr_start req) ;; ret (option_map Some r))) as Hst.
      { stable_step; [apply query_history_loop_rate | stable_step]. }
      destruct (Hst st1) as (Hrem & _ & _). rewrite Hrem.
      subst st1. simpl. lia.
  - destruct (check_rate_limit_denied st) as [m Hm]; [by left|].
    unfold bind. rewrite Hm. simpl. unfold http_requests. simpl.
    rewrite omap_app. simpl. rewrite app_nil_r. repeat split; lia.
Qed.

(** C5, as stated, fails on one point: the query ends on the 10-row page
    and the empty page is never requested. *)
Lemma query_history_skips_empty_page :
  let run := Rest.query_history mock_server 5 mock_history
               (Rest.init "BITMEX") in
  (length <$> (match fst run with
               | Return (Some (Some bars)) => Some bars
               | _ => None
               end)) = Some 760%nat ∧
  length (http_requests (snd run)) = 2%nat ∧
  ¬ (length (http_requests (snd run)) = 3%nat).
Proof. vm_compute. repeat split; try done. Qed.

(** C5, amended. For a 750-row page followed by a 10-row page the query
    returns 760 bars and sends exactly two requests: the first at the
    requested start, the second at the last bar of the first page plus one
    interval. It ends on the short page; no third request is sent. *)
Theorem query_history_750_then_10 server fuel req st p1 p2 binSize delta :
  Rest.rate_limit_sleep st = 0 →
  Rest.rate_limit_remaining st ≠ 0 →
  INTERVAL_VT2BITMEX (hr_interval req) = Some binSize →
  TIMEDELTA_MAP (hr_interval req) = Some delta →
  (∀ r, status_code (server 0%nat r) / 100 = 2 ∧ json (server 0%nat r) = p1) →
  (∀ r, status_code (server 1%nat r) / 100 = 2 ∧ json (server 1%nat r) = p2) →
  length p1 = 750%nat →
  length p2 = 10%nat →
  (2 ≤ fuel)%nat →
  ∃ st' bars d_last,
    Rest.query_history server fuel req st = (Return (Some (Some bars)), st') ∧
    length bars = 760%nat ∧
    bars = map (Rest.bar_of req (Rest.gateway_name st)) (p1 ++ p2) ∧
    last p1 = Some d_last ∧
    http_requests st' =
      http_requests st ++
        [page_request req binSize (hr_start req);
         page_request req binSize (r_timestamp d_last + delta)].
Proof.
  intros Hs Hr HI HT H0 H1 Hl1 Hl2 Hfuel.
  destruct fuel as [|[|fuel]]; [lia|lia|].
  unfold Rest.query_history. unfold bind at 1.
  rewrite check_rate_limit_granted by done. cbn [negb].
  set (st0 := Rest.set_rate_limit_remaining _ st).
  unfold bind.
  rewrite (query_history_loop_page _ _ _ _ _ _ _ binSize HI). cbn zeta.
  destruct (H0 (page_request req binSize (hr_start req))) as [Hc0 Hj0].
  rewrite Hc0, Hj0. cbn [Z.eqb negb Pos.eqb].
  destruct p1 as [|d0 p1']; [done|].
  rewrite Hl1. cbn [Nat.ltb Nat.leb].
  replace (750 <? 750)%nat with false by done.
  rewrite HT.
  rewrite (query_history_loop_page _ _ _ _ _ _ _ binSize HI). cbn zeta.
  match goal with
  | |- context [server 1%nat ?r] => destruct (H1 r) as [Hc1 Hj1]
  end.
  rewrite Hc1, Hj1. cbn [Z.eqb negb Pos.eqb].
  destruct p2 as [|e0 p2']; [done|].
  rewrite Hl2. replace (10 <? 750)%nat with true by done.
  eexists _, _, (List.last (d0 :: p1') d0).
  split; [reflexivity|].
  split; [rewrite app_nil_l, length_app, !length_map; lia|].
  split; [by rewrite app_nil_l, map_app|].
  split; [by apply last_default_Some|].
  unfold http_requests, Rest.write_log, Rest.emit, modify. simpl.
  rewrite !omap_app. simpl. rewrite !app_nil_r.
  by rewrite <- app_assoc.
Qed.

Lemma query_history_750_then_10_witness :
  ∃ st' bars,
    Rest.query_history mock_server 2 mock_history (Rest.init "BITMEX")
      = (Return (Some (Some bars)), st') ∧
    length bars = 760%nat ∧
    http_requests st' =
      [page_request mock_history "1m" 0;
       page_request mock_history "1m" 45000].
Proof.
  destruct (query_history_750_then_10 mock_server 2 mock_history
              (Rest.init "BITMEX") (mock_rows 0 750) (mock_rows 45000 10)
              "1m" 60)
    as (st' & bars & d_last & H1 & H2 & _ & H4 & H5).
  - reflexivity.
  - vm_compute. discriminate.
  - reflexivity.
  - reflexivity.
  - intros r. split; reflexivity.
  - intros r. split; reflexivity.
  - vm_compute. reflexivity.
  - vm_compute. reflexivity.
  - lia.
  - exists st', bars. split; [exact H1|]. split; [exact H2|].
    rewrite H5. vm_compute in H4. injection H4 as <-. reflexivity.
Defined.

(** ** Signer *)

(** The sibling path: the REST signature expires 30 seconds from now and
    covers method, prefix, path with query, expiry and urlencoded body. *)
Theorem sign_expiry_and_message hmac urlencode now meth pth ps kv st sk :
  Rest.secret st = Rest.SecretBytes sk →
  let request := {| method := meth; path := pth; params := ps;
                    data := DataDict kv; headers := []; extra := None;
                    response := None |} in
  let query := match ps with [] => pth | _ => pth +:+ "?" +:+ urlencode ps end in
  let body := match kv with [] => "" | _ => urlencode kv end in
  ∃ signed,
    Rest.sign hmac urlencode now st request = (Return signed, signed) ∧
    data signed = DataStr body ∧
    headers signed =
      [("Content-Type", "application/x-www-form-urlencoded");
       ("Accept", "application/json");
       ("api-key", Rest.key st);
       ("api-expires", pretty (now + 30));
       ("api-signature",
        hmac sk
          (meth +:+ "/api/v1" +:+ query +:+ pretty (now + 30) +:+ body))].
Proof.
  intros Hsk. cbn zeta. unfold Rest.sign, bind, gets, modify, ret.
  simpl. rewrite Hsk.
  destruct kv as [|kv0 kv]; simpl; eexists; repeat split;
    destruct ps; reflexivity.
Qed.

(** C6. The stream signature is the HMAC over "GET" + "/realtime" +
    expiry, but the expiry it carries is the current time itself: the 30
    seconds that [sign] adds are not added here. *)
Theorem authenticate_expiry_is_now hmac now st :
  let st' := snd (Ws.authenticate hmac now st) in
  Ws.trace st' =
    Ws.trace st ++
      [Ws.SendPacket
         (Ws.AuthKey (Ws.key st) now
            (hmac (Ws.secret st) ("GET" +:+ "/realtime" +:+ pretty now)))] ∧
  sent_expiry st' = Some now ∧
  sent_expiry st' ≠ Some (now + 30).
Proof.
  cbn zeta. unfold sent_expiry, Ws.authenticate, bind, gets, Ws.send_packet,
    Ws.emit, modify. simpl. rewrite last_snoc.
  repeat split. intros [= H]. lia.
Qed.

(** ** Execution handler *)

Lemma on_trade_not_fill d st :
  is_fill d = false → snd (Ws.on_trade d st) = st.
Proof.
  unfold is_fill, Ws.on_trade, bind, getitem, ret, raise.
  destruct (d !! "lastQty") as [q|]; [|done].
  destruct (truthy q); simpl; [|done].
  destruct (d !! "side") as [s|]; [|done]. simpl.
  by intros ->.
Qed.

Lemma on_trade_fill d st q s :
  d !! "lastQty" = Some q → d !! "side" = Some s →
  truthy q = true → truthy s = true →
  match d !! "execID" with
  | None => Ws.on_trade d st = (Raise KeyError, st)
  | Some t =>
      if decide (t ∈ Ws.trades st) then Ws.on_trade d st = (Return tt, st)
      else
        ∃ out st1,
          Ws.on_trade d st = (out, st1) ∧
          Ws.trades st1 = {[t]} ∪ Ws.trades st ∧
          Ws.orders st1 = Ws.orders st ∧
          Ws.gateway_name st1 = Ws.gateway_name st ∧
          ((∃ e, out = Raise e ∧ Ws.trace st1 = Ws.trace st) ∨
           (out = Return tt ∧
            ∃ tr, Ws.trace st1 = Ws.trace st ++ [Ws.GatewayOnTrade tr] ∧
                  trade_from d (Ws.gateway_name st) tr))
  end.
Proof.
  intros Hq Hs Htq Hts.
  unfold Ws.on_trade, bind, getitem, ret, raise. rewrite Hq. simpl.
  rewrite Htq. simpl. rewrite Hs. simpl. rewrite Hts. simpl.
  destruct (d !! "execID") as [t|] eqn:Hid; [|done].
  unfold gets. simpl.
  destruct (decide (t ∈ Ws.trades st)) as [Hin|Hnin].
  { by rewrite bool_decide_eq_true_2. }
  rewrite bool_decide_eq_false_2 by done.
  unfold modify, table_getitem, slice, Ws.emit, ret, raise, modify. simpl.
  destruct (d !! "clOrdID") as [c|] eqn:Hc; simpl;
    [|eexists _, _; split; [done|]; repeat split; left; by eexists].
  destruct (truthy c) eqn:Htc; simpl.
  - destruct (d !! "symbol") as [sym|] eqn:Hsym; simpl;
      [|eexists _, _; split; [done|]; repeat split; left; by eexists].
    destruct (DIRECTION_BITMEX2VT s) as [dir|] eqn:Hdir; simpl;
      [|eexists _, _; split; [done|]; repeat split; left; by eexists].
    destruct (d !! "lastPx") as [px|] eqn:Hpx; simpl;
      [|eexists _, _; split; [done|]; repeat split; left; by eexists].
    destruct (d !! "timestamp") as [ts|] eqn:Hts'; simpl;
      [|eexists _, _; split; [done|]; repeat split; left; by eexists].
    destruct ts as [|n|ts]; simpl;
      try (eexists _, _; split; [done|]; repeat split; left; by eexists).
    eexists _, _; split; [done|]. repeat split. right. split; [done|].
    eexists. split; [done|].
    unfold trade_from. simpl.
    split_and!; eauto. exists c. by rewrite Htc.
  - destruct (d !! "orderID") as [oid|] eqn:Hoid; simpl;
      [|eexists _, _; split; [done|]; repeat split; left; by eexists].
    destruct (d !! "symbol") as [sym|] eqn:Hsym; simpl;
      [|eexists _, _; split; [done|]; repeat split; left; by eexists].
    destruct (DIRECTION_BITMEX2VT s) as [dir|] eqn:Hdir; simpl;
      [|eexists _, _; split; [done|]; repeat split; left; by eexists].
    destruct (d !! "lastPx") as [px|] eqn:Hpx; simpl;
      [|eexists _, _; split; [done|]; repeat split; left; by eexists].
    destruct (d !! "timestamp") as [ts|] eqn:Hts'; simpl;
      [|eexists _, _; split; [done|]; repeat split; left; by eexists].
    destruct ts as [|n|ts]; simpl;
      try (eexists _, _; split; [done|]; repeat split; left; by eexists).
    eexists _, _; split; [done|]. repeat split. right. split; [done|].
    eexists. split; [done|].
    unfold trade_from. simpl.
    split_and!; eauto. exists c. by rewrite Htc.
Qed.

Lemma is_fill_true d :
  is_fill d = true →
  ∃ q s, d !! "lastQty" = Some q ∧ d !! "side" = Some s ∧
         truthy q = true ∧ truthy s = true.
Proof.
  unfold is_fill. destruct (d !! "lastQty") as [q|]; [|done].
  destruct (d !! "side") as [s|]; [|done].
  intros [? ?]%andb_true_iff. by exists q, s.
Qed.

Lemma emitted_trades_snoc st1 st tr :
  Ws.trace st1 = Ws.trace st ++ [Ws.GatewayOnTrade tr] →
  emitted_trades st1 = emitted_trades st ++ [tr].
Proof. unfold emitted_trades. intros ->. by rewrite omap_app. Qed.

(** One delivery either leaves the state alone or records a new id, with
    at most one trade emitted, which carries that id. *)
Lemma on_trade_step d st out st1 :
  Ws.on_trade d st = (out, st1) →
  st1 = st ∨
  ∃ t, is_fill d = true ∧ d !! "execID" = Some t ∧ (t ∉ Ws.trades st) ∧
       Ws.trades st1 = {[t]} ∪ Ws.trades st ∧
       Ws.gateway_name st1 = Ws.gateway_name st ∧
       ((out ≠ Return tt ∧ emitted_trades st1 = emitted_trades st) ∨
        (out = Return tt ∧
         ∃ tr, emitted_trades st1 = emitted_trades st ++ [tr] ∧
               trade_from d (Ws.gateway_name st) tr)).
Proof.
  intros Hrun. destruct (is_fill d) eqn:Hf.
  - destruct (is_fill_true d Hf) as (q & s & Hq & Hs & Htq & Hts).
    pose proof (on_trade_fill d st q s Hq Hs Htq Hts) as H.
    destruct (d !! "execID") as [t|] eqn:Hid.
    + destruct (decide (t ∈ Ws.trades st)) as [Hin|Hnin].
      * left. congruence.
      * right. destruct H as (out' & st1' & Hrun' & Ht & _ & Hn & Hcase).
        rewrite Hrun in Hrun'. injection Hrun' as <- <-.
        exists t. split_and!; try done.
        destruct Hcase as [(e & -> & Htr)|(-> & tr & Htr & Hfrom)].
        -- left. split; [done|]. unfold emitted_trades. by rewrite Htr.
        -- right. split; [done|]. exists tr. split; [|done].
           by apply emitted_trades_snoc.
    + left. congruence.
  - left. pose proof (on_trade_not_fill d st Hf) as H.
    by rewrite Hrun in H.
Qed.

Lemma with_id_nil t (l : list TradeData) :
  (∀ tr, tr ∈ l → t_tradeid tr ≠ t) → with_id t l = [].
Proof.
  unfold with_id. induction l as [|tr l IH]; intros H; [done|].
  rewrite filter_cons_False.
  - apply IH. intros tr' Hin. apply H. by right.
  - apply H. by left.
Qed.

Lemma with_id_fresh t st :
  ids_recorded st → t ∉ Ws.trades st → with_id t (emitted_trades st) = [].
Proof.
  intros Hrec Hnin. apply with_id_nil. intros tr Hin <-.
  by apply Hnin, Hrec.
Qed.

(** What one delivery keeps: the invariant, the ids already recorded, and
    the emitted trades of every id other than a newly recorded one. *)
Lemma on_trade_frame d st out st1 t :
  Ws.on_trade d st = (out, st1) →
  ids_recorded st →
  t ∈ Ws.trades st ∨ ¬ (is_fill d = true ∧ d !! "execID" = Some t) →
  ids_recorded st1 ∧
  Ws.gateway_name st1 = Ws.gateway_name st ∧
  (t ∈ Ws.trades st1 ↔ t ∈ Ws.trades st) ∧
  with_id t (emitted_trades st1) = with_id t (emitted_trades st).
Proof.
  intros Hrun Hrec Ht.
  destruct (on_trade_step d st out st1 Hrun)
    as [->|(t0 & Hf & Hid & Hnin & Htr & Hn & Hcase)]; [done|].
  assert (t0 ≠ t) as Hne.
  { intros ->. destruct Ht as [Ht|Ht]; [done|]. by apply Ht. }
  assert (t ∈ Ws.trades st1 ↔ t ∈ Ws.trades st) as Hiff.
  { rewrite Htr, elem_of_union, elem_of_singleton.
    split; [intros [?|?]; [congruence|done] | intros; by right]. }
  assert (∀ tr', tr' ∈ emitted_trades st → t_tradeid tr' ∈ Ws.trades st1)
    as Hold.
  { intros tr' Hin. rewrite Htr, elem_of_union. right. by apply Hrec. }
  destruct Hcase as [(_ & Hem)|(_ & tr & Hem & Hfrom)].
  - split_and!; try done; [|by rewrite Hem].
    intros tr Hin. rewrite Hem in Hin. by apply Hold.
  - assert (t_tradeid tr = t0) as Htid.
    { destruct Hfrom as (Hid' & _). congruence. }
    split_and!; try done.
    + intros tr' Hin. rewrite Hem in Hin.
      apply elem_of_app in Hin as [Hin|Hin%list_elem_of_singleton].
      * by apply Hold.
      * subst tr'. rewrite Htr, elem_of_union, elem_of_singleton. by left.
    + rewrite Hem. unfold with_id. rewrite filter_app.
      rewrite (filter_cons_False _ tr) by congruence.
      by rewrite filter_nil, app_nil_r.
Qed.

Lemma for_each_cons_inv {S A} (body : A → M S unit) x xs st out st' :
  for_each body (x :: xs) st = (out, st') →
  ∃ out1 st1,
    body x st = (out1, st1) ∧
    match out1 with
    | Return _ => for_each body xs st1 = (out, st')
    | Raise e => out = Raise e ∧ st' = st1
    end.
Proof.
  simpl. unfold bind. destruct (body x st) as [[[]|e] st1]; intros H.
  - by eexists _, _.
  - injection H as <- <-. by eexists _, _.
Qed.


(** Once an id is recorded, no later delivery adds a trade with that id. *)
Lemma on_trade_repeats_dropped t ds :
  ∀ st out st',
    for_each Ws.on_trade ds st = (out, st') →
    ids_recorded st → t ∈ Ws.trades st →
    with_id t (emitted_trades st') = with_id t (emitted_trades st).
Proof.
  induction ds as [|d ds IH]; intros st out st' Hrun Hrec Hin.
  - by injection Hrun as <- <-.
  - apply for_each_cons_inv in Hrun as (out1 & st1 & H1 & Hrest).
    destruct (on_trade_frame d st out1 st1 t H1 Hrec) as (Hrec1 & _ & Hiff & Hw);
      [by left|].
    destruct out1 as [[]|e].
    + rewrite <- Hw. apply (IH st1 out st'); [done..|]. by apply Hiff.
    + destruct Hrest as [_ ->]. done.
Qed.

(** What a run of deliveries keeps of an id that is already recorded, or
    that none of the records delivers. *)
Lemma deliver_frame t ds :
  ∀ st,
    ids_recorded st →
    (t ∈ Ws.trades st ∨
     ∀ d', d' ∈ ds → ¬ (is_fill d' = true ∧ d' !! "execID" = Some t)) →
    ids_recorded (deliver ds st) ∧
    Ws.gateway_name (deliver ds st) = Ws.gateway_name st ∧
    (t ∈ Ws.trades (deliver ds st) ↔ t ∈ Ws.trades st) ∧
    with_id t (emitted_trades (deliver ds st)) = with_id t (emitted_trades st).
Proof.
  induction ds as [|d ds IH]; intros st Hrec Ht; [done|].
  change (deliver (d :: ds) st) with (deliver ds (snd (Ws.on_trade d st))).
  destruct (on_trade_frame d st (fst (Ws.on_trade d st))
              (snd (Ws.on_trade d st)) t)
    as (Hrec1 & Hn1 & Hiff1 & Hw1); [by destruct (Ws.on_trade d st)|done| |].
  { destruct Ht as [Ht|Ht]; [by left|]. right. apply Ht. by left. }
  destruct (IH (snd (Ws.on_trade d st))) as (Hrec2 & Hn2 & Hiff2 & Hw2);
    [done| |].
  { destruct Ht as [Ht|Ht]; [left; by apply Hiff1|].
    right. intros d' Hin. apply Ht. by right. }
  split_and!; [done|congruence| |congruence].
  by rewrite Hiff2.
Qed.

(** The first delivery of a fresh id records it; it emits the one trade
    the record describes when it returns normally, and none when it
    raises. *)
Lemma on_trade_first d t st :
  ids_recorded st → t ∉ Ws.trades st →
  is_fill d = true → d !! "execID" = Some t →
  let st1 := snd (Ws.on_trade d st) in
  ids_recorded st1 ∧ t ∈ Ws.trades st1 ∧
  match fst (Ws.on_trade d st) with
  | Return _ =>
      ∃ tr, trade_from d (Ws.gateway_name st) tr ∧
            with_id t (emitted_trades st1) = [tr]
  | Raise _ => with_id t (emitted_trades st1) = []
  end.
Proof.
  intros Hrec Hnin Hf Hid. cbn zeta.
  destruct (Ws.on_trade d st) as [out st1] eqn:H1. simpl.
  destruct (on_trade_step d st _ st1 H1)
    as [->|(t0 & _ & Hid0 & _ & Htr & Hn & Hcase)].
  { (* the state cannot be unchanged: the id was fresh *)
    destruct (is_fill_true d Hf) as (q & s & Hq & Hs & Htq & Hts).
    pose proof (on_trade_fill d st q s Hq Hs Htq Hts) as H.
    rewrite Hid in H. rewrite decide_False in H by done.
    destruct H as (out' & st1' & Hrun' & Ht' & _).
    rewrite H1 in Hrun'. injection Hrun' as <- <-.
    exfalso. apply Hnin. rewrite Ht', elem_of_union, elem_of_singleton.
    by left. }
  assert (t0 = t) as -> by congruence.
  assert (t ∈ Ws.trades st1) as Hin1.
  { rewrite Htr, elem_of_union, elem_of_singleton. by left. }
  destruct Hcase as [(Hne & Hem)|(-> & tr & Hem & Hfrom)].
  - split_and!; [|done|].
    + intros tr' Hin. rewrite Hem in Hin. rewrite Htr, elem_of_union.
      right. by apply Hrec.
    + destruct out as [[]|e]; [done|]. rewrite Hem. by apply with_id_fresh.
  - assert (t_tradeid tr = t) as Htid.
    { destruct Hfrom as (Hid' & _). congruence. }
    split_and!; [|done|].
    + intros tr' Hin. rewrite Hem in Hin. rewrite Htr, elem_of_union.
      apply elem_of_app in Hin as [Hin|Hin%list_elem_of_singleton].
      * right. by apply Hrec.
      * left. subst tr'. by apply elem_of_singleton.
    + exists tr. split; [done|].
      rewrite Hem. unfold with_id. rewrite filter_app.
      fold (with_id t (emitted_trades st)). rewrite with_id_fresh by done.
      by rewrite filter_cons_True, filter_nil.
Qed.

(** C7. A record with no fill quantity or no side (zero, empty, null or
    missing) changes nothing: no trade is emitted and the dedup set is as
    it was. And in any sequence of deliveries, whichever of them raise, a
    trade id first delivered by the fill record [d] never yields more than
    one emitted trade, however often later records repeat the id: it
    yields exactly one, the trade [d] describes, when the call for [d]
    returns normally, and none when that call raises, the id having been
    recorded before the trade was built. *)
Theorem on_trade_drops_and_dedups :
  (∀ d st, is_fill d = false → snd (Ws.on_trade d st) = st) ∧
  (∀ pre d post t st,
     ids_recorded st →
     t ∉ Ws.trades st →
     is_fill d = true →
     d !! "execID" = Some t →
     (∀ d', d' ∈ pre → ¬ (is_fill d' = true ∧ d' !! "execID" = Some t)) →
     let st' := deliver (pre ++ d :: post) st in
     (length (with_id t (emitted_trades st')) ≤ 1)%nat ∧
     match fst (Ws.on_trade d (deliver pre st)) with
     | Return _ =>
         ∃ tr, trade_from d (Ws.gateway_name st) tr ∧
               with_id t (emitted_trades st') = [tr]
     | Raise _ => with_id t (emitted_trades st') = []
     end).
Proof.
  split; [apply on_trade_not_fill|].
  intros pre d post t st Hrec Hnin Hf Hid Hpre. cbn zeta.
  destruct (deliver_frame t pre st Hrec) as (Hrec1 & Hn1 & Hiff1 & Hw1);
    [by right|].
  assert (t ∉ Ws.trades (deliver pre st)) as Hnin1 by by rewrite Hiff1.
  destruct (on_trade_first d t (deliver pre st) Hrec1 Hnin1 Hf Hid)
    as (Hrec2 & Hin2 & Hfirst).
  assert (deliver (pre ++ d :: post) st
          = deliver post (snd (Ws.on_trade d (deliver pre st)))) as ->.
  { unfold deliver. by rewrite fold_left_app. }
  destruct (deliver_frame t post _ Hrec2) as (_ & _ & _ & ->); [by left|].
  rewrite Hn1 in Hfirst.
  destruct (fst (Ws.on_trade d (deliver pre st))) as [[]|e].
  - destruct Hfirst as (tr & Hfrom & ->). split; [simpl; lia|by exists tr].
  - rewrite Hfirst. split; [simpl; lia|done].
Qed.

Lemma on_trade_drops_and_dedups_witness :
  let st := Ws.init "BITMEX" "key" "secret" in
  let funding := execution "exec-0" 0 "" 0 in
  let fill := execution "exec-1" 5 "Buy" 9000 in
  let again := execution "exec-1" 5 "Buy" 9000 in
  let st' := deliver [funding; fill; again] st in
  snd (Ws.on_trade funding st) = st ∧
  ∃ tr, trade_from fill "BITMEX" tr ∧
        with_id (VStr "exec-1") (emitted_trades st') = [tr].
Proof.
  cbn zeta. destruct on_trade_drops_and_dedups as [Hdrop Hdedup]. split.
  - apply Hdrop. vm_compute. reflexivity.
  - destruct (Hdedup [execution "exec-0" 0 "" 0]
                (execution "exec-1" 5 "Buy" 9000)
                [execution "exec-1" 5 "Buy" 9000] (VStr "exec-1")
                (Ws.init "BITMEX" "key" "secret")) as [_ H].
    + intros tr Hin. vm_compute in Hin. inversion Hin.
    + apply not_elem_of_empty.
    + vm_compute. reflexivity.
    + vm_compute. reflexivity.
    + intros d' Hin%list_elem_of_singleton [Hf _]. subst d'.
      vm_compute in Hf. discriminate Hf.
    + exact H.
Defined.

(** A first delivery that raises after its id is recorded (the record has
    no timestamp) and a complete second delivery of the same id: both pass
    the filter and carry the id, and no trade with that id is emitted, not
    one. *)
Lemma repeated_id_after_raise_emits_none :
  let st := Ws.init "BITMEX" "key" "secret" in
  let first := delete "timestamp" (execution "exec-1" 5 "Buy" 9000) in
  let again := execution "exec-1" 5 "Buy" 9000 in
  let st' := deliver [first; again] st in
  is_fill first = true ∧ first !! "execID" = Some (VStr "exec-1") ∧
  is_fill again = true ∧ again !! "execID" = Some (VStr "exec-1") ∧
  fst (Ws.on_trade first st) = Raise KeyError ∧
  fst (Ws.on_trade again (snd (Ws.on_trade first st))) = Return tt ∧
  ¬ ∃ tr, with_id (VStr "exec-1") (emitted_trades st') = [tr].
Proof.
  cbn zeta. split_and!; try (vm_compute; reflexivity).
  intros [tr Htr]. vm_compute in Htr. discriminate Htr.
Qed.

(** ** Order handler *)

Lemma on_order_no_status d st :
  d !! "ordStatus" = None → Ws.on_order d st = (Return tt, st).
Proof. unfold Ws.on_order. by intros ->. Qed.

Lemma on_order_cached d st ordStatus sysid o :
  d !! "ordStatus" = Some ordStatus →
  d !! "orderID" = Some sysid →
  Ws.orders st !! sysid = Some o →
  Ws.on_order d st =
    (Return tt,
     snd (Ws.emit (Ws.GatewayOnOrder (updated d ordStatus o))
            (Ws.set_orders (<[sysid := updated d ordStatus o]> (Ws.orders st))
               st))).
Proof.
  intros Hs Hid Ho. unfold Ws.on_order. rewrite Hs.
  unfold bind, getitem, gets, ret, modify. rewrite Hid. simpl.
  rewrite Ho. reflexivity.
Qed.

Lemma updated_same_terms d ordStatus o :
  same_order_terms o (updated d ordStatus o).
Proof. by repeat split. Qed.

Lemma updated_unmapped d ordStatus o :
  STATUS_BITMEX2VT ordStatus = None →
  updated d ordStatus o = set_o_traded (get_default d "cumQty" (o_traded o)) o.
Proof. unfold updated. intros ->. by destruct o. Qed.

(** A first sighting that the handler processes to the end caches and
    emits the record it built, updated. *)
Lemma on_order_first d st ordStatus sysid st' :
  d !! "ordStatus" = Some ordStatus →
  d !! "orderID" = Some sysid →
  Ws.orders st !! sysid = None →
  Ws.on_order d st = (Return tt, st') →
  ∃ o, o_status o = SUBMITTING ∧ o_traded o = VInt 0 ∧
       Ws.orders st' = <[sysid := updated d ordStatus o]> (Ws.orders st) ∧
       Ws.trace st' =
         Ws.trace st ++ [Ws.GatewayOnOrder (updated d ordStatus o)].
Proof.
  intros Hs Hid Ho. unfold Ws.on_order. rewrite Hs.
  unfold bind, getitem, gets, ret, raise, modify, table_getitem, slice.
  rewrite Hid. simpl. rewrite Ho. simpl.
  destruct (d !! "clOrdID") as [c|]; simpl; [|done].
  destruct (truthy c); simpl.
  - destruct (d !! "symbol") as [sym|]; simpl; [|done].
    destruct (d !! "ordType") as [ot|]; simpl; [|done].
    destruct (ORDERTYPE_BITMEX2VT ot) as [ty|]; simpl; [|done].
    destruct (d !! "side") as [side|]; simpl; [|done].
    destruct (DIRECTION_BITMEX2VT side) as [dir|]; simpl; [|done].
    destruct (d !! "price") as [px|]; simpl; [|done].
    destruct (d !! "orderQty") as [qty|]; simpl; [|done].
    destruct (d !! "timestamp") as [[|n|ts]|]; simpl; try done.
    intros [= <-]. eexists (OrderData_new _ _ _ _ _ _ _ _).
    simpl. split_and!; try done. by rewrite insert_insert_eq.
  - destruct (d !! "symbol") as [sym|]; simpl; [|done].
    destruct (d !! "ordType") as [ot|]; simpl; [|done].
    destruct (ORDERTYPE_BITMEX2VT ot) as [ty|]; simpl; [|done].
    destruct (d !! "side") as [side|]; simpl; [|done].
    destruct (DIRECTION_BITMEX2VT side) as [dir|]; simpl; [|done].
    destruct (d !! "price") as [px|]; simpl; [|done].
    destruct (d !! "orderQty") as [qty|]; simpl; [|done].
    destruct (d !! "timestamp") as [[|n|ts]|]; simpl; try done.
    intros [= <-]. eexists (OrderData_new _ _ _ _ _ _ _ _).
    simpl. split_and!; try done. by rewrite insert_insert_eq.
Qed.

(** C8. A record without an order-status field changes nothing and emits
    nothing. A record whose status is not in the venue-status map leaves
    the cached order's status as it was, still takes the cumulative fill
    when the record has one, and still emits a snapshot; on a first
    sighting the status kept is the one the new record was created with. *)
Theorem on_order_status_rules :
  (∀ d st, d !! "ordStatus" = None → Ws.on_order d st = (Return tt, st)) ∧
  (∀ d st ordStatus sysid o,
     d !! "ordStatus" = Some ordStatus →
     STATUS_BITMEX2VT ordStatus = None →
     d !! "orderID" = Some sysid →
     Ws.orders st !! sysid = Some o →
     ∃ st' o',
       Ws.on_order d st = (Return tt, st') ∧
       Ws.orders st' = <[sysid := o']> (Ws.orders st) ∧
       o_status o' = o_status o ∧
       o_traded o' = default (o_traded o) (d !! "cumQty") ∧
       Ws.trace st' = Ws.trace st ++ [Ws.GatewayOnOrder o']) ∧
  (∀ d st ordStatus sysid st',
     d !! "ordStatus" = Some ordStatus →
     STATUS_BITMEX2VT ordStatus = None →
     d !! "orderID" = Some sysid →
     Ws.orders st !! sysid = None →
     Ws.on_order d st = (Return tt, st') →
     ∃ o',
       Ws.orders st' = <[sysid := o']> (Ws.orders st) ∧
       o_status o' = SUBMITTING ∧
       o_traded o' = default (VInt 0) (d !! "cumQty") ∧
       Ws.trace st' = Ws.trace st ++ [Ws.GatewayOnOrder o']).
Proof.
  split_and!.
  - apply on_order_no_status.
  - intros d st ordStatus sysid o Hs Hmap Hid Ho.
    eexists _, (updated d ordStatus o).
    split; [by apply on_order_cached|].
    rewrite updated_unmapped by done. by split_and!.
  - intros d st ordStatus sysid st' Hs Hmap Hid Ho Hrun.
    destruct (on_order_first d st ordStatus sysid st' Hs Hid Ho Hrun)
      as (o & Hst & Htr & Hord & Htrace).
    exists (updated d ordStatus o).
    rewrite updated_unmapped in * by done.
    split_and!; try done. simpl. unfold get_default. by rewrite Htr.
Qed.

Lemma on_order_status_rules_witness :
  Ws.on_order (order_record None (Some 4)) sample_ws = (Return tt, sample_ws) ∧
  ∃ st' o',
    Ws.on_order (order_record (Some "PendingCancel") (Some 4)) sample_ws
      = (Return tt, st') ∧
    Ws.orders st' !! VStr "venue-7" = Some o' ∧
    o_status o' = NOTTRADED ∧
    o_traded o' = VInt 4 ∧
    last (Ws.trace st') = Some (Ws.GatewayOnOrder o').
Proof.
  destruct on_order_status_rules as (Hnone & Hunmapped & _). split.
  - apply Hnone. vm_compute. reflexivity.
  - destruct (Hunmapped (order_record (Some "PendingCancel") (Some 4))
                sample_ws (VStr "PendingCancel") (VStr "venue-7")
                sample_cached)
      as (st' & o' & Hrun & Hord & Hst & Htr & Htrace).
    + vm_compute. reflexivity.
    + reflexivity.
    + vm_compute. reflexivity.
    + vm_compute. reflexivity.
    + exists st', o'. split; [exact Hrun|].
      split; [rewrite Hord; apply lookup_insert_eq|].
      split; [exact Hst|]. split; [exact Htr|].
      rewrite Htrace. apply last_snoc.
Defined.

(** C10. When the venue order id of a record is already in the cache, the
    handler changes at most [traded] and [status] of that cached order:
    its symbol, exchange, type, display id, direction, offset, price,
    volume, time and gateway name stay, every other cache entry stays, and
    so does the dedup set. *)
Theorem on_order_frame d st out st' sysid o :
  Ws.on_order d st = (out, st') →
  d !! "orderID" = Some sysid →
  Ws.orders st !! sysid = Some o →
  ∃ o',
    Ws.orders st' !! sysid = Some o' ∧
    same_order_terms o o' ∧
    (∀ k, k ≠ sysid → Ws.orders st' !! k = Ws.orders st !! k) ∧
    Ws.trades st' = Ws.trades st.
Proof.
  intros Hrun Hid Ho.
  destruct (d !! "ordStatus") as [ordStatus|] eqn:Hs.
  - rewrite (on_order_cached d st ordStatus sysid o Hs Hid Ho) in Hrun.
    injection Hrun as <- <-. simpl.
    exists (updated d ordStatus o). split_and!.
    + apply lookup_insert_eq.
    + apply updated_same_terms.
    + intros k Hk. by apply lookup_insert_ne.
    + done.
  - rewrite (on_order_no_status d st Hs) in Hrun. injection Hrun as <- <-.
    exists o. by split_and!.
Qed.

Lemma on_order_frame_witness :
  ∃ o',
    Ws.orders (snd (Ws.on_order (order_record (Some "Filled") (Some 10))
                      sample_ws)) !! VStr "venue-7" = Some o' ∧
    same_order_terms sample_cached o'.
Proof.
  destruct (on_order_frame (order_record (Some "Filled") (Some 10)) sample_ws
              (fst (Ws.on_order (order_record (Some "Filled") (Some 10))
                      sample_ws))
              (snd (Ws.on_order (order_record (Some "Filled") (Some 10))
                      sample_ws))
              (VStr "venue-7") sample_cached)
    as (o' & Ho' & Hsame & _).
  - by destruct (Ws.on_order _ _).
  - vm_compute. reflexivity.
  - vm_compute. reflexivity.
  - exists o'. split; [exact Ho' | exact Hsame].
Defined.

(** ** Session: error notices and reconnection *)

Section Session.

Variable hmac : string → string → string.
Variables on_tick on_depth on_position on_account on_contract
  : dict → M Ws.WsApi unit.

Abbreviation on_packet :=
  (Ws.on_packet on_tick on_depth on_position on_account on_contract).

(** While the session is active a disconnect is followed by a new
    authentication request. *)
Lemma transport_disconnect_active now st :
  Ws.active st = true →
  sent_packets (snd (Ws.transport_disconnect hmac now st)) =
    sent_packets st ++
      [Ws.AuthKey (Ws.key st) now
         (hmac (Ws.secret st) ("GET" +:+ "/realtime" +:+ pretty now))].
Proof.
  intros Ha.
  unfold Ws.transport_disconnect, Ws.on_disconnected, Ws.on_connected,
    Ws.authenticate, Ws.write_log, Ws.send_packet, Ws.emit, bind, gets,
    modify, sent_packets.
  simpl. rewrite Ha. simpl. rewrite !omap_app. simpl.
  by rewrite !app_nil_r.
Qed.



End Session.


(** * Further properties *)

(** ** Rate governor: bursts, replenishment, cooldown *)

(** X1. Between two timer ticks the gate lets through as many requests as
    there is quota, and no more: of [n] calls in a row, with no cooldown
    running, exactly [min n remaining] are granted. *)
Theorem try_acquire_n_burst n :
  ∀ st,
    Rest.rate_limit_sleep st = 0 →
    0 ≤ Rest.rate_limit_remaining st →
    ∃ st',
      try_acquire_n n st =
        (Return (Nat.min n (Z.to_nat (Rest.rate_limit_remaining st))), st') ∧
      Rest.rate_limit_remaining st' =
        Rest.rate_limit_remaining st -
        Z.of_nat (Nat.min n (Z.to_nat (Rest.rate_limit_remaining st))) ∧
      Rest.rate_limit_sleep st' = 0.
Proof.
  induction n as [|n IH]; intros st Hs Hr.
  - exists st. simpl. unfold ret. split_and!; [done|lia|done].
  - cbn [try_acquire_n]. unfold bind at 1.
    destruct (Z.eq_dec (Rest.rate_limit_remaining st) 0) as [Hz|Hnz].
    + destruct (check_rate_limit_denied st) as [m Hm]; [by right|].
      rewrite Hm.
      destruct (IH (snd (Rest.write_log m st))) as (st' & Hrun & Hrem & Hsl);
        [done|simpl; lia|].
      unfold bind. rewrite Hrun. exists st'. simpl in *. unfold ret.
      rewrite Hz in *. simpl in *.
      rewrite Nat.min_0_r in *. by split_and!.
    + rewrite check_rate_limit_granted by done.
      set (st1 := Rest.set_rate_limit_remaining _ st).
      destruct (IH st1) as (st' & Hrun & Hrem & Hsl); [done|simpl; lia|].
      unfold bind. rewrite Hrun. exists st'. unfold ret. simpl in *.
      replace (Z.to_nat (Rest.rate_limit_remaining st))
        with (S (Z.to_nat (Rest.rate_limit_remaining st - 1))) by lia.
      simpl. split_and!; [done|lia|done].
Qed.

Lemma try_acquire_n_burst_witness :
  fst (try_acquire_n 100 (Rest.init "BITMEX")) = Return 60%nat.
Proof.
  destruct (try_acquire_n_burst 100 (Rest.init "BITMEX"))
    as (st' & Hrun & _); [reflexivity|simpl; lia|].
  rewrite Hrun. reflexivity.
Defined.

Lemma reset_rate_limit_step st :
  0 ≤ Rest.rate_limit_sleep st →
  let st' := rate_step st Tick in
  Rest.rate_limit_remaining st' =
    Z.min (Rest.rate_limit_remaining st + 1) (Rest.rate_limit_limit st) ∧
  Rest.rate_limit_sleep st' = Z.max 0 (Rest.rate_limit_sleep st - 1) ∧
  Rest.rate_limit_limit st' = Rest.rate_limit_limit st.
Proof.
  intros Hs. cbn zeta. simpl.
  unfold Rest.reset_rate_limit, bind, gets, modify, ret. simpl.
  destruct (Z.eqb_spec (Rest.rate_limit_sleep st) 0); simpl;
    split_and!; try done; lia.
Qed.

(** X2. The timer refills one unit per tick up to the limit and counts a
    cooldown down to zero, never below: after [k >= 1] ticks the quota is
    [min (remaining + k) limit] and the cooldown is [max 0 (sleep - k)]. *)
Theorem ticks_replenish k :
  ∀ st,
    (1 ≤ k)%nat →
    0 ≤ Rest.rate_limit_sleep st →
    let st' := rate_run (replicate k Tick) st in
    Rest.rate_limit_remaining st' =
      Z.min (Rest.rate_limit_remaining st + Z.of_nat k)
            (Rest.rate_limit_limit st) ∧
    Rest.rate_limit_sleep st' =
      Z.max 0 (Rest.rate_limit_sleep st - Z.of_nat k) ∧
    Rest.rate_limit_limit st' = Rest.rate_limit_limit st.
Proof.
  induction k as [|k IH]; intros st Hk Hs; [lia|].
  destruct (reset_rate_limit_step st Hs) as (H1 & H2 & H3).
  destruct k as [|k].
  - cbn zeta.
    change (rate_run (replicate 1 Tick) st) with (rate_step st Tick).
    rewrite H1, H2, H3. split_and!; [lia|lia|done].
  - cbn zeta. change (rate_run (replicate (S (S k)) Tick) st)
      with (rate_run (replicate (S k) Tick) (rate_step st Tick)).
    destruct (IH (rate_step st Tick)) as (I1 & I2 & I3); [lia|lia|].
    rewrite I1, I2, I3, H1, H2, H3. split_and!; [lia|lia|done].
Qed.

Lemma ticks_replenish_witness :
  let st := Rest.set_rate_limit_sleep 3
              (Rest.set_rate_limit_remaining 58 (Rest.init "BITMEX")) in
  let st' := rate_run (replicate 5 Tick) st in
  Rest.rate_limit_remaining st' = 60 ∧ Rest.rate_limit_sleep st' = 0.
Proof.
  cbn zeta.
  destruct (ticks_replenish 5
              (Rest.set_rate_limit_sleep 3
                 (Rest.set_rate_limit_remaining 58 (Rest.init "BITMEX"))))
    as (H1 & H2 & _); [lia|simpl; lia|].
  split; [rewrite H1|rewrite H2]; reflexivity.
Defined.

Lemma ticks_sleep k :
  ∀ st,
    0 ≤ Rest.rate_limit_sleep st →
    Rest.rate_limit_sleep (rate_run (replicate k Tick) st) =
      Z.max 0 (Rest.rate_limit_sleep st - Z.of_nat k).
Proof.
  induction k as [|k IH]; intros st Hs; [simpl; lia|].
  destruct (reset_rate_limit_step st Hs) as (_ & H2 & _).
  change (rate_run (replicate (S k) Tick) st)
    with (rate_run (replicate k Tick) (rate_step st Tick)).
  rewrite IH by lia. rewrite H2. lia.
Qed.

(** X3. A response that carries [x-ratelimit-remaining], the header read
    first, and [Retry-After: n] with [n] positive starts a cooldown of
    [n + 1] ticks: whatever the state was, every request is denied until
    the timer has ticked [n + 1] times, at which point the cooldown is
    over. *)
Theorem retry_after_cooldown request resp m n st (k : nat) req :
  response request = Some resp →
  resp_headers resp !! "x-ratelimit-remaining" = Some m →
  resp_headers resp !! "Retry-After" = Some n →
  0 < n →
  let st' := rate_run (Observe request :: replicate k Tick) st in
  Rest.rate_limit_sleep st' = Z.max 0 (n + 1 - Z.of_nat k) ∧
  (Z.of_nat k ≤ n →
     fst (Rest.check_rate_limit st') = Return false ∧
     fst (Rest.send_order req st') = Return "").
Proof.
  intros Hresp Hm Hn Hpos. cbn zeta.
  change (rate_run (Observe request :: replicate k Tick) st)
    with (rate_run (replicate k Tick) (rate_step st (Observe request))).
  assert (Rest.rate_limit_sleep (rate_step st (Observe request)) = n + 1)
    as Hsl.
  { simpl. unfold Rest.update_rate_limit. rewrite Hresp.
    unfold bind, table_getitem, gets, modify, ret. rewrite Hm. simpl.
    rewrite Hn. simpl.
    destruct (Z.eqb_spec n 0); [lia|done]. }
  set (st1 := rate_step st (Observe request)) in *.
  assert (Rest.rate_limit_sleep (rate_run (replicate k Tick) st1)
          = Z.max 0 (n + 1 - Z.of_nat k)) as Hk.
  { rewrite ticks_sleep by lia. by rewrite Hsl. }
  split; [exact Hk|]. intros Hle.
  destruct (check_rate_limit_denied (rate_run (replicate k Tick) st1))
    as [msg Hden]; [left; lia|].
  split; [by rewrite Hden|].
  unfold Rest.send_order, bind. by rewrite Hden.
Qed.

Lemma retry_after_cooldown_witness :
  let st' := rate_run (Observe (observed 10 (Some 2)) :: replicate 2 Tick)
               (Rest.init "BITMEX") in
  Rest.rate_limit_sleep st' = 1 ∧
  fst (Rest.send_order sample_order st') = Return "".
Proof.
  cbn zeta.
  destruct (retry_after_cooldown (observed 10 (Some 2))
              {| status_code := 200; text := "";
                 resp_headers := {[ "x-ratelimit-remaining" := 10;
                                    "Retry-After" := 2 ]};
                 json := [] |}
              10 2 (Rest.init "BITMEX") 2 sample_order) as [H1 H2].
  - reflexivity.
  - vm_compute. reflexivity.
  - vm_compute. reflexivity.
  - lia.
  - split; [rewrite H1; reflexivity|]. apply H2. lia.
Defined.

(** ** Order submission *)

Lemma send_order_run req st side ordType :
  Rest.rate_limit_sleep st = 0 →
  Rest.rate_limit_remaining st ≠ 0 →
  DIRECTION_VT2BITMEX (or_direction req) = Some side →
  ORDERTYPE_VT2BITMEX (or_type req) = Some ordType →
  let orderid := pretty (Rest.connect_time st + (Rest.order_count st + 1)) in
  let o := create_order_data req orderid (Rest.gateway_name st) in
  let ref := length (Rest.objects st) in
  ∃ st' r,
    Rest.send_order req st = (Return (vt_orderid o), st') ∧
    Rest.objects st' = Rest.objects st ++ [o] ∧
    Rest.trace st' =
      Rest.trace st ++ [Rest.AddRequest r; Rest.GatewayOnOrder ref] ∧
    method r = "POST" ∧ path r = "/order" ∧ params r = [] ∧
    extra r = Some ref ∧ response r = None ∧
    Rest.rate_limit_remaining st' = Rest.rate_limit_remaining st - 1 ∧
    Rest.rate_limit_sleep st' = 0 ∧
    Rest.order_count st' = Rest.order_count st + 1 ∧
    Rest.connect_time st' = Rest.connect_time st ∧
    body_get "symbol" r = Some (VStr (or_symbol req)) ∧
    body_get "side" r = Some (VStr side) ∧
    body_get "ordType" r = Some (VStr ordType) ∧
    body_get "orderQty" r = Some (VInt (or_volume req)) ∧
    body_get "clOrdID" r = Some (VStr orderid) ∧
    body_get "price" r =
      (if decide (or_type req = LIMIT) then Some (VInt (or_price req))
       else None) ∧
    body_get "stopPx" r =
      (if decide (or_type req = STOP) then Some (VInt (or_price req))
       else None) ∧
    body_get "execInst" r =
      (if decide (or_type req = STOP) then
         Some (VStr (if decide (or_offset req = CLOSE)
                     then "LastPrice,ReduceOnly" else "LastPrice"))
       else if decide (or_offset req = CLOSE) then Some (VStr "ReduceOnly")
       else None).
Proof.
  intros Hs Hr Hdir Hty. cbn zeta.
  unfold Rest.send_order. unfold bind at 1.
  rewrite check_rate_limit_granted by done. cbn [negb].
  unfold bind, gets, Rest._new_order_id, Rest.new_object, Rest.emit, modify,
    ret, table_getitem. simpl.
  rewrite Hdir, Hty. simpl.
  destruct req as [sym ex dir ty vol px off]. simpl in *.
  destruct ty; try discriminate Hty; destruct off; simpl;
    eexists _, _; rewrite <- !app_assoc; simpl;
    split_and!; first [reflexivity | exact Hs].
Qed.

Lemma translatable_tables req :
  translatable req →
  ∃ side ordType,
    DIRECTION_VT2BITMEX (or_direction req) = Some side ∧
    ORDERTYPE_VT2BITMEX (or_type req) = Some ordType.
Proof.
  intros (Hd & Hf1 & Hf2).
  destruct (or_direction req) eqn:Ed; [| |done];
    destruct (or_type req) eqn:Et; try done; simpl; eauto.
Qed.

(** X4. A granted submission ties three things to one new order object: the
    request queued for the venue refers to it, the host is handed it, and
    the [clOrdID] sent to the venue is its display id, which is what lets
    the stream updates find it. The object starts pending, nothing filled,
    and the id is [connect_time] plus the next counter value. *)
Theorem send_order_correlates req st :
  Rest.rate_limit_sleep st = 0 →
  Rest.rate_limit_remaining st ≠ 0 →
  translatable req →
  ∃ st' r o ref id,
    Rest.send_order req st =
      (Return (Rest.gateway_name st +:+ "." +:+ id), st') ∧
    id = pretty (Rest.connect_time st + (Rest.order_count st + 1)) ∧
    queued_requests st' = queued_requests st ++ [r] ∧
    host_orders st' = host_orders st ++ [ref] ∧
    http_requests st' = http_requests st ∧
    method r = "POST" ∧ path r = "/order" ∧
    extra r = Some ref ∧
    Rest.objects st !! ref = None ∧
    Rest.objects st' !! ref = Some o ∧
    o_orderid o = VStr id ∧
    body_get "clOrdID" r = Some (VStr id) ∧
    o_status o = SUBMITTING ∧
    o_traded o = VInt 0 ∧
    Rest.rate_limit_remaining st' = Rest.rate_limit_remaining st - 1.
Proof.
  intros Hs Hr Ht.
  destruct (translatable_tables req Ht) as (side & ordType & Hdir & Hty).
  destruct (send_order_run req st side ordType Hs Hr Hdir Hty)
    as (st' & r & Hrun & Hobj & Htr & Hm & Hp & _ & Hex & _ & Hrem & _ & _ & _
        & _ & _ & _ & _ & Hcl & _).
  exists st', r,
    (create_order_data req
       (pretty (Rest.connect_time st + (Rest.order_count st + 1)))
       (Rest.gateway_name st)),
    (length (Rest.objects st)),
    (pretty (Rest.connect_time st + (Rest.order_count st + 1))).
  split; [exact Hrun|]. split; [reflexivity|].
  unfold queued_requests, host_orders, http_requests. rewrite Htr, Hobj.
  rewrite !omap_app. simpl. rewrite !app_nil_r.
  split_and!; try done.
  - by apply lookup_ge_None_2.
  - by rewrite lookup_app_r, Nat.sub_diag.
Qed.

Lemma send_order_correlates_witness :
  ∃ st' r,
    Rest.send_order sample_order (Rest.init "BITMEX")
      = (Return "BITMEX.1000001", st') ∧
    queued_requests st' = [r] ∧
    body_get "clOrdID" r = Some (VStr "1000001").
Proof.
  destruct (send_order_correlates sample_order (Rest.init "BITMEX"))
    as (st' & r & o & ref & id & Hrun & Hid & Hq & _ & _ & _ & _ & _ & _ & _
        & _ & Hcl & _).
  - reflexivity.
  - vm_compute. discriminate.
  - vm_compute. repeat split; discriminate.
  - subst id. exists st', r. split; [exact Hrun|]. split; [exact Hq|exact Hcl].
Defined.

(** X5. The body of the queued order by type and offset: a price only on a
    limit order; a trigger price and the last-price instruction only on a
    stop order; the reduce-only instruction exactly on a closing order,
    after the last-price one when both apply. Symbol, side, type and
    quantity are always there. *)
Theorem send_order_body req st :
  Rest.rate_limit_sleep st = 0 →
  Rest.rate_limit_remaining st ≠ 0 →
  translatable req →
  ∃ r,
    queued_requests (snd (Rest.send_order req st)) =
      queued_requests st ++ [r] ∧
    body_get "symbol" r = Some (VStr (or_symbol req)) ∧
    (VStr <$> DIRECTION_VT2BITMEX (or_direction req)) = body_get "side" r ∧
    (VStr <$> ORDERTYPE_VT2BITMEX (or_type req)) = body_get "ordType" r ∧
    body_get "orderQty" r = Some (VInt (or_volume req)) ∧
    body_get "price" r =
      (if decide (or_type req = LIMIT) then Some (VInt (or_price req))
       else None) ∧
    body_get "stopPx" r =
      (if decide (or_type req = STOP) then Some (VInt (or_price req))
       else None) ∧
    body_get "execInst" r =
      (if decide (or_type req = STOP) then
         Some (VStr (if decide (or_offset req = CLOSE)
                     then "LastPrice,ReduceOnly" else "LastPrice"))
       else if decide (or_offset req = CLOSE) then Some (VStr "ReduceOnly")
       else None).
Proof.
  intros Hs Hr Ht.
  destruct (translatable_tables req Ht) as (side & ordType & Hdir & Hty).
  destruct (send_order_run req st side ordType Hs Hr Hdir Hty)
    as (st' & r & Hrun & _ & Htr & _ & _ & _ & _ & _ & _ & _ & _ & _
        & Hsym & Hside & Hot & Hqty & _ & Hpx & Hstop & Hinst).
  exists r. rewrite Hrun. simpl. unfold queued_requests. rewrite Htr.
  rewrite omap_app. simpl. rewrite Hdir, Hty. by split_and!.
Qed.

Lemma send_order_body_witness :
  ∃ r,
    queued_requests
      (snd (Rest.send_order
              {| or_symbol := "XBTUSD"; or_exchange := BITMEX;
                 or_direction := SHORT; or_type := STOP; or_volume := 3;
                 or_price := 8500; or_offset := CLOSE |}
              (Rest.init "BITMEX"))) = [r] ∧
    body_get "price" r = None ∧
    body_get "stopPx" r = Some (VInt 8500) ∧
    body_get "execInst" r = Some (VStr "LastPrice,ReduceOnly").
Proof.
  destruct (send_order_body
              {| or_symbol := "XBTUSD"; or_exchange := BITMEX;
                 or_direction := SHORT; or_type := STOP; or_volume := 3;
                 or_price := 8500; or_offset := CLOSE |}
              (Rest.init "BITMEX"))
    as (r & Hq & _ & _ & _ & _ & Hpx & Hstop & Hinst).
  - reflexivity.
  - vm_compute. discriminate.
  - vm_compute. repeat split; discriminate.
  - exists r. split; [exact Hq|]. split; [exact Hpx|].
    split; [exact Hstop|exact Hinst].
Defined.

(** X6. A request the tables cannot translate (a net direction, or a
    fill-and-kill or fill-or-kill order) raises [KeyError] after the gate
    was passed: a unit of quota and an order id are used up, yet nothing
    is queued, no order object is created and the host is told nothing. *)
Theorem send_order_untranslatable req st :
  Rest.rate_limit_sleep st = 0 →
  Rest.rate_limit_remaining st ≠ 0 →
  or_direction req = NET ∨ or_type req = FAK ∨ or_type req = FOK →
  ∃ st',
    Rest.send_order req st = (Raise KeyError, st') ∧
    Rest.trace st' = Rest.trace st ∧
    Rest.objects st' = Rest.objects st ∧
    Rest.rate_limit_remaining st' = Rest.rate_limit_remaining st - 1 ∧
    Rest.order_count st' = Rest.order_count st + 1.
Proof.
  intros Hs Hr Hbad.
  unfold Rest.send_order. unfold bind at 1.
  rewrite check_rate_limit_granted by done. cbn [negb].
  unfold bind, gets, Rest._new_order_id, modify, ret, raise, table_getitem.
  simpl.
  destruct (DIRECTION_VT2BITMEX (or_direction req)) as [side|] eqn:Hdir;
    simpl.
  - destruct (ORDERTYPE_VT2BITMEX (or_type req)) as [ordType|] eqn:Hty;
      simpl.
    + exfalso. destruct Hbad as [H|[H|H]]; rewrite H in *; discriminate.
    + eexists. by split_and!.
  - eexists. by split_and!.
Qed.

Lemma send_order_untranslatable_witness :
  ∃ st',
    Rest.send_order
      {| or_symbol := "XBTUSD"; or_exchange := BITMEX; or_direction := LONG;
         or_type := FOK; or_volume := 1; or_price := 9000;
         or_offset := OFFSET_NONE |} (Rest.init "BITMEX")
      = (Raise KeyError, st') ∧
    Rest.trace st' = [] ∧
    Rest.rate_limit_remaining st' = 59.
Proof.
  destruct (send_order_untranslatable
              {| or_symbol := "XBTUSD"; or_exchange := BITMEX;
                 or_direction := LONG; or_type := FOK; or_volume := 1;
                 or_price := 9000; or_offset := OFFSET_NONE |}
              (Rest.init "BITMEX"))
    as (st' & Hrun & Htr & _ & Hrem & _).
  - reflexivity.
  - vm_compute. discriminate.
  - right. right. reflexivity.
  - exists st'. split; [exact Hrun|]. split; [exact Htr|exact Hrem].
Defined.

#[local] Instance ids_kept_preorder : PreOrder ids_kept.
Proof.
  split.
  - intros st. by split_and!.
  - intros a b c (H1 & H2 & H3) (I1 & I2 & I3). unfold ids_kept.
    split_and!; [congruence|lia|congruence].
Qed.

Lemma emit_ids_kept e : stable ids_kept (Rest.emit e).
Proof. intros st. by split_and!. Qed.

Lemma check_rate_limit_ids_kept : stable ids_kept Rest.check_rate_limit.
Proof.
  unfold Rest.check_rate_limit.
  stable_step; [stable_step|].
  destruct (negb _).
  { stable_step; [apply emit_ids_kept|stable_step]. }
  stable_step; [stable_step|].
  destruct (_ =? _).
  { stable_step; [apply emit_ids_kept|stable_step]. }
  stable_step; [|stable_step].
  apply stable_modify. intros st. by split_and!.
Qed.

Lemma update_rate_limit_ids_kept request :
  stable ids_kept (Rest.update_rate_limit request).
Proof.
  unfold Rest.update_rate_limit. destruct (response request); [|stable_step].
  stable_step; [stable_step|].
  stable_step.
  { apply stable_modify. intros st. by split_and!. }
  stable_step.
  { apply stable_modify. intros st. by split_and!. }
  stable_step; [stable_step|].
  destruct (negb _); [|stable_step].
  apply stable_modify. intros st. by split_and!.
Qed.

Lemma reset_rate_limit_ids_kept : stable ids_kept Rest.reset_rate_limit.
Proof.
  unfold Rest.reset_rate_limit.
  stable_step; [stable_step|].
  stable_step.
  { apply stable_modify. intros st. by split_and!. }
  stable_step; [stable_step|].
  stable_step; [stable_step|].
  stable_step.
  { apply stable_modify. intros st. by split_and!. }
  stable_step; [stable_step|].
  destruct (negb _); [|stable_step].
  apply stable_modify. intros st. by split_and!.
Qed.

Lemma on_error_ids_kept t v : stable ids_kept (Rest.on_error t v).
Proof.
  unfold Rest.on_error, Rest.write_log.
  stable_step; apply emit_ids_kept.
Qed.

Lemma on_send_order_error_ids_kept t v request :
  stable ids_kept (Rest.on_send_order_error t v request).
Proof.
  unfold Rest.on_send_order_error. destruct (extra request) as [ref|];
    [|stable_step].
  stable_step.
  { apply stable_modify. intros st. split_and!; [done|done|].
    unfold order_ids. simpl. apply list_eq. intros i.
    rewrite !list_lookup_fmap.
    destruct (decide (i = ref)) as [->|Hne].
    - rewrite list_lookup_alter_eq. by destruct (Rest.objects st !! ref).
    - by rewrite list_lookup_alter_ne. }
  stable_step; [apply emit_ids_kept|].
  destruct (negb _); [apply on_error_ids_kept|stable_step].
Qed.

Lemma cancel_order_ids_kept u req : stable ids_kept (cancel_order u req).
Proof.
  unfold cancel_order.
  stable_step; [apply check_rate_limit_ids_kept|].
  destruct (negb _); [stable_step|apply emit_ids_kept].
Qed.

(** A submission keeps the ids, or adds the one made of the next counter
    value. *)
Lemma send_order_ids req st :
  let st' := snd (Rest.send_order req st) in
  ids_kept st st' ∨
  (Rest.connect_time st' = Rest.connect_time st ∧
   Rest.order_count st' = Rest.order_count st + 1 ∧
   order_ids st' =
     order_ids st ++
       [VStr (pretty (Rest.connect_time st + (Rest.order_count st + 1)))]).
Proof.
  cbn zeta.
  destruct (decide (Rest.rate_limit_sleep st = 0)) as [Hs|Hs];
    [destruct (decide (Rest.rate_limit_remaining st = 0)) as [Hr|Hr]|].
  - left. destruct (check_rate_limit_denied st) as [m Hm]; [by right|].
    unfold Rest.send_order, bind. rewrite Hm. simpl. by split_and!.
  - destruct (DIRECTION_VT2BITMEX (or_direction req)) as [side|] eqn:Hdir;
      [destruct (ORDERTYPE_VT2BITMEX (or_type req)) as [ordType|] eqn:Hty|].
    + right.
      destruct (send_order_run req st side ordType Hs Hr Hdir Hty)
        as (st' & r & Hrun & Hobj & _ & _ & _ & _ & _ & _ & _ & _ & Hcnt
            & Hct & _).
      rewrite Hrun. simpl. split_and!; [done|done|].
      unfold order_ids. rewrite Hobj, fmap_app. done.
    + left. unfold Rest.send_order. unfold bind at 1.
      rewrite check_rate_limit_granted by done. cbn [negb].
      unfold bind, gets, Rest._new_order_id, modify, ret, raise,
        table_getitem. simpl. rewrite Hdir, Hty. simpl.
      split_and!; [done|simpl; lia|done].
    + left. unfold Rest.send_order. unfold bind at 1.
      rewrite check_rate_limit_granted by done. cbn [negb].
      unfold bind, gets, Rest._new_order_id, modify, ret, raise,
        table_getitem. simpl. rewrite Hdir. simpl.
      split_and!; [done|simpl; lia|done].
  - left. destruct (check_rate_limit_denied st) as [m Hm]; [by left|].
    unfold Rest.send_order, bind. rewrite Hm. simpl. by split_and!.
Qed.

Lemma rest_step_ids u st c :
  let st' := rest_step u st c in
  ids_kept st st' ∨
  (Rest.connect_time st' = Rest.connect_time st ∧
   Rest.order_count st' = Rest.order_count st + 1 ∧
   order_ids st' =
     order_ids st ++
       [VStr (pretty (Rest.connect_time st + (Rest.order_count st + 1)))]).
Proof.
  destruct c; cbn zeta; simpl.
  - apply send_order_ids.
  - left. apply cancel_order_ids_kept.
  - left. apply reset_rate_limit_ids_kept.
  - left. apply update_rate_limit_ids_kept.
  - left. apply update_rate_limit_ids_kept.
  - left. apply on_send_order_error_ids_kept.
  - left. unfold Rest.on_cancel_order_error.
    destruct (negb _); [apply on_error_ids_kept|]. by split_and!.
Qed.

Lemma rest_step_ids_issued u st c :
  ids_issued st → ids_issued (rest_step u st c).
Proof.
  intros (ks & Hids & Hnd & Hle).
  destruct (rest_step_ids u st c) as [(Hct & Hcnt & Hsame)|(Hct & Hcnt & Hnew)].
  - exists ks. rewrite Hsame, Hct. split_and!; [done|done|].
    eapply Forall_impl; [exact Hle|]. simpl. intros k Hk. lia.
  - exists (ks ++ [Rest.order_count st + 1]).
    rewrite Hnew, Hct, Hids, fmap_app. split_and!; [done| |].
    + apply NoDup_app. split_and!; [done| |apply NoDup_singleton].
      intros k Hin Hin'%list_elem_of_singleton. subst k.
      rewrite Forall_forall in Hle. specialize (Hle _ Hin). lia.
    + rewrite Hcnt. apply Forall_app. split.
      * eapply Forall_impl; [exact Hle|]. simpl. intros k Hk. lia.
      * apply Forall_singleton. lia.
Qed.

(** X7. No two order objects ever share a display id: starting from a state
    with no orders yet (whatever its connection epoch and counter), and
    whatever the host, the timer and the request pool call, in whatever
    order, the ids of the orders created are pairwise distinct. *)
Theorem order_ids_distinct u calls st :
  Rest.objects st = [] →
  NoDup (order_ids (rest_run u calls st)).
Proof.
  intros Hempty.
  assert (ids_issued (rest_run u calls st)) as (ks & Hids & Hnd & _).
  { assert (ids_issued st) as Hinit.
    { exists []. unfold order_ids. rewrite Hempty.
      split_and!; [done|constructor|constructor]. }
    clear Hempty. revert st Hinit.
    induction calls as [|c calls IH]; intros st Hst; [done|].
    simpl. apply IH. by apply rest_step_ids_issued. }
  rewrite Hids. apply NoDup_fmap_2; [|done].
  intros k1 k2 [= Heq]. apply (inj pretty) in Heq. lia.
Qed.

Lemma order_ids_distinct_witness :
  NoDup (order_ids
           (rest_run (λ _, false)
              [CallSendOrder sample_order; CallTimer;
               CallSendOrder sample_order]
              (Rest.init "BITMEX"))).
Proof. apply order_ids_distinct. reflexivity. Defined.

(** ** Cancellation *)

Lemma all_digits_pretty_N_go x :
  ∀ s, all_digits s = true → all_digits (pretty_N_go x s) = true.
Proof.
  induction (N.lt_wf_0 x) as [x _ IH]; intros s Hs.
  destruct (decide (0 < x)%N) as [Hpos|Hz].
  - rewrite pretty_N_go_step by done. apply IH.
    + by apply N.div_lt.
    + simpl. rewrite Hs, andb_true_r.
      unfold pretty_N_char. by repeat case_match.
  - assert (x = 0%N) as -> by lia. by rewrite pretty_N_go_0.
Qed.

Lemma pretty_N_go_nonempty x s : s ≠ "" → pretty_N_go x s ≠ "".
Proof.
  revert s. induction (N.lt_wf_0 x) as [x _ IH]; intros s Hs.
  destruct (decide (0 < x)%N) as [Hpos|Hz].
  - rewrite pretty_N_go_step by done. apply IH; [by apply N.div_lt|done].
  - assert (x = 0%N) as -> by lia. by rewrite pretty_N_go_0.
Qed.

Lemma all_digits_isascii s : all_digits s = true → isascii s = true.
Proof.
  induction s as [|c s IH]; [done|]. simpl.
  intros [Hc Hs]%andb_true_iff. rewrite (IH Hs), andb_true_r.
  unfold is_digit_char in Hc. apply andb_true_iff in Hc as [_ Hc].
  apply Nat.leb_le in Hc. apply Nat.ltb_lt. lia.
Qed.

(** On a text of decimal digits the tables are not consulted. *)
Lemma isdigit_all_digits u s :
  s ≠ "" → all_digits s = true → isdigit u s = true.
Proof.
  intros Hne Hd. unfold isdigit. rewrite (all_digits_isascii s Hd), Hd.
  rewrite andb_true_r. by apply negb_true_iff, String.eqb_neq.
Qed.

(** The decimal text of a number that is not negative is all digits. *)
Lemma isdigit_pretty u (z : Z) : 0 ≤ z → isdigit u (pretty z) = true.
Proof.
  intros Hz. destruct z as [|p|p]; [done| |lia].
  unfold pretty, pretty_Z, pretty, pretty_positive, pretty, pretty_N.
  rewrite decide_False by done.
  apply isdigit_all_digits.
  - rewrite (pretty_N_go_step (N.pos p)) by lia.
    by apply pretty_N_go_nonempty.
  - by apply all_digits_pretty_N_go.
Qed.

(** X8. A cancellation that passes the gate queues exactly one DELETE on
    /order and does nothing else: no order object is touched and the host
    is told nothing. Denied, it only writes the governor's log line. The
    DELETE is keyed by [clOrdID] when [str.isdigit] holds of the id and by
    [orderID] otherwise, whatever the Unicode tables say of digits outside
    ASCII; for an ASCII id that is [clOrdID] exactly when the id is a
    non-empty run of the digits 0 to 9. *)
Theorem cancel_order_effect u req st :
  let st' := snd (cancel_order u req st) in
  fst (cancel_order u req st) = Return tt ∧
  Rest.objects st' = Rest.objects st ∧
  host_orders st' = host_orders st ∧
  http_requests st' = http_requests st ∧
  if (Rest.rate_limit_sleep st =? 0) && negb (Rest.rate_limit_remaining st =? 0)
  then
    Rest.rate_limit_remaining st' = Rest.rate_limit_remaining st - 1 ∧
    ∃ r, queued_requests st' = queued_requests st ++ [r] ∧
         method r = "DELETE" ∧ path r = "/order" ∧ data r = DataNone ∧
         extra r = None ∧
         params r =
           [(if isdigit u (cr_orderid req) then "clOrdID" else "orderID",
             VStr (cr_orderid req))] ∧
         (isascii (cr_orderid req) = true →
          isdigit u (cr_orderid req) =
            negb (String.eqb (cr_orderid req) "") &&
            all_digits (cr_orderid req))
  else
    queued_requests st' = queued_requests st ∧
    Rest.rate_limit_remaining st' = Rest.rate_limit_remaining st.
Proof.
  cbn zeta. unfold cancel_order.
  destruct (Z.eqb_spec (Rest.rate_limit_sleep st) 0) as [Hs|Hs]; simpl;
    [destruct (Z.eqb_spec (Rest.rate_limit_remaining st) 0) as [Hr|Hr];
     simpl|].
  - destruct (check_rate_limit_denied st) as [m Hm]; [by right|].
    unfold bind. rewrite Hm. simpl.
    unfold host_orders, http_requests, queued_requests. simpl.
    rewrite !omap_app. simpl. rewrite !app_nil_r. by split_and!.
  - unfold bind. rewrite check_rate_limit_granted by done. simpl.
    unfold host_orders, http_requests, queued_requests. simpl.
    rewrite !omap_app. simpl. rewrite !app_nil_r.
    split_and!; try done. eexists. split; [reflexivity|].
    simpl. split_and!; try done; [by destruct (isdigit _ _)|].
    unfold isdigit. by intros ->.
  - destruct (check_rate_limit_denied st) as [m Hm]; [by left|].
    unfold bind. rewrite Hm. simpl.
    unfold host_orders, http_requests, queued_requests. simpl.
    rewrite !omap_app. simpl. rewrite !app_nil_r. by split_and!.
Qed.

Lemma cancel_order_effect_witness :
  ∃ r,
    queued_requests
      (snd (cancel_order (λ _, true)
              {| cr_orderid := "8f3a-11ee"; cr_symbol := "XBTUSD";
                 cr_exchange := BITMEX |}
              (Rest.init "BITMEX"))) = [r] ∧
    params r = [("orderID", VStr "8f3a-11ee")].
Proof.
  destruct (cancel_order_effect (λ _, true)
              {| cr_orderid := "8f3a-11ee"; cr_symbol := "XBTUSD";
                 cr_exchange := BITMEX |}
              (Rest.init "BITMEX")) as (_ & _ & _ & _ & H).
  simpl in H. destruct H as (_ & r & Hq & _ & _ & _ & _ & Hp & _).
  exists r. split; [exact Hq|].
  rewrite Hp. vm_compute. reflexivity.
Defined.

(** X9. An order submitted through [send_order] is cancelled by its client
    id: the id it was given is all digits (the connection epoch and the
    counter are not negative), so the DELETE that [cancel_order] queues for
    it is keyed by [clOrdID], with the very id the POST carried. *)
Theorem cancel_after_send_uses_client_id u req st symbol exchange :
  Rest.rate_limit_sleep st = 0 →
  1 < Rest.rate_limit_remaining st →
  0 ≤ Rest.connect_time st →
  0 ≤ Rest.order_count st →
  translatable req →
  ∃ id post delete,
    let st1 := snd (Rest.send_order req st) in
    let st2 :=
      snd (cancel_order u
             {| cr_orderid := id; cr_symbol := symbol;
                cr_exchange := exchange |} st1) in
    fst (Rest.send_order req st) =
      Return (Rest.gateway_name st +:+ "." +:+ id) ∧
    queued_requests st2 = queued_requests st ++ [post; delete] ∧
    method post = "POST" ∧
    body_get "clOrdID" post = Some (VStr id) ∧
    method delete = "DELETE" ∧
    params delete = [("clOrdID", VStr id)].
Proof.
  intros Hs Hr Hct Hcnt Ht.
  destruct (translatable_tables req Ht) as (side & ordType & Hdir & Hty).
  destruct (send_order_run req st side ordType Hs) as
    (st1 & post & Hrun & _ & Htr & Hm & _ & _ & _ & _ & Hrem & Hs1 & _ & _
     & _ & _ & _ & _ & Hcl & _); [lia|done|done|].
  set (id := pretty (Rest.connect_time st + (Rest.order_count st + 1))) in *.
  eexists id, post, _. cbn zeta. rewrite Hrun. simpl.
  unfold cancel_order, bind.
  rewrite check_rate_limit_granted by (try done; lia). simpl.
  unfold queued_requests. simpl. rewrite Htr, !omap_app. simpl.
  rewrite <- app_assoc. simpl.
  assert (isdigit u id = true) as Hdig
    by (unfold id; apply isdigit_pretty; lia).
  split_and!; [done|reflexivity|done|done|done|].
  simpl. by rewrite Hdig.
Qed.

Lemma cancel_after_send_uses_client_id_witness :
  ∃ post delete,
    queued_requests
      (snd (cancel_order (λ _, false)
              {| cr_orderid := "1000001"; cr_symbol := "XBTUSD";
                 cr_exchange := BITMEX |}
              (snd (Rest.send_order sample_order (Rest.init "BITMEX")))))
    = [post; delete] ∧
    params delete = [("clOrdID", VStr "1000001")].
Proof.
  destruct (cancel_after_send_uses_client_id (λ _, false) sample_order
              (Rest.init "BITMEX") "XBTUSD" BITMEX)
    as (id & post & delete & Hrun & Hq & _ & _ & _ & Hp).
  - reflexivity.
  - simpl. lia.
  - simpl. lia.
  - simpl. lia.
  - vm_compute. repeat split; discriminate.
  - assert (id = "1000001") as ->.
    { vm_compute in Hrun. by injection Hrun as <-. }
    exists post, delete. split; [exact Hq|exact Hp].
Defined.

(** ** History pager: any number of pages *)

Lemma query_history_loop_collects server req binSize delta rows pages :
  INTERVAL_VT2BITMEX (hr_interval req) = Some binSize →
  TIMEDELTA_MAP (hr_interval req) = Some delta →
  ∀ k fuel history start st,
    (length pages < fuel)%nat →
    (∀ i p r, pages !! i = Some p →
       status_code (server (k + i)%nat r) / 100 = 2 ∧
       json (server (k + i)%nat r) = p ∧
       (750 ≤ length p)%nat) →
    (∀ r, closing (server (k + length pages)%nat r) = Some rows) →
    ∃ st',
      Rest.query_history_loop server fuel k req history start st =
        (Return (Some (history ++
                       map (Rest.bar_of req (Rest.gateway_name st))
                           (concat pages ++ rows))), st') ∧
      http_requests st' =
        http_requests st ++
          map (page_request req binSize) (cursors start delta pages) ∧
      Rest.gateway_name st' = Rest.gateway_name st ∧
      Rest.objects st' = Rest.objects st ∧
      queued_requests st' = queued_requests st.
Proof.
  intros HI HT. induction pages as [|p ps IH];
    intros k fuel history start st Hfuel Hfull Hclose.
  - destruct fuel as [|fuel]; [simpl in Hfuel; lia|].
    rewrite (query_history_loop_page _ _ _ _ _ _ _ binSize HI). cbn zeta.
    specialize (Hclose (page_request req binSize start)).
    simpl in Hclose. rewrite Nat.add_0_r in Hclose.
    unfold closing in Hclose.
    set (resp := server k (page_request req binSize start)) in *.
    unfold http_requests, queued_requests, Rest.write_log, Rest.emit, modify.
    destruct (negb (status_code resp / 100 =? 2)).
    { injection Hclose as <-. eexists. split; [by rewrite app_nil_r|].
      simpl. rewrite !omap_app. simpl. rewrite !app_nil_r. by split_and!. }
    destruct (json resp) as [|d0 data].
    { injection Hclose as <-. eexists. split; [by rewrite app_nil_r|].
      simpl. rewrite !omap_app. simpl. rewrite !app_nil_r. by split_and!. }
    destruct (length (d0 :: data) <? 750)%nat; [|done].
    injection Hclose as <-. eexists. split; [done|].
    simpl. rewrite !omap_app. simpl. rewrite !app_nil_r. by split_and!.
  - destruct fuel as [|fuel]; [simpl in Hfuel; lia|].
    rewrite (query_history_loop_page _ _ _ _ _ _ _ binSize HI). cbn zeta.
    destruct (Hfull 0%nat p (page_request req binSize start) eq_refl)
      as (Hc & Hj & Hl).
    rewrite Nat.add_0_r in Hc, Hj.
    rewrite Hc, Hj. cbn [Z.eqb negb Pos.eqb].
    destruct p as [|d0 p']; [simpl in Hl; lia|].
    destruct (Nat.ltb_spec (length (d0 :: p')) 750); [lia|].
    rewrite HT.
    set (st2 := snd (Rest.write_log _ _)).
    destruct (IH (S k) fuel
                (history ++
                 map (Rest.bar_of req (Rest.gateway_name st)) (d0 :: p'))
                (r_timestamp (List.last (d0 :: p') d0) + delta) st2)
      as (st' & Hrun & Hreq & Hname & Hobj & Hq).
    + simpl in Hfuel. lia.
    + intros i q r Hq. replace (S k + i)%nat with (k + S i)%nat by lia.
      by apply Hfull.
    + intros r. replace (S k + length ps)%nat
        with (k + length ((d0 :: p') :: ps))%nat by (simpl; lia).
      apply Hclose.
    + exists st'. rewrite Hrun.
      replace (Rest.gateway_name st2) with (Rest.gateway_name st) by done.
      split_and!.
      * change (concat ((d0 :: p') :: ps)) with ((d0 :: p') ++ concat ps).
        rewrite <- (app_assoc (d0 :: p')), (map_app _ (d0 :: p')).
        by rewrite (app_assoc history).
      * rewrite Hreq. subst st2.
        unfold http_requests, Rest.write_log, Rest.emit, modify. simpl.
        rewrite !omap_app. simpl. rewrite !app_nil_r, <- app_assoc.
        rewrite (last_default_Some (d0 :: p') d0) by done. done.
      * by rewrite Hname.
      * by rewrite Hobj.
      * rewrite Hq. subst st2.
        unfold queued_requests, Rest.write_log, Rest.emit, modify. simpl.
        rewrite !omap_app. simpl. by rewrite !app_nil_r.
Qed.

(** X10. The pager returns, in order, the rows of every full page followed by
    the rows of the page that ends the query (a page of fewer than 750
    rows; none for an empty body or a failed request). It sends one request
    per page: the first at the requested start, each later one at the last
    row of the page before plus one interval. The whole query costs one
    unit of quota and touches neither orders nor the request queue. *)
Theorem query_history_collects server req st binSize delta pages rows fuel :
  Rest.rate_limit_sleep st = 0 →
  Rest.rate_limit_remaining st ≠ 0 →
  INTERVAL_VT2BITMEX (hr_interval req) = Some binSize →
  TIMEDELTA_MAP (hr_interval req) = Some delta →
  (length pages < fuel)%nat →
  (∀ i p r, pages !! i = Some p →
     status_code (server i r) / 100 = 2 ∧
     json (server i r) = p ∧
     (750 ≤ length p)%nat) →
  (∀ r, closing (server (length pages) r) = Some rows) →
  ∃ st',
    Rest.query_history server fuel req st =
      (Return (Some (Some (map (Rest.bar_of req (Rest.gateway_name st))
                               (concat pages ++ rows)))), st') ∧
    http_requests st' =
      http_requests st ++
        map (page_request req binSize) (cursors (hr_start req) delta pages) ∧
    Rest.rate_limit_remaining st' = Rest.rate_limit_remaining st - 1 ∧
    Rest.objects st' = Rest.objects st ∧
    queued_requests st' = queued_requests st.
Proof.
  intros Hs Hr HI HT Hfuel Hfull Hclose.
  unfold Rest.query_history. unfold bind at 1.
  rewrite check_rate_limit_granted by done. cbn [negb].
  set (st0 := Rest.set_rate_limit_remaining _ st).
  destruct (query_history_loop_collects server req binSize delta rows pages
              HI HT 0%nat fuel [] (hr_start req) st0 Hfuel)
    as (st' & Hrun & Hreq & Hname & Hobj & Hq); [done|done|].
  destruct (query_history_loop_rate server fuel 0%nat req [] (hr_start req) st0)
    as (Hrem & _ & _).
  rewrite Hrun in Hrem. simpl in Hrem.
  exists st'. unfold bind. rewrite Hrun. simpl. unfold ret.
  split_and!; done.
Qed.

Lemma query_history_collects_witness :
  ∃ st',
    Rest.query_history mock_server 2 mock_history (Rest.init "BITMEX") =
      (Return (Some (Some (map (Rest.bar_of mock_history "BITMEX")
                               (mock_rows 0 750 ++ mock_rows 45000 10)))),
       st') ∧
    http_requests st' =
      map (page_request mock_history "1m") [0; 45000].
Proof.
  destruct (query_history_collects mock_server mock_history
              (Rest.init "BITMEX") "1m" 60 [mock_rows 0 750]
              (mock_rows 45000 10) 2)
    as (st' & Hrun & Hreq & _).
  - reflexivity.
  - vm_compute. discriminate.
  - reflexivity.
  - reflexivity.
  - simpl. lia.
  - intros [|i] p r Hp; [|by destruct i].
    injection Hp as <-. split_and!; [reflexivity|reflexivity|].
    unfold mock_rows. rewrite length_map, length_seq. lia.
  - intros r. vm_compute. reflexivity.
  - exists st'. split.
    + rewrite Hrun. vm_compute. reflexivity.
    + rewrite Hreq. vm_compute. reflexivity.
Defined.

(** X11. An interval the pager has no bucket size for (weekly bars) raises
    [KeyError] once the gate is passed: the unit of quota is gone and no
    request was sent. *)
Theorem query_history_unmapped_interval server req st fuel :
  Rest.rate_limit_sleep st = 0 →
  Rest.rate_limit_remaining st ≠ 0 →
  INTERVAL_VT2BITMEX (hr_interval req) = None →
  Rest.query_history server (S fuel) req st =
    (Raise KeyError,
     Rest.set_rate_limit_remaining (Rest.rate_limit_remaining st - 1) st).
Proof.
  intros Hs Hr HI. unfold Rest.query_history. unfold bind at 1.
  rewrite check_rate_limit_granted by done. cbn [negb].
  cbn [Rest.query_history_loop]. unfold bind, table_getitem, raise.
  by rewrite HI.
Qed.

Lemma query_history_unmapped_interval_witness :
  let req := {| hr_symbol := "XBTUSD"; hr_exchange := BITMEX; hr_start := 0;
                hr_end := None; hr_interval := WEEKLY |} in
  let run := Rest.query_history mock_server 5 req (Rest.init "BITMEX") in
  fst run = Raise KeyError ∧
  http_requests (snd run) = [] ∧
  Rest.rate_limit_remaining (snd run) = 59.
Proof.
  cbn zeta.
  rewrite (query_history_unmapped_interval mock_server
             {| hr_symbol := "XBTUSD"; hr_exchange := BITMEX; hr_start := 0;
                hr_end := None; hr_interval := WEEKLY |}
             (Rest.init "BITMEX") 4).
  - split_and!; reflexivity.
  - reflexivity.
  - vm_compute. discriminate.
  - reflexivity.
Defined.

(** ** REST failure callbacks *)

(** X12. The governor is updated before the order is touched: when the failed
    response has no [x-ratelimit-remaining] header, [on_send_order_failed]
    raises [KeyError] at once and the order is neither marked rejected nor
    forwarded to the host. *)
Theorem on_send_order_failed_missing_header json_error code request resp s :
  response request = Some resp →
  resp_headers resp !! "x-ratelimit-remaining" = None →
  Cb.on_send_order_failed json_error code request s = (Raise KeyError, s).
Proof.
  intros Hresp Hh. unfold Cb.on_send_order_failed, bind, Cb.lift.
  unfold Rest.update_rate_limit. rewrite Hresp.
  unfold bind, table_getitem, raise. rewrite Hh. by destruct s.
Qed.

Lemma on_send_order_failed_missing_header_witness :
  let s := {| Cb.api := sample_sent; Cb.failure_logs := [] |} in
  let run := Cb.on_send_order_failed (λ _, Raise KeyError) 400
               (failed_order_request ∅ "") s in
  fst run = Raise KeyError ∧
  status_of (Cb.api (snd run)) 0 = Some SUBMITTING.
Proof.
  cbn zeta.
  rewrite (on_send_order_failed_missing_header (λ _, Raise KeyError) 400
             (failed_order_request ∅ "")
             {| status_code := 400; text := ""; resp_headers := ∅;
                json := [] |}
             {| Cb.api := sample_sent; Cb.failure_logs := [] |}).
  - split; reflexivity.
  - reflexivity.
  - reflexivity.
Defined.

(** X13. A failed order response that carries the quota header: the governor
    takes the server's numbers, the order object behind the request is
    marked rejected and handed to the host once more, and this whatever
    the response body is; the log line follows when the body is empty or
    holds an error description, otherwise the body's exception is
    raised after the rejection. *)
Theorem on_send_order_failed_rejects json_error code request resp m ref o s :
  response request = Some resp →
  resp_headers resp !! "x-ratelimit-remaining" = Some m →
  extra request = Some ref →
  Rest.objects (Cb.api s) !! ref = Some o →
  ∃ out s',
    Cb.on_send_order_failed json_error code request s = (out, s') ∧
    Rest.rate_limit_remaining (Cb.api s') = m ∧
    Rest.objects (Cb.api s') =
      <[ref := set_o_status REJECTED o]> (Rest.objects (Cb.api s)) ∧
    host_orders (Cb.api s') = host_orders (Cb.api s) ++ [ref] ∧
    queued_requests (Cb.api s') = queued_requests (Cb.api s) ∧
    match (if String.eqb (text resp) "" then Return None
           else match json_error (text resp) with
                | Return err => Return (Some err)
                | Raise e => Raise e
                end) with
    | Return err =>
        out = Return tt ∧
        Cb.failure_logs s' =
          Cb.failure_logs s ++ [Cb.LogOrderFailed code err]
    | Raise e =>
        out = Raise e ∧ Cb.failure_logs s' = Cb.failure_logs s
    end.
Proof.
  intros Hresp Hh Hex Ho.
  assert (alter (set_o_status REJECTED) ref (Rest.objects (Cb.api s))
          = <[ref := set_o_status REJECTED o]> (Rest.objects (Cb.api s)))
    as Ha.
  { apply list_eq. intros i. destruct (decide (i = ref)) as [->|Hne].
    - rewrite list_lookup_alter_eq, Ho. simpl.
      rewrite list_lookup_insert_eq; [done|]. by eapply lookup_lt_Some.
    - rewrite list_lookup_alter_ne, list_lookup_insert_ne by done. done. }
  unfold Cb.on_send_order_failed. rewrite Hex, Hresp.
  unfold bind at 1. unfold Cb.lift at 1.
  unfold Rest.update_rate_limit. rewrite Hresp.
  unfold bind, table_getitem, gets, modify, ret, raise. rewrite Hh.
  cbn beta iota.
  generalize (default 0 (resp_headers resp !! "Retry-After")). intros sl.
  unfold Cb.lift, Cb.pure, Cb.write_failure, Rest.emit, modify,
    host_orders, queued_requests.
  simpl. destruct (sl =? 0); simpl; rewrite Ha;
    (destruct (String.eqb (text resp) ""); simpl;
     [|destruct (json_error (text resp)) as [err|e]; simpl]);
    (eexists _, _; split; [reflexivity|]; simpl;
     rewrite !omap_app; simpl; rewrite !app_nil_r; by split_and!).
Qed.

Lemma on_send_order_failed_rejects_witness :
  let s := {| Cb.api := sample_sent; Cb.failure_logs := [] |} in
  let run :=
    Cb.on_send_order_failed (λ _, Return ("HTTPError", "Invalid price"))
      400 (failed_order_request {[ "x-ratelimit-remaining" := 42 ]} "{...}")
      s in
  Rest.rate_limit_remaining (Cb.api (snd run)) = 42 ∧
  status_of (Cb.api (snd run)) 0 = Some REJECTED ∧
  Cb.failure_logs (snd run) =
    [Cb.LogOrderFailed 400 (Some ("HTTPError", "Invalid price"))].
Proof.
  cbn zeta.
  destruct (on_send_order_failed_rejects
              (λ _, Return ("HTTPError", "Invalid price")) 400
              (failed_order_request {[ "x-ratelimit-remaining" := 42 ]}
                 "{...}")
              {| status_code := 400; text := "{...}";
                 resp_headers := {[ "x-ratelimit-remaining" := 42 ]};
                 json := [] |}
              42 0%nat (create_order_data sample_order "1000001" "BITMEX")
              {| Cb.api := sample_sent; Cb.failure_logs := [] |})
    as (out & s' & Hrun & Hrem & Hobj & _ & _ & Hlog).
  - reflexivity.
  - vm_compute. reflexivity.
  - reflexivity.
  - reflexivity.
  - rewrite Hrun. simpl. split; [exact Hrem|]. split.
    + unfold status_of. rewrite Hobj. reflexivity.
    + simpl in Hlog. destruct Hlog as [_ Hlog]. exact Hlog.
Defined.

(** ** Stream handlers: what they keep *)

#[local] Instance orders_kept_preorder : PreOrder orders_kept.
Proof.
  split.
  - intros st. by split_and!.
  - intros a b c (?&?&?&?) (?&?&?&?). unfold orders_kept.
    split_and!; congruence.
Qed.

#[local] Instance trades_kept_preorder : PreOrder trades_kept.
Proof.
  split.
  - intros st. by split_and!.
  - intros a b c (?&?&?&?) (?&?&?&?). unfold trades_kept.
    split_and!; congruence.
Qed.

Ltac stable_auto tac :=
  repeat first
    [ stable_step
    | apply stable_modify; intros ?; tac
    | progress unfold slice
    | case_match ].

Ltac kept_tac :=
  unfold orders_kept, trades_kept, emitted_orders, emitted_trades,
    sent_packets; simpl; rewrite ?omap_app; simpl; rewrite ?app_nil_r;
  by split_and!.

Lemma on_trade_orders_kept d : stable orders_kept (Ws.on_trade d).
Proof. unfold Ws.on_trade, Ws.emit. stable_auto kept_tac. Qed.

Lemma on_order_trades_kept d : stable trades_kept (Ws.on_order d).
Proof. unfold Ws.on_order, Ws.emit. stable_auto kept_tac. Qed.

(** X14. The two handlers stay off each other's state, whatever the record and
    whether they return or raise: an execution record never changes the
    order cache or emits an order, an order record never changes the dedup
    set or emits a trade, and neither sends a packet or changes the active
    flag. *)
Theorem handlers_keep_apart d st :
  orders_kept st (snd (Ws.on_trade d st)) ∧
  trades_kept st (snd (Ws.on_order d st)).
Proof. split; [apply on_trade_orders_kept|apply on_order_trades_kept]. Qed.

(** ** Executions: uniqueness and the order of dedup and build *)

Lemma on_trade_ids_ok d st :
  trade_ids_ok st → trade_ids_ok (snd (Ws.on_trade d st)).
Proof.
  intros [Hrec Hnd].
  destruct (Ws.on_trade d st) as [out st1] eqn:Hrun. simpl.
  destruct (on_trade_step d st out st1 Hrun)
    as [->|(t & _ & Hid & Hnin & Htr & _ & Hcase)]; [done|].
  assert (∀ tr', tr' ∈ emitted_trades st → t_tradeid tr' ∈ Ws.trades st1)
    as Hold.
  { intros tr' Hin. rewrite Htr, elem_of_union. right. by apply Hrec. }
  destruct Hcase as [(_ & Hem)|(_ & tr & Hem & Hfrom)].
  - split; [|by rewrite Hem]. intros tr Hin. rewrite Hem in Hin.
    by apply Hold.
  - assert (t_tradeid tr = t) as Htid.
    { destruct Hfrom as (Hid' & _). congruence. }
    split.
    + intros tr' Hin. rewrite Hem in Hin.
      apply elem_of_app in Hin as [Hin|Hin%list_elem_of_singleton].
      * by apply Hold.
      * subst tr'. rewrite Htr, elem_of_union, elem_of_singleton. by left.
    + rewrite Hem, fmap_app. apply NoDup_app. split_and!; [done| |].
      * intros x Hx Hx'. simpl in Hx'.
        apply list_elem_of_singleton in Hx'. subst x.
        apply list_elem_of_fmap in Hx as (tr' & Heq & Hin).
        apply Hnin. rewrite <- Htid, Heq. by apply Hrec.
      * simpl. apply NoDup_singleton.
Qed.

Lemma record_step_ids_ok st rec :
  trade_ids_ok st → trade_ids_ok (record_step st rec).
Proof.
  intros Hok. destruct rec as [d|d]; simpl.
  - by apply on_trade_ids_ok.
  - destruct (on_order_trades_kept d st) as (Htr & Hem & _).
    destruct Hok as [Hrec Hnd]. split.
    + intros tr Hin. rewrite Hem in Hin. rewrite Htr. by apply Hrec.
    + by rewrite Hem.
Qed.

(** X15. No trade id is handed to the host twice: whatever execution and order
    records arrive, in whatever order, well formed or not, the trades
    emitted since the start of the session have pairwise distinct ids. *)
Theorem trade_ids_unique recs name key secret :
  NoDup (t_tradeid <$>
         emitted_trades (record_run recs (Ws.init name key secret))).
Proof.
  assert (trade_ids_ok (record_run recs (Ws.init name key secret))) as [_ H];
    [|done].
  assert (trade_ids_ok (Ws.init name key secret)) as Hinit.
  { split; [|constructor]. intros tr Hin. inversion Hin. }
  revert Hinit. generalize (Ws.init name key secret).
  induction recs as [|rec recs IH]; intros st Hst; [done|].
  simpl. apply IH. by apply record_step_ids_ok.
Qed.

(** X16. The trade id is entered in the dedup set before the trade is built.
    So when a fill record with a new id makes the handler raise (a key
    missing, a side that is no direction, a timestamp that is no text),
    no trade is emitted for it and none ever will be: every later record
    with that id is taken for a repeat, in the batch that follows and over
    any number of later deliveries, whichever of them raise. *)
Theorem on_trade_raise_loses_trade d t e st :
  is_fill d = true →
  d !! "execID" = Some t →
  t ∉ Ws.trades st →
  ids_recorded st →
  fst (Ws.on_trade d st) = Raise e →
  let st1 := snd (Ws.on_trade d st) in
  t ∈ Ws.trades st1 ∧
  emitted_trades st1 = emitted_trades st ∧
  (∀ ds out st',
     for_each Ws.on_trade ds st1 = (out, st') →
     with_id t (emitted_trades st') = []) ∧
  (∀ ds, with_id t (emitted_trades (deliver ds st1)) = []).
Proof.
  intros Hf Hid Hnin Hrec Hraise. cbn zeta.
  destruct (Ws.on_trade d st) as [out1 st1] eqn:Hrun. simpl in *.
  subst out1.
  destruct (is_fill_true d Hf) as (q & s & Hq & Hs & Htq & Hts).
  pose proof (on_trade_fill d st q s Hq Hs Htq Hts) as H.
  rewrite Hid in H. rewrite decide_False in H by done.
  destruct H as (out' & st1' & Hrun' & Htr & _ & _ & Hcase).
  rewrite Hrun in Hrun'. injection Hrun' as <- <-.
  destruct Hcase as [(e' & _ & Htrace)|(Hbad & _)]; [|done].
  assert (emitted_trades st1 = emitted_trades st) as Hem.
  { unfold emitted_trades. by rewrite Htrace. }
  assert (t ∈ Ws.trades st1) as Hin.
  { rewrite Htr, elem_of_union, elem_of_singleton. by left. }
  assert (ids_recorded st1) as Hrec1.
  { intros tr Htr'. rewrite Hem in Htr'. rewrite Htr, elem_of_union.
    right. by apply Hrec. }
  split_and!; [done|done| |].
  - intros ds out st' Hrest.
    rewrite (on_trade_repeats_dropped t ds st1 out st' Hrest Hrec1 Hin).
    rewrite Hem. by apply with_id_fresh.
  - intros ds.
    destruct (deliver_frame t ds st1 Hrec1) as (_ & _ & _ & ->); [by left|].
    rewrite Hem. by apply with_id_fresh.
Qed.

Lemma on_trade_raise_loses_trade_witness :
  let st := Ws.init "BITMEX" "key" "secret" in
  let st1 := snd (Ws.on_trade (execution_no_client_id "exec-9" 9000) st) in
  let st2 :=
    snd (for_each Ws.on_trade [execution "exec-9" 5 "Buy" 9000] st1) in
  VStr "exec-9" ∈ Ws.trades st1 ∧
  with_id (VStr "exec-9") (emitted_trades st2) = [].
Proof.
  cbn zeta.
  destruct (on_trade_raise_loses_trade
              (execution_no_client_id "exec-9" 9000) (VStr "exec-9") KeyError
              (Ws.init "BITMEX" "key" "secret"))
    as (Hin & _ & Hlater & _).
  - vm_compute. reflexivity.
  - vm_compute. reflexivity.
  - apply not_elem_of_empty.
  - intros tr Hin. vm_compute in Hin. inversion Hin.
  - vm_compute. reflexivity.
  - split; [exact Hin|].
    eapply Hlater. apply surjective_pairing.
Defined.

(** ** Order records: sightings and repeats *)

Lemma on_order_first_built d st ordStatus sysid st' :
  d !! "ordStatus" = Some ordStatus →
  d !! "orderID" = Some sysid →
  Ws.orders st !! sysid = None →
  Ws.on_order d st = (Return tt, st') →
  ∃ o, order_from d sysid (Ws.gateway_name st) o ∧
       Ws.orders st' = <[sysid := updated d ordStatus o]> (Ws.orders st) ∧
       Ws.trace st' =
         Ws.trace st ++ [Ws.GatewayOnOrder (updated d ordStatus o)].
Proof.
  intros Hs Hid Ho. unfold Ws.on_order. rewrite Hs.
  unfold bind, getitem, gets, ret, raise, modify, table_getitem, slice.
  rewrite Hid. simpl. rewrite Ho. simpl.
  destruct (d !! "clOrdID") as [c|] eqn:Hc; simpl; [|done].
  destruct (truthy c) eqn:Htc; simpl;
    (destruct (d !! "symbol") as [sym|] eqn:Hsym; simpl; [|done]);
    (destruct (d !! "ordType") as [ot|] eqn:Hot; simpl; [|done]);
    (destruct (ORDERTYPE_BITMEX2VT ot) as [ty|] eqn:Hty; simpl; [|done]);
    (destruct (d !! "side") as [side|] eqn:Hside; simpl; [|done]);
    (destruct (DIRECTION_BITMEX2VT side) as [dir|] eqn:Hdir; simpl; [|done]);
    (destruct (d !! "price") as [px|] eqn:Hpx; simpl; [|done]);
    (destruct (d !! "orderQty") as [qty|] eqn:Hqty; simpl; [|done]);
    (destruct (d !! "timestamp") as [[|n|ts]|] eqn:Hts; simpl; try done);
    intros [= <-]; eexists (OrderData_new _ _ _ _ _ _ _ _);
    (split; [|simpl; split; [by rewrite insert_insert_eq|done]]);
    unfold order_from; simpl; split_and!; eauto;
    exists c; by rewrite Htc.
Qed.

Lemma updated_order_from d ordStatus sysid name o :
  order_from d sysid name o → order_from d sysid name (updated d ordStatus o).
Proof. done. Qed.

Lemma on_order_result d st st' ordStatus :
  Ws.on_order d st = (Return tt, st') →
  d !! "ordStatus" = Some ordStatus →
  ∃ sysid o,
    d !! "orderID" = Some sysid ∧
    Ws.orders st' = <[sysid := updated d ordStatus o]> (Ws.orders st) ∧
    Ws.trace st' =
      Ws.trace st ++ [Ws.GatewayOnOrder (updated d ordStatus o)] ∧
    (Ws.orders st !! sysid = Some o ∨
     (Ws.orders st !! sysid = None ∧
      order_from d sysid (Ws.gateway_name st) o)).
Proof.
  intros Hrun Hs.
  destruct (d !! "orderID") as [sysid|] eqn:Hid.
  - exists sysid.
    destruct (Ws.orders st !! sysid) as [o|] eqn:Ho.
    + rewrite (on_order_cached d st ordStatus sysid o Hs Hid Ho) in Hrun.
      injection Hrun as <-. exists o. simpl. split_and!; try done. by left.
    + destruct (on_order_first_built d st ordStatus sysid st' Hs Hid Ho Hrun)
        as (o & Hfrom & Hord & Htrace).
      exists o. split_and!; try done. by right.
  - exfalso. unfold Ws.on_order, bind, getitem, raise in Hrun.
    rewrite Hs, Hid in Hrun. discriminate Hrun.
Qed.

(** X17. Every order record with a status that the handler processes to the
    end leaves the cache entry under the record's venue id equal to the
    snapshot it emits: a mapped status is taken over, a cumulative fill in
    the record is taken over, all other cache entries stay, and an order
    seen for the first time shows the client id when the record has one
    and the venue id otherwise. *)
Theorem on_order_sighting d st st' ordStatus :
  Ws.on_order d st = (Return tt, st') →
  d !! "ordStatus" = Some ordStatus →
  ∃ sysid o',
    d !! "orderID" = Some sysid ∧
    Ws.orders st' !! sysid = Some o' ∧
    Ws.trace st' = Ws.trace st ++ [Ws.GatewayOnOrder o'] ∧
    (∀ k, k ≠ sysid → Ws.orders st' !! k = Ws.orders st !! k) ∧
    (∀ x, STATUS_BITMEX2VT ordStatus = Some x → o_status o' = x) ∧
    (∀ q, d !! "cumQty" = Some q → o_traded o' = q) ∧
    (Ws.orders st !! sysid = None →
     order_from d sysid (Ws.gateway_name st) o').
Proof.
  intros Hrun Hs.
  destruct (on_order_result d st st' ordStatus Hrun Hs)
    as (sysid & o & Hid & Hord & Htrace & Hcase).
  exists sysid, (updated d ordStatus o). rewrite Hord.
  split_and!; try done.
  - apply lookup_insert_eq.
  - intros k Hk. by apply lookup_insert_ne.
  - intros x Hx. unfold updated. simpl. by rewrite Hx.
  - intros q Hq. unfold updated, get_default. simpl. by rewrite Hq.
  - intros Hnone. destruct Hcase as [Hsome|[_ Hfrom]]; [congruence|done].
Qed.

Lemma on_order_sighting_witness :
  ∃ o',
    Ws.orders sample_ws !! VStr "venue-7" = Some o' ∧
    o_status o' = NOTTRADED ∧
    o_orderid o' = VStr "201104093000000001".
Proof.
  destruct (on_order_sighting (order_record (Some "New") None)
              (Ws.init "BITMEX" "key" "secret") sample_ws (VStr "New"))
    as (sysid & o' & Hid & Ho' & _ & _ & Hst & _ & Hfrom).
  - vm_compute. reflexivity.
  - vm_compute. reflexivity.
  - assert (sysid = VStr "venue-7") as ->.
    { vm_compute in Hid. by injection Hid as <-. }
    exists o'. split; [exact Ho'|]. split; [by apply Hst|].
    destruct Hfrom as (_ & _ & _ & (c & Hc & Hoid) & _); [reflexivity|].
    vm_compute in Hc. injection Hc as <-. exact Hoid.
Defined.

Lemma updated_twice d ordStatus o :
  updated d ordStatus (updated d ordStatus o) = updated d ordStatus o.
Proof.
  unfold updated, get_default. destruct o; simpl.
  destruct (d !! "cumQty"); destruct (STATUS_BITMEX2VT ordStatus); done.
Qed.

(** X18. Delivering an order record a second time changes nothing in the
    cache, and the handler emits again exactly what it emitted the first
    time. *)
Theorem on_order_repeat d st st1 :
  Ws.on_order d st = (Return tt, st1) →
  ∃ st2,
    Ws.on_order d st1 = (Return tt, st2) ∧
    Ws.orders st2 = Ws.orders st1 ∧
    Ws.trace st2 =
      Ws.trace st1 ++ drop (length (Ws.trace st)) (Ws.trace st1).
Proof.
  intros Hrun.
  destruct (d !! "ordStatus") as [ordStatus|] eqn:Hs.
  - destruct (on_order_result d st st1 ordStatus Hrun Hs)
      as (sysid & o & Hid & Hord & Htrace & _).
    assert (Ws.orders st1 !! sysid = Some (updated d ordStatus o)) as Ho'.
    { rewrite Hord. apply lookup_insert_eq. }
    rewrite (on_order_cached d st1 ordStatus sysid _ Hs Hid Ho').
    rewrite updated_twice. eexists. split; [reflexivity|]. simpl.
    split; [by apply insert_id|].
    rewrite Htrace, drop_app_length. done.
  - rewrite (on_order_no_status d st Hs) in Hrun. injection Hrun as <-.
    exists st. split; [by apply on_order_no_status|]. split; [done|].
    by rewrite drop_all, app_nil_r.
Qed.

Lemma on_order_repeat_witness :
  ∃ st2,
    Ws.on_order (order_record (Some "New") None) sample_ws = (Return tt, st2) ∧
    Ws.orders st2 = Ws.orders sample_ws.
Proof.
  destruct (on_order_repeat (order_record (Some "New") None)
              (Ws.init "BITMEX" "key" "secret") sample_ws)
    as (st2 & Hrun & Hord & _).
  - vm_compute. reflexivity.
  - exists st2. split; [exact Hrun|exact Hord].
Defined.

(** ** Session: handshake and dispatch *)

Lemma for_each_raise {S A} (body : A → M S unit) pre x post st st1 e st2 :
  for_each body pre st = (Return tt, st1) →
  body x st1 = (Raise e, st2) →
  for_each body (pre ++ x :: post) st = (Raise e, st2).
Proof.
  revert st. induction pre as [|y pre IH]; intros st Hpre Hx.
  - injection Hpre as <-. simpl. unfold bind. by rewrite Hx.
  - apply for_each_cons_inv in Hpre as (out1 & sty & Hy & Hrest).
    destruct out1 as [[]|e']; [|by destruct Hrest].
    simpl. unfold bind. rewrite Hy. by apply IH.
Qed.

Section Dispatch.

Variable hmac : string → string → string.
Variables on_tick on_depth on_position on_account on_contract
  : dict → M Ws.WsApi unit.

Abbreviation on_packet' :=
  (Ws.on_packet on_tick on_depth on_position on_account on_contract).

(** X19. The handshake: the connection sends one authentication request; the
    venue's acknowledgement of it, when it reports success, is answered
    with one subscription naming the seven topics. An acknowledgement that
    reports failure, or that answers another operation, is answered with
    nothing. *)
Theorem auth_ack_subscribes now op success st :
  let st1 := snd (Ws.on_connected hmac now st) in
  let run := on_packet' (request_ack op success) st1 in
  fst run = Return tt ∧
  sent_packets (snd run) =
    sent_packets st ++
      Ws.AuthKey (Ws.key st) now
        (hmac (Ws.secret st) ("GET" +:+ "/realtime" +:+ pretty now)) ::
      (if truthy success && bool_decide (op = "authKey")
       then [Ws.Subscribe all_topics] else []) ∧
  Ws.orders (snd run) = Ws.orders st ∧
  Ws.trades (snd run) = Ws.trades st ∧
  Ws.active (snd run) = Ws.active st.
Proof.
  cbn zeta. unfold Ws.on_packet, request_ack. simpl.
  unfold bind, table_getitem, getitem, ret. simpl.
  rewrite lookup_singleton_eq. simpl.
  unfold Ws.on_connected, Ws.authenticate, Ws.subscribe_topic, Ws.write_log,
    Ws.send_packet, Ws.emit, bind, gets, modify, ret, sent_packets. simpl.
  destruct (truthy success); simpl.
  - destruct (decide (VStr op = VStr "authKey")) as [Heq|Hne].
    + injection Heq as ->. rewrite bool_decide_eq_true_2 by done. simpl.
      rewrite !omap_app. simpl. rewrite !app_nil_r, <- !app_assoc.
      by split_and!.
    + rewrite bool_decide_eq_false_2 by congruence. simpl.
      rewrite !omap_app. simpl. rewrite !app_nil_r. by split_and!.
  - rewrite !omap_app. simpl. rewrite !app_nil_r. by split_and!.
Qed.

(** X20. A batch is handled record by record and stops at the first record
    whose handler raises: the exception leaves [on_packet], and the
    records after it in the batch are never looked at. *)
Theorem batch_stops_at_raise pre bad post st st1 e st2 :
  for_each Ws.on_trade pre st = (Return tt, st1) →
  Ws.on_trade bad st1 = (Raise e, st2) →
  on_packet' (table_packet "execution" (pre ++ bad :: post)) st =
    (Raise e, st2).
Proof.
  intros Hpre Hbad. unfold Ws.on_packet, table_packet. simpl.
  unfold bind, table_getitem, ret. simpl.
  by eapply for_each_raise.
Qed.

(** X21. A message for a table that has no handler raises [KeyError] and
    changes nothing. *)
Theorem unknown_table_raises name records st :
  name ∉ all_topics →
  on_packet' (table_packet name records) st = (Raise KeyError, st).
Proof.
  intros Hn. unfold Ws.on_packet, table_packet. simpl.
  unfold bind, table_getitem, raise, Ws.callbacks.
  repeat (case_decide; [exfalso; apply Hn; subst name; unfold all_topics;
                        rewrite !elem_of_cons; tauto|]).
  done.
Qed.

End Dispatch.

Lemma batch_stops_at_raise_witness :
  let st := Ws.init "BITMEX" "key" "secret" in
  let run :=
    Ws.on_packet ignore_record ignore_record ignore_record ignore_record
      ignore_record
      (table_packet "execution"
         ([execution "exec-1" 5 "Buy" 9000] ++
          execution_no_client_id "exec-2" 9001 ::
          [execution "exec-3" 5 "Sell" 9002])) st in
  fst run = Raise KeyError ∧
  t_tradeid <$> emitted_trades (snd run) = [VStr "exec-1"].
Proof.
  cbn zeta.
  rewrite (batch_stops_at_raise ignore_record ignore_record ignore_record
             ignore_record ignore_record
             [execution "exec-1" 5 "Buy" 9000]
             (execution_no_client_id "exec-2" 9001)
             [execution "exec-3" 5 "Sell" 9002]
             (Ws.init "BITMEX" "key" "secret")
             (snd (for_each Ws.on_trade [execution "exec-1" 5 "Buy" 9000]
                     (Ws.init "BITMEX" "key" "secret")))
             KeyError
             (snd (Ws.on_trade (execution_no_client_id "exec-2" 9001)
                     (snd (for_each Ws.on_trade
                             [execution "exec-1" 5 "Buy" 9000]
                             (Ws.init "BITMEX" "key" "secret")))))).
  - split; [reflexivity|]. vm_compute. reflexivity.
  - vm_compute. reflexivity.
  - vm_compute. reflexivity.
Defined.

Lemma unknown_table_raises_witness :
  Ws.on_packet ignore_record ignore_record ignore_record ignore_record
    ignore_record (table_packet "liquidation" [])
    (Ws.init "BITMEX" "key" "secret")
  = (Raise KeyError, Ws.init "BITMEX" "key" "secret").
Proof.
  apply unknown_table_raises. unfold all_topics.
  rewrite !elem_of_cons, elem_of_nil.
  intros H. repeat destruct H as [H|H]; discriminate H || exact H.
Defined.

(** ** Stream caches *)

Lemma set_levels_proj set (proj : Sc.TickData → list value)
    (sel : value → value → value) :
  (∀ n p v t, proj (set n p v t) = <[n := sel p v]> (proj t)) →
  ∀ levels n t,
    (n + length levels ≤ length (proj t))%nat →
    proj (Sc.set_levels set n levels t) =
      take n (proj t) ++ (uncurry sel <$> levels) ++
      drop (n + length levels) (proj t).
Proof.
  intros Hset. induction levels as [|[p v] levels IH]; intros n t Hlen.
  - simpl. rewrite Nat.add_0_r. by rewrite take_drop.
  - simpl in *. rewrite IH by (rewrite Hset, length_insert; lia).
    rewrite Hset.
    rewrite (take_S_r _ n (sel p v))
      by (apply list_lookup_insert_eq; lia).
    rewrite take_insert_ge by lia.
    rewrite drop_insert_lt by lia.
    rewrite <- app_assoc. simpl.
    by replace (S (n + length levels)) with (n + S (length levels))%nat by lia.
Qed.

Lemma set_levels_other set (A : Type) (proj : Sc.TickData → A) :
  (∀ n p v t, proj (set n p v t) = proj t) →
  ∀ levels n t, proj (Sc.set_levels set n levels t) = proj t.
Proof.
  intros Hset. induction levels as [|[p v] levels IH]; intros n t; [done|].
  simpl. by rewrite IH, Hset.
Qed.

Lemma take_five_fits {A B} (l : list A) (old : list B) :
  length old = 5%nat → (0 + length (take 5 l) ≤ length old)%nat.
Proof.
  intros ->. rewrite length_take. apply Nat.le_min_l.
Qed.

Lemma overwrite_first_five {A} (f g : A → value) (l : list A)
    (old : list value) :
  (∀ x, f x = g x) →
  length old = 5%nat →
  take 0 old ++ (f <$> take 5 l) ++ drop (0 + length (take 5 l)) old =
  (g <$> take 5 l) ++ drop (length l) old.
Proof.
  intros Hfg Hold. simpl. f_equal.
  - apply list_fmap_ext. intros i x _. apply Hfg.
  - rewrite length_take.
    destruct (Nat.le_ge_cases (length l) 5) as [Hle|Hge].
    + by rewrite Nat.min_r.
    + rewrite Nat.min_l by done. rewrite !drop_ge by lia. done.
Qed.

(** X22. A depth message overwrites the first levels of each side and nothing
    else: with [k] levels given, levels 1 to [min k 5] take the new price
    and size, levels beyond the fifth are ignored, and when fewer than
    five are given the deeper levels keep what they had before. The
    snapshot handed to the host is the cached tick. *)
Theorem on_depth_levels strptime m sym tick bids asks st st' :
  Sc.dm_fields m !! "symbol" = Some sym →
  Sc.ticks st !! sym = Some tick →
  five_levels tick →
  Sc.dm_bids m = Some bids →
  Sc.dm_asks m = Some asks →
  Sc.on_depth strptime m st = (Return tt, st') →
  ∃ tick',
    Sc.ticks st' !! sym = Some tick' ∧
    Sc.trace st' = Sc.trace st ++ [Sc.GatewayOnTick tick'] ∧
    Sc.tk_bid_price tick' =
      (fst <$> take 5 bids) ++ drop (length bids) (Sc.tk_bid_price tick) ∧
    Sc.tk_bid_volume tick' =
      (snd <$> take 5 bids) ++ drop (length bids) (Sc.tk_bid_volume tick) ∧
    Sc.tk_ask_price tick' =
      (fst <$> take 5 asks) ++ drop (length asks) (Sc.tk_ask_price tick) ∧
    Sc.tk_ask_volume tick' =
      (snd <$> take 5 asks) ++ drop (length asks) (Sc.tk_ask_volume tick) ∧
    Sc.tk_last_price tick' = Sc.tk_last_price tick ∧
    five_levels tick' ∧
    (∀ k, k ≠ sym → Sc.ticks st' !! k = Sc.ticks st !! k).
Proof.
  intros Hsym Htick (Hbp & Hbv & Hap & Hav) Hbids Hasks.
  unfold Sc.on_depth, bind, getitem, gets, table_getitem, ret, raise, modify,
    Sc.pure, Sc.emit. cbn zeta.
  rewrite Hsym. cbn beta iota. rewrite Htick, Hbids. cbn beta iota.
  rewrite Hasks. cbn beta iota.
  destruct (Sc.dm_fields m !! "timestamp") as [ts|]; [|done]. cbn beta iota.
  destruct (strptime ts) as [dt|e]; [|done]. cbn beta iota.
  intros [= <-].
  set (t1 := Sc.set_levels Sc.set_bid 0 (take 5 bids) tick).
  set (t2 := Sc.set_levels Sc.set_ask 0 (take 5 asks) t1).
  assert (Sc.tk_bid_price t1 =
          (fst <$> take 5 bids) ++ drop (length bids) (Sc.tk_bid_price tick))
    as E1.
  { unfold t1.
    rewrite (set_levels_proj Sc.set_bid Sc.tk_bid_price (λ p _, p))
      by (try done; by apply take_five_fits).
    by apply overwrite_first_five; [intros []|]. }
  assert (Sc.tk_bid_volume t1 =
          (snd <$> take 5 bids) ++ drop (length bids) (Sc.tk_bid_volume tick))
    as E2.
  { unfold t1.
    rewrite (set_levels_proj Sc.set_bid Sc.tk_bid_volume (λ _ v, v))
      by (try done; by apply take_five_fits).
    by apply overwrite_first_five; [intros []|]. }
  assert (Sc.tk_ask_price t1 = Sc.tk_ask_price tick) as K1
    by (by apply (set_levels_other Sc.set_bid _ Sc.tk_ask_price)).
  assert (Sc.tk_ask_volume t1 = Sc.tk_ask_volume tick) as K2
    by (by apply (set_levels_other Sc.set_bid _ Sc.tk_ask_volume)).
  assert (Sc.tk_last_price t1 = Sc.tk_last_price tick) as K3
    by (by apply (set_levels_other Sc.set_bid _ Sc.tk_last_price)).
  assert (Sc.tk_ask_price t2 =
          (fst <$> take 5 asks) ++ drop (length asks) (Sc.tk_ask_price tick))
    as E3.
  { unfold t2.
    rewrite (set_levels_proj Sc.set_ask Sc.tk_ask_price (λ p _, p))
      by (try done; apply take_five_fits; by rewrite K1).
    rewrite K1. by apply overwrite_first_five; [intros []|]. }
  assert (Sc.tk_ask_volume t2 =
          (snd <$> take 5 asks) ++ drop (length asks) (Sc.tk_ask_volume tick))
    as E4.
  { unfold t2.
    rewrite (set_levels_proj Sc.set_ask Sc.tk_ask_volume (λ _ v, v))
      by (try done; apply take_five_fits; by rewrite K2).
    rewrite K2. by apply overwrite_first_five; [intros []|]. }
  assert (Sc.tk_bid_price t2 = Sc.tk_bid_price t1) as K4
    by (by apply (set_levels_other Sc.set_ask _ Sc.tk_bid_price)).
  assert (Sc.tk_bid_volume t2 = Sc.tk_bid_volume t1) as K5
    by (by apply (set_levels_other Sc.set_ask _ Sc.tk_bid_volume)).
  assert (Sc.tk_last_price t2 = Sc.tk_last_price t1) as K6
    by (by apply (set_levels_other Sc.set_ask _ Sc.tk_last_price)).
  exists (Sc.set_datetime dt t2). simpl.
  split_and!.
  - apply lookup_insert_eq.
  - done.
  - by rewrite K4, E1.
  - by rewrite K5, E2.
  - done.
  - done.
  - by rewrite K6, K3.
  - unfold five_levels. simpl. rewrite K4, K5, E1, E2, E3, E4.
    rewrite !length_app, !length_fmap, !length_take, !length_drop.
    rewrite Hbp, Hbv, Hap, Hav.
    destruct (Nat.le_ge_cases (length bids) 5) as [Hb|Hb];
      destruct (Nat.le_ge_cases (length asks) 5) as [Ha|Ha];
      rewrite ?(Nat.min_r _ _ Hb), ?(Nat.min_l _ _ Hb),
        ?(Nat.min_r _ _ Ha), ?(Nat.min_l _ _ Ha); split_and!; lia.
  - intros k Hk. by rewrite !lookup_insert_ne.
Qed.

Lemma on_depth_levels_witness :
  let m := depth_msg "XBTUSD"
             [level 100 1; level 99 2]
             [level 101 1; level 102 2; level 103 3; level 104 4;
              level 105 5; level 106 6; level 107 7] in
  ∃ tick',
    Sc.ticks (snd (Sc.on_depth strptime_zero m sample_caches))
      !! VStr "XBTUSD" = Some tick' ∧
    Sc.tk_bid_price tick' = [VInt 100; VInt 99; VInt 0; VInt 0; VInt 0] ∧
    Sc.tk_ask_price tick' =
      [VInt 101; VInt 102; VInt 103; VInt 104; VInt 105].
Proof.
  cbn zeta.
  destruct (on_depth_levels strptime_zero
              (depth_msg "XBTUSD"
                 [level 100 1; level 99 2]
                 [level 101 1; level 102 2; level 103 3; level 104 4;
                  level 105 5; level 106 6; level 107 7])
              (VStr "XBTUSD")
              (Sc.TickData_new "XBTUSD" BITMEX 0 "BITMEX")
              [level 100 1; level 99 2]
              [level 101 1; level 102 2; level 103 3; level 104 4;
               level 105 5; level 106 6; level 107 7]
              sample_caches
              (snd (Sc.on_depth strptime_zero
                      (depth_msg "XBTUSD"
                         [level 100 1; level 99 2]
                         [level 101 1; level 102 2; level 103 3; level 104 4;
                          level 105 5; level 106 6; level 107 7])
                      sample_caches)))
    as (tick' & Hlook & _ & Hbid & _ & Hask & _).
  - vm_compute. reflexivity.
  - vm_compute. reflexivity.
  - repeat split.
  - reflexivity.
  - reflexivity.
  - vm_compute. reflexivity.
  - exists tick'. split; [exact Hlook|]. split; [exact Hbid|exact Hask].
Defined.

(** X23. Only subscribed symbols are tracked: a public trade or a depth
    message for a symbol with no cached tick changes nothing and emits
    nothing, whatever else the message holds or lacks. *)
Theorem unsubscribed_symbol_ignored strptime d m sym st :
  Sc.ticks st !! sym = None →
  (d !! "symbol" = Some sym → Sc.on_tick strptime d st = (Return tt, st)) ∧
  (Sc.dm_fields m !! "symbol" = Some sym →
   Sc.on_depth strptime m st = (Return tt, st)).
Proof.
  intros Hnone. split; intros Hsym.
  - unfold Sc.on_tick, bind, getitem, gets, ret. rewrite Hsym. simpl.
    by rewrite Hnone.
  - unfold Sc.on_depth, bind, getitem, gets, ret. simpl. rewrite Hsym. simpl.
    by rewrite Hnone.
Qed.

Lemma unsubscribed_symbol_ignored_witness :
  Sc.on_depth strptime_zero (depth_msg "ETHUSD" [level 200 1] [])
    sample_caches = (Return tt, sample_caches).
Proof.
  destruct (unsubscribed_symbol_ignored strptime_zero ∅
              (depth_msg "ETHUSD" [level 200 1] []) (VStr "ETHUSD")
              sample_caches) as [_ H].
  - vm_compute. reflexivity.
  - apply H. vm_compute. reflexivity.
Defined.

(** X24. After a subscription, a public trade for that symbol is emitted as a
    snapshot of the cached tick with the trade's price and time; the depth
    levels and the ticks of other symbols are as before. *)
Theorem subscribe_then_tick strptime now req d price ts dt st :
  d !! "symbol" = Some (VStr (Sc.sr_symbol req)) →
  d !! "price" = Some price →
  d !! "timestamp" = Some ts →
  strptime ts = Return dt →
  ∃ st2 tick,
    Sc.on_tick strptime d (snd (Sc.subscribe now req st))
      = (Return tt, st2) ∧
    Sc.ticks st2 !! VStr (Sc.sr_symbol req) = Some tick ∧
    Sc.trace st2 = Sc.trace st ++ [Sc.GatewayOnTick tick] ∧
    Sc.tk_last_price tick = price ∧
    Sc.tk_datetime tick = dt ∧
    Sc.tk_bid_price tick = replicate 5 (VInt 0) ∧
    Sc.tk_ask_price tick = replicate 5 (VInt 0) ∧
    Sc.tk_bid_volume tick = replicate 5 (VInt 0) ∧
    Sc.tk_ask_volume tick = replicate 5 (VInt 0) ∧
    (∀ k, k ≠ VStr (Sc.sr_symbol req) →
          Sc.ticks st2 !! k = Sc.ticks st !! k).
Proof.
  intros Hsym Hprice Hts Hdt.
  unfold Sc.on_tick, Sc.subscribe, bind, getitem, gets, ret, modify, Sc.pure,
    Sc.emit. simpl.
  rewrite Hsym. simpl. rewrite lookup_insert_eq, Hprice. simpl.
  rewrite Hts. simpl. rewrite Hdt. simpl.
  eexists _, _. split; [reflexivity|]. simpl.
  split_and!; try done.
  - apply lookup_insert_eq.
  - intros k Hk. by rewrite !lookup_insert_ne.
Qed.

Lemma subscribe_then_tick_witness :
  ∃ st2 tick,
    Sc.on_tick strptime_zero
      {[ "symbol" := VStr "XBTUSD"; "price" := VInt 9000;
         "timestamp" := VStr "2020-11-04T09:30:15.123Z" ]} sample_caches
      = (Return tt, st2) ∧
    emitted_ticks st2 = [tick] ∧
    Sc.tk_last_price tick = VInt 9000.
Proof.
  destruct (subscribe_then_tick strptime_zero 0 xbt_subscription
              {[ "symbol" := VStr "XBTUSD"; "price" := VInt 9000;
                 "timestamp" := VStr "2020-11-04T09:30:15.123Z" ]}
              (VInt 9000) (VStr "2020-11-04T09:30:15.123Z") 0
              (Sc.init "BITMEX"))
    as (st2 & tick & Hrun & _ & Htrace & Hprice & _).
  - vm_compute. reflexivity.
  - vm_compute. reflexivity.
  - vm_compute. reflexivity.
  - reflexivity.
  - exists st2, tick. split; [exact Hrun|]. split; [|exact Hprice].
    unfold emitted_ticks. rewrite Htrace. reflexivity.
Defined.

(** X25. The last price is written to the cached tick before the timestamp is
    read. A public trade whose timestamp is missing or does not parse
    therefore raises with nothing emitted, yet the cached tick already
    shows the new price, which the next snapshot of that symbol carries. *)
Theorem on_tick_raise_keeps_price strptime d sym tick price st :
  d !! "symbol" = Some sym →
  Sc.ticks st !! sym = Some tick →
  d !! "price" = Some price →
  (d !! "timestamp" = None ∨
   ∃ ts e, d !! "timestamp" = Some ts ∧ strptime ts = Raise e) →
  ∃ e st',
    Sc.on_tick strptime d st = (Raise e, st') ∧
    Sc.trace st' = Sc.trace st ∧
    Sc.ticks st' !! sym = Some (Sc.set_last_price price tick).
Proof.
  intros Hsym Htick Hprice Hts.
  unfold Sc.on_tick, bind, getitem, gets, ret, raise, modify, Sc.pure.
  rewrite Hsym. simpl. rewrite Htick, Hprice. simpl.
  destruct Hts as [Hts|(ts & e & Hts & He)]; rewrite Hts; simpl.
  - eexists _, _. split; [reflexivity|]. simpl. split; [done|].
    apply lookup_insert_eq.
  - rewrite He. eexists _, _. split; [reflexivity|]. simpl. split; [done|].
    apply lookup_insert_eq.
Qed.

Lemma on_tick_raise_keeps_price_witness :
  ∃ st',
    Sc.on_tick strptime_zero
      {[ "symbol" := VStr "XBTUSD"; "price" := VInt 9100 ]} sample_caches
      = (Raise KeyError, st') ∧
    Sc.tk_last_price <$> Sc.ticks st' !! VStr "XBTUSD" = Some (VInt 9100) ∧
    Sc.trace st' = [].
Proof.
  destruct (on_tick_raise_keeps_price strptime_zero
              {[ "symbol" := VStr "XBTUSD"; "price" := VInt 9100 ]}
              (VStr "XBTUSD") (Sc.TickData_new "XBTUSD" BITMEX 0 "BITMEX")
              (VInt 9100) sample_caches)
    as (e & st' & Hrun & Htrace & Htick).
  - vm_compute. reflexivity.
  - vm_compute. reflexivity.
  - vm_compute. reflexivity.
  - left. vm_compute. reflexivity.
  - assert (e = KeyError) as ->.
    { vm_compute in Hrun. by injection Hrun as <- _. }
    exists st'. split; [exact Hrun|]. split.
    + rewrite Htick. reflexivity.
    + exact Htrace.
Defined.

(** X26. Every margin record that the handler processes to the end leaves the
    account cached under the text of its account id equal to the snapshot
    emitted, with frozen = balance - available; a balance or an available
    margin the record does not carry keeps its previous value (zero for an
    account seen for the first time). *)
Theorem on_account_frozen d st st' :
  Sc.on_account d st = (Return tt, st') →
  ∃ id a b v,
    d !! "account" = Some id ∧
    Sc.accounts st' !! Sc.py_str id = Some a ∧
    Sc.trace st' = Sc.trace st ++ [Sc.GatewayOnAccount a] ∧
    Sc.a_accountid a =
      default (Sc.py_str id) (Sc.a_accountid <$> Sc.accounts st !! Sc.py_str id) ∧
    Sc.a_balance a = VInt b ∧
    Sc.a_available a = VInt v ∧
    Sc.a_frozen a = VInt (b - v) ∧
    Sc.a_balance a =
      default (default (VInt 0)
                 (Sc.a_balance <$> Sc.accounts st !! Sc.py_str id))
              (d !! "marginBalance") ∧
    Sc.a_available a =
      default (default (VInt 0)
                 (Sc.a_available <$> Sc.accounts st !! Sc.py_str id))
              (d !! "availableMargin") ∧
    (∀ k, k ≠ Sc.py_str id → Sc.accounts st' !! k = Sc.accounts st !! k) ∧
    Sc.ticks st' = Sc.ticks st.
Proof.
  unfold Sc.on_account, bind, getitem, gets, ret, raise, modify, Sc.pure,
    Sc.emit, get_default.
  destruct (d !! "account") as [id|]; [|done]. simpl.
  destruct (Sc.accounts st !! Sc.py_str id) as [acc|] eqn:Hacc; simpl.
  - destruct (default (Sc.a_balance acc) (d !! "marginBalance"))
      as [|b|] eqn:Hb; try done.
    destruct (default (Sc.a_available acc) (d !! "availableMargin"))
      as [|v|] eqn:Hv; try done.
    simpl. unfold modify. simpl. intros [= <-]. eexists id, _, b, v. simpl.
    rewrite ?Hacc. simpl. rewrite ?Hb, ?Hv.
    split_and!; try done.
    + apply lookup_insert_eq.
    + intros k Hk. by rewrite !lookup_insert_ne.
  - destruct (default (VInt 0) (d !! "marginBalance")) as [|b|] eqn:Hb;
      try done.
    destruct (default (VInt 0) (d !! "availableMargin")) as [|v|] eqn:Hv;
      try done.
    simpl. unfold modify. simpl. intros [= <-]. eexists id, _, b, v. simpl.
    rewrite ?Hacc. simpl. rewrite ?Hb, ?Hv.
    split_and!; try done.
    + apply lookup_insert_eq.
    + intros k Hk. by rewrite !lookup_insert_ne.
Qed.

Lemma on_account_frozen_witness :
  let st1 := snd (Sc.on_account (margin_record 7 (Some 1000) (Some 400))
                    (Sc.init "BITMEX")) in
  let st2 := snd (Sc.on_account (margin_record 7 None (Some 250)) st1) in
  ∃ a,
    Sc.accounts st2 !! "7" = Some a ∧
    Sc.a_balance a = VInt 1000 ∧
    Sc.a_available a = VInt 250 ∧
    Sc.a_frozen a = VInt 750.
Proof.
  cbn zeta.
  set (st1 := snd (Sc.on_account (margin_record 7 (Some 1000) (Some 400))
                     (Sc.init "BITMEX"))).
  destruct (on_account_frozen (margin_record 7 None (Some 250)) st1
              (snd (Sc.on_account (margin_record 7 None (Some 250)) st1)))
    as (id & a & b & v & Hid & Hlook & _ & _ & Hb & Hv & Hfr & Hb' & Hv' & _).
  - vm_compute. reflexivity.
  - assert (id = VInt 7) as ->.
    { vm_compute in Hid. by injection Hid as <-. }
    exists a. split; [exact Hlook|].
    assert (Sc.a_balance a = VInt 1000) as Eb.
    { rewrite Hb'. vm_compute. reflexivity. }
    assert (Sc.a_available a = VInt 250) as Ev.
    { rewrite Hv'. vm_compute. reflexivity. }
    split; [exact Eb|]. split; [exact Ev|].
    rewrite Hfr. rewrite Hb in Eb. rewrite Hv in Ev.
    injection Eb as ->. injection Ev as ->. reflexivity.
Defined.

(** X27. An instrument record yields a contract exactly when it has a tick
    size, a lot size that is not zero and a symbol; the contract carries
    the record's tick size and lot size. A record with a tick size but no
    lot size, or with both but no symbol, raises [KeyError]. In no case
    is a cache touched. *)
Theorem on_contract_filter d st :
  let out := fst (Sc.on_contract d st) in
  let st' := snd (Sc.on_contract d st) in
  Sc.ticks st' = Sc.ticks st ∧
  Sc.accounts st' = Sc.accounts st ∧
  (if listed d then
     out = Return tt ∧
     ∃ c, Sc.trace st' = Sc.trace st ++ [Sc.GatewayOnContract c] ∧
          d !! "symbol" = Some (Sc.c_symbol c) ∧
          d !! "tickSize" = Some (Sc.c_pricetick c) ∧
          d !! "lotSize" = Some (Sc.c_size c) ∧
          Sc.c_name c = Sc.c_symbol c ∧
          Sc.c_exchange c = BITMEX ∧
          Sc.c_product c = Sc.FUTURES
   else
     Sc.trace st' = Sc.trace st ∧
     (out = Raise KeyError ↔
      is_Some (d !! "tickSize") ∧
      (d !! "lotSize" = None ∨
       ∃ lot, d !! "lotSize" = Some lot ∧ truthy lot = true ∧
              d !! "symbol" = None))).
Proof.
  cbn zeta. unfold Sc.on_contract, listed, bind, getitem, gets, ret, raise,
    Sc.emit, modify.
  destruct (d !! "tickSize") as [tickSize|]; simpl.
  - destruct (d !! "lotSize") as [lot|]; simpl.
    + destruct (truthy lot) eqn:Hlot; simpl.
      * destruct (d !! "symbol") as [sym|]; simpl.
        -- split_and!; try done. eexists. by split_and!.
        -- split_and!; try done. split; [|done]. intros _.
           split; [by eexists|]. right. by exists lot.
      * destruct (d !! "symbol") as [sym|]; simpl;
          (split_and!; try done; split; [done|]);
          intros [_ [H|(lot' & [= <-] & Ht & _)]]; congruence.
    + split_and!; try done. split; [|done]. intros _.
      split; [by eexists|]. by left.
  - split_and!; try done. split; [done|]. by intros [[x Hx] _].
Qed.

(** ** Signer: every kind of request *)

(** X28. Signing writes to the request only, and only to its data and
    headers. A request whose data is already a non-empty string cannot be
    signed: [urlencode] raises [TypeError] and the request is as it was.
    Any other request first gets its data replaced by the urlencoded body
    (the empty string for no data or an empty dict). Then, with the secret
    still the text [__init__] left, [hmac.new] raises [TypeError] and the
    request stays with the new data and its old headers; with the bytes
    [connect] stored, the request gets the five headers, [api-expires] 30
    seconds ahead and the signature over method, "/api/v1", path with
    query, expiry and body, and is returned. *)
Theorem sign_request hmac urlencode now request self :
  let query :=
    match params request with
    | [] => path request
    | ps => path request +:+ "?" +:+ urlencode ps
    end in
  match data request with
  | DataStr (String c s) =>
      Rest.sign hmac urlencode now self request = (Raise TypeError, request)
  | body_data =>
      let body :=
        match body_data with
        | DataDict (kv0 :: kv) => urlencode (kv0 :: kv)
        | _ => ""
        end in
      match Rest.secret self with
      | Rest.SecretStr _ =>
          ∃ left_,
            Rest.sign hmac urlencode now self request
              = (Raise TypeError, left_) ∧
            data left_ = DataStr body ∧
            headers left_ = headers request ∧
            method left_ = method request ∧
            path left_ = path request ∧
            params left_ = params request ∧
            extra left_ = extra request ∧
            response left_ = response request
      | Rest.SecretBytes sk =>
          ∃ signed,
            Rest.sign hmac urlencode now self request
              = (Return signed, signed) ∧
            method signed = method request ∧
            path signed = path request ∧
            params signed = params request ∧
            extra signed = extra request ∧
            response signed = response request ∧
            data signed = DataStr body ∧
            headers signed =
              [("Content-Type", "application/x-www-form-urlencoded");
               ("Accept", "application/json");
               ("api-key", Rest.key self);
               ("api-expires", pretty (now + 30));
               ("api-signature",
                hmac sk
                  (method request +:+ "/api/v1" +:+ query
                   +:+ pretty (now + 30) +:+ body))]
      end
  end.
Proof.
  cbn zeta. unfold Rest.sign, bind, gets, modify, ret, raise.
  destruct (data request) as [|[|kv0 kv]|[|c s]] eqn:Hd; simpl;
    try (destruct request; simpl in *; by subst);
    destruct (Rest.secret self); simpl;
    eexists; split_and!; try reflexivity;
    simpl; by destruct (params request).
Qed.

(** A request signed before [connect] has run, and the same one after. *)
Lemma sign_request_witness :
  let hmac := λ k m : string, k +:+ ":" +:+ m in
  let urlencode := λ kv : list (string * value), "symbol=XBTUSD" in
  let request := {| method := "POST"; path := "/order"; params := [];
                    data := DataDict [("symbol", VStr "XBTUSD")];
                    headers := []; extra := None; response := None |} in
  let self := Rest.init "BITMEX" in
  fst (Rest.sign hmac urlencode 100 self request) = Raise TypeError ∧
  data (snd (Rest.sign hmac urlencode 100 self request))
    = DataStr "symbol=XBTUSD" ∧
  ∃ signed,
    fst (Rest.sign hmac urlencode 100
           (Rest.connect_fields "id" "s3cret" 201104093000 self) request)
      = Return signed ∧
    headers signed !! 4%nat =
      Some ("api-signature", "s3cret:POST/api/v1/order130symbol=XBTUSD").
Proof.
  cbn zeta.
  pose proof (sign_request (λ k m : string, k +:+ ":" +:+ m)
                (λ _, "symbol=XBTUSD") 100
                {| method := "POST"; path := "/order"; params := [];
                   data := DataDict [("symbol", VStr "XBTUSD")];
                   headers := []; extra := None; response := None |}
                (Rest.init "BITMEX")) as H0.
  pose proof (sign_request (λ k m : string, k +:+ ":" +:+ m)
                (λ _, "symbol=XBTUSD") 100
                {| method := "POST"; path := "/order"; params := [];
                   data := DataDict [("symbol", VStr "XBTUSD")];
                   headers := []; extra := None; response := None |}
                (Rest.connect_fields "id" "s3cret" 201104093000
                   (Rest.init "BITMEX"))) as H1.
  simpl in H0, H1.
  destruct H0 as (l & Hl & Hdata & _). destruct H1 as (signed & Hs & H1).
  rewrite Hl, Hs. simpl. split_and!; [done|done|].
  exists signed. split; [done|].
  destruct H1 as (_ & _ & _ & _ & _ & _ & ->). reflexivity.
Defined.
